(** * load_snapshots: the dump-and-load pipeline of [src/load_snapshots.py]

    The script copies three tables of a Postgres read replica into the
    [snapshots] schema of a Redshift warehouse.  Its two functions, [dump]
    (lines 16-53) and [main] (lines 56-121), are embedded here as
    computations in a state-and-exception monad over a [world] that holds
    everything the script touches: the clock, the local temporary files,
    the S3 bucket, the transaction of the read-replica connection and the
    loads of the warehouse connection.  A Python exception is a result
    [inl e]: the script has no [try], so an exception leaves every
    enclosing block and [main], and the world keeps what was done before
    it was raised.

    Outside the model: the buffering of the temporary file, unset
    environment variables, [initialize_sentry] and the log level.
    The texts that the script itself builds (paths, statements, lines
    of JSON) are ASCII and are Rocq strings; the strings among the values
    of a row are sequences of Unicode code points. *)

From Stdlib Require Import ZArith Lia String Ascii DecimalString.
From Stdlib Require DecimalPos.
From stdpp Require Import base option list strings gmap.

Local Open Scope Z_scope.

(** ** Calendar dates ([datetime]) *)

Module Calendar.

(** A [datetime.datetime] value.  The constructor of the Python class only
    builds values that satisfy [datetime_ok]. *)
Record datetime := DateTime {
  dt_year : Z;
  dt_month : Z;
  dt_day : Z;
  dt_hour : Z;
  dt_minute : Z;
  dt_second : Z;
  dt_microsecond : Z
}.

(** [datetime._is_leap] *)
Definition _is_leap (y : Z) : bool :=
  (y mod 4 =? 0) && (negb (y mod 100 =? 0) || (y mod 400 =? 0)).

(** [datetime._days_in_month] *)
Definition _days_in_month (y m : Z) : Z :=
  if (m =? 2) && _is_leap y then 29
  else if m =? 2 then 28
  else if (m =? 4) || (m =? 6) || (m =? 9) || (m =? 11) then 30
  else 31.

Definition datetime_ok (t : datetime) : bool :=
  (1 <=? dt_year t) && (dt_year t <=? 9999) &&
  (1 <=? dt_month t) && (dt_month t <=? 12) &&
  (1 <=? dt_day t) && (dt_day t <=? _days_in_month (dt_year t) (dt_month t)).

Definition with_date (t : datetime) (y m d : Z) : datetime :=
  {| dt_year := y; dt_month := m; dt_day := d;
     dt_hour := dt_hour t; dt_minute := dt_minute t;
     dt_second := dt_second t; dt_microsecond := dt_microsecond t |}.

(** [t - timedelta(days=1)]: the same time of day on the previous calendar
    day.  Python raises [OverflowError] below 0001-01-01 ([None] here). *)
Definition minus_one_day (t : datetime) : option datetime :=
  if 1 <? dt_day t then
    Some (with_date t (dt_year t) (dt_month t) (dt_day t - 1))
  else if 1 <? dt_month t then
    Some (with_date t (dt_year t) (dt_month t - 1)
                    (_days_in_month (dt_year t) (dt_month t - 1)))
  else if 1 <? dt_year t then
    Some (with_date t (dt_year t - 1) 12 31)
  else None.

Definition same_date (a b : datetime) : Prop :=
  dt_year a = dt_year b /\ dt_month a = dt_month b /\ dt_day a = dt_day b.

(** Decimal digits. *)
Definition digit (n : Z) : ascii := ascii_of_N (48 + Z.to_N n).

(** [str(n)] of a Python int. *)
Definition str_int (n : Z) : string := NilZero.string_of_int (Z.to_int n).

(** The conversions [%m] and [%d] of [strftime]: two digits. *)
Definition pad2 (n : Z) : string :=
  String (digit (n / 10 mod 10)) (String (digit (n mod 10)) EmptyString).

(** [t.strftime("%Y-%m-%d")].  CPython hands the format to the
    [strftime] of the C library, which prints [%Y] as the decimal number
    of the year, without padding: four digits from the year 1000 on,
    fewer below. *)
Definition strftime_Ymd (t : datetime) : string :=
  str_int (dt_year t) +:+ "-" +:+ pad2 (dt_month t) +:+ "-" +:+ pad2 (dt_day t).

(** [t.strftime("%m")] and [t.strftime("%d")] *)
Definition strftime_m (t : datetime) : string := pad2 (dt_month t).
Definition strftime_d (t : datetime) : string := pad2 (dt_day t).

Definition is_digit (c : ascii) : bool :=
  let n := N_of_ascii c in ((48 <=? n) && (n <=? 57))%N.

End Calendar.
Export Calendar.

(** ** Python values, dicts and [json.dumps] *)

Module Json.

(** A Python [str]: a sequence of Unicode code points. *)
Definition ustring := list N.

(** The [str] of a text written in ASCII. *)
Definition ustr (s : string) : ustring :=
  map N_of_ascii (list_ascii_of_string s).

(** A [float], given by what [float.__repr__] prints for it: one of the
    three special values, or a decimal number, with or without exponent. *)
Inductive pyfloat :=
| FNaN
| FInfinity
| FNegInfinity
| FFinite (d : Decimal.decimal).

(** The values a row of a query result or a bind parameter can hold, as
    psycopg2 delivers them: the types that [json.dumps] encodes by itself
    ([None], [bool], [int], [float], [str], a [list] for an array, a [dict]
    with [str] keys for a json or hstore column), dates, and everything
    else ([Decimal], [bytes], ...), which [json.dumps] hands to its
    [default] hook as it does dates. *)
#[local] Unset Elimination Schemes.
Inductive pyval :=
| PyNone
| PyBool (b : bool)
| PyInt (z : Z)
| PyFloat (f : pyfloat)
| PyStr (s : ustring)
| PyList (items : list pyval)
| PyDict (items : list (ustring * pyval))
| PyDate (y m d : Z)
| PyDateTime (t : datetime)
| PyOpaque (repr : string).
#[local] Set Elimination Schemes.

(** Induction on a value and on the values it holds. *)
Fixpoint pyval_ind (P : pyval -> Prop)
    (HNone : P PyNone) (HBool : forall b, P (PyBool b))
    (HInt : forall z, P (PyInt z)) (HFloat : forall f, P (PyFloat f))
    (HStr : forall s, P (PyStr s))
    (HList : forall items, Forall P items -> P (PyList items))
    (HDict : forall items,
       Forall (fun kv => P (snd kv)) items -> P (PyDict items))
    (HDate : forall y m d, P (PyDate y m d))
    (HDateTime : forall t, P (PyDateTime t))
    (HOpaque : forall r, P (PyOpaque r))
    (v : pyval) {struct v} : P v :=
  let rec := pyval_ind P HNone HBool HInt HFloat HStr HList HDict HDate
                       HDateTime HOpaque in
  match v with
  | PyNone => HNone
  | PyBool b => HBool b
  | PyInt z => HInt z
  | PyFloat f => HFloat f
  | PyStr s => HStr s
  | PyList items =>
      HList items
        ((fix all (l : list pyval) : Forall P l :=
            match l with
            | [] => @List.Forall_nil _ P
            | x :: l' => @List.Forall_cons _ P x l' (rec x) (all l')
            end) items)
  | PyDict items =>
      HDict items
        ((fix all (l : list (ustring * pyval))
            : Forall (fun kv => P (snd kv)) l :=
            match l with
            | [] => @List.Forall_nil _ _
            | kv :: l' => @List.Forall_cons _ _ kv l' (rec (snd kv)) (all l')
            end) items)
  | PyDate y m d => HDate y m d
  | PyDateTime t => HDateTime t
  | PyOpaque r => HOpaque r
  end.

(** A Python [dict] keeps its keys in the order of their first insertion;
    assigning to a key that is present replaces the value in place. *)
Definition dict := list (string * pyval).

Fixpoint dict_set (data : dict) (k : string) (v : pyval) : dict :=
  match data with
  | [] => [(k, v)]
  | (k', v') :: rest =>
      if String.eqb k' k then (k', v) :: rest
      else (k', v') :: dict_set rest k v
  end.

Fixpoint dict_get (data : dict) (k : string) : option pyval :=
  match data with
  | [] => None
  | (k', v') :: rest => if String.eqb k' k then Some v' else dict_get rest k
  end.

Definition keys (data : dict) : list string := map fst data.

Definition dquote : ascii := "034"%char.
Definition newline : ascii := "010"%char.
Definition backslash : ascii := "\"%char.

Definition hex_digit (n : N) : ascii :=
  if (n <? 10)%N then ascii_of_N (48 + n) else ascii_of_N (87 + n).

(** ['\\u{0:04x}'.format(n)] *)
Definition u_escape (n : N) : string :=
  String backslash
    (String "u"
       (String (hex_digit (n / 4096 mod 16))
          (String (hex_digit (n / 256 mod 16))
             (String (hex_digit (n / 16 mod 16))
                (String (hex_digit (n mod 16)) EmptyString))))).

(** One character of [json.encoder.py_encode_basestring_ascii]: the quote,
    the backslash and five control characters have a short escape, the
    rest of the printable ASCII range [' '..'~'] is kept, every other
    code point is written as [\uXXXX], as a surrogate pair above the
    basic plane. *)
Definition escape_char (n : N) : string :=
  if (n =? 34)%N then String backslash (String dquote EmptyString)
  else if (n =? 92)%N then String backslash (String backslash EmptyString)
  else if (n =? 10)%N then String backslash "n"
  else if (n =? 13)%N then String backslash "r"
  else if (n =? 9)%N then String backslash "t"
  else if (n =? 12)%N then String backslash "f"
  else if (n =? 8)%N then String backslash "b"
  else if ((32 <=? n) && (n <=? 126))%N then String (ascii_of_N n) EmptyString
  else if (n <? 65536)%N then u_escape n
  else
    let m := (n - 65536)%N in
    u_escape (N.lor 55296 (N.land (N.shiftr m 10) 1023)) +:+
    u_escape (N.lor 56320 (N.land m 1023)).

Fixpoint escape (s : ustring) : string :=
  match s with
  | [] => EmptyString
  | c :: rest => escape_char c +:+ escape rest
  end.

Definition encode_basestring_ascii (s : ustring) : string :=
  String dquote (escape s +:+ String dquote EmptyString).

(** The digits after the point, and the exponent, as [repr] prints
    them. *)
Definition fraction (f : Decimal.uint) : string :=
  match f with
  | Decimal.Nil => EmptyString
  | _ => "." +:+ NilEmpty.string_of_uint f
  end.

Definition exponent (e : Decimal.signed_int) : string :=
  match e with
  | Decimal.Pos d => "e+" +:+ NilEmpty.string_of_uint d
  | Decimal.Neg d => "e-" +:+ NilEmpty.string_of_uint d
  end.

(** [json.encoder]'s [floatstr], with [allow_nan] left at its default. *)
Definition float_repr (f : pyfloat) : string :=
  match f with
  | FNaN => "NaN"
  | FInfinity => "Infinity"
  | FNegInfinity => "-Infinity"
  | FFinite (Decimal.Decimal i f) => NilZero.string_of_int i +:+ fraction f
  | FFinite (Decimal.DecimalExp i f e) =>
      NilZero.string_of_int i +:+ fraction f +:+ exponent e
  end.

Section Dumps.
(** The [default] hook of [json.dumps]: called on every value the encoder
    does not know; what it returns is encoded in its place. *)
Variable default : pyval -> option string.

Fixpoint encode_value (v : pyval) : string :=
  match v with
  | PyNone => "null"
  | PyBool true => "true"
  | PyBool false => "false"
  | PyInt z => str_int z
  | PyFloat f => float_repr f
  | PyStr s => encode_basestring_ascii s
  | PyList items =>
      "[" +:+ String.concat ", " (map encode_value items) +:+ "]"
  | PyDict items =>
      "{" +:+
      String.concat ", "
        (map (fun kv => encode_basestring_ascii (fst kv) +:+ ": " +:+
                        encode_value (snd kv)) items) +:+
      "}"
  | PyDate _ _ _ | PyDateTime _ | PyOpaque _ =>
      match default v with
      | Some s => encode_basestring_ascii (ustr s)
      | None => "null"
      end
  end.

Definition encode_item (kv : string * pyval) : string :=
  encode_basestring_ascii (ustr (fst kv)) +:+ ": " +:+ encode_value (snd kv).

(** [json.dumps(data, default=default)] with the separators [", "] and
    [": "] that the module uses by default. *)
Definition json_dumps (data : dict) : string :=
  "{" +:+ String.concat ", " (map encode_item data) +:+ "}".
End Dumps.

End Json.
Export Json.

(** ** The world of the script *)

Module World.

(** A column of [cursor.description]. *)
Record column := Column { col_name : string; col_type_code : Z }.

(** What a server-side cursor delivers for one query: the column metadata,
    the rows in the order of the source and, when [dropped] is set, a
    connection failure at the fetch that follows the last of these rows. *)
Record result_set := ResultSet {
  description : list column;
  rows : list (list pyval);
  dropped : bool
}.

(** One executed [COPY]: the target, the blob location, the role and the
    blob as the warehouse read it. *)
Record load := Load {
  ld_schema : string;
  ld_table : string;
  ld_from : string;
  ld_role : string;
  ld_blob : string
}.

Inductive exn :=
| OverflowError     (* datetime arithmetic below 0001-01-01 *)
| IndexError        (* row[idx] out of range *)
| ConnectionError   (* psycopg2.connect *)
| ExtractionError   (* execute or fetch on the read replica *)
| UploadError       (* upload_file *)
| LoadError         (* the COPY statement *)
| NotificationError. (* dd_events *)

(** What the script did, in the order in which it did it. *)
Inductive event :=
| EBegin (txn : nat)          (* the read replica opens a transaction *)
| EExecute (txn : nat) (query : string) (params : option (list pyval))
| EFetch (txn : nat)          (* the cursor delivers the next row *)
| ERecord (temp : nat) (data : dict)   (* the line of [data] is written *)
| EUpload (uri : string)      (* the upload to [uri] is done *)
| ECopy (table uri : string)  (* the COPY of [uri] into [table] is done *)
| EReplicaCommit
| EReplicaRollback
| ERedshiftCommit
| ELog (msg : string)
| EDatadog (title : string).

(** Everything outside the script: the clock, the databases, the object
    store, the environment variables and the helper module. *)
Record external := External {
  (** the value of the n-th call of [datetime.today()] *)
  clock : nat -> datetime;
  replica_reachable : bool;
  redshift_reachable : bool;
  (** the answer of the read replica to the statement number [i], from 0,
      of the transaction [t]; [None] when the statement is rejected.  The
      data that a statement sees is for the server to decide: the script
      sets no isolation level *)
  source : nat -> nat -> string -> option (list pyval) -> option result_set;
  (** whether the object store accepts the upload to a location *)
  upload_ok : string -> bool;
  (** whether the warehouse accepts the blob for a table *)
  copy_ok : string -> string -> bool;
  (** whether [dd_events], a module that is not part of these sources,
      creates the event it is asked for *)
  datadog_ok : bool;
  DW_BUCKET : string;
  REDSHIFT_ROLE : string;
  (** [helpers.date_string_or_none], the [default] hook handed to
      [json.dumps]: a date string, or [None] *)
  date_string_or_none : pyval -> option string
}.

Record world := World {
  clock_reads : nat;
  next_temp : nat;
  (** the local temporary files by name *)
  temp_files : gmap nat string;
  (** the objects of the store by location *)
  s3 : gmap string string;
  (** the transaction the read-replica connection is in, if any, and
      the number of statements executed in it so far *)
  replica_txn : option nat;
  replica_stmts : nat;
  next_txn : nat;
  (** loads executed on the warehouse connection and not yet committed *)
  pending : list load;
  (** loads committed in the warehouse *)
  visible : list load;
  trace : list event
}.

Definition emit (e : event) (w : world) : world :=
  {| clock_reads := clock_reads w; next_temp := next_temp w;
     temp_files := temp_files w; s3 := s3 w;
     replica_txn := replica_txn w; replica_stmts := replica_stmts w;
     next_txn := next_txn w;
     pending := pending w; visible := visible w;
     trace := trace w ++ [e] |}.

Definition set_temp_files (f : gmap nat string) (w : world) : world :=
  {| clock_reads := clock_reads w; next_temp := next_temp w;
     temp_files := f; s3 := s3 w;
     replica_txn := replica_txn w; replica_stmts := replica_stmts w;
     next_txn := next_txn w;
     pending := pending w; visible := visible w;
     trace := trace w |}.

Definition set_s3 (o : gmap string string) (w : world) : world :=
  {| clock_reads := clock_reads w; next_temp := next_temp w;
     temp_files := temp_files w; s3 := o;
     replica_txn := replica_txn w; replica_stmts := replica_stmts w;
     next_txn := next_txn w;
     pending := pending w; visible := visible w;
     trace := trace w |}.

Definition set_replica_txn (t : option nat) (w : world) : world :=
  {| clock_reads := clock_reads w; next_temp := next_temp w;
     temp_files := temp_files w; s3 := s3 w;
     replica_txn := t; replica_stmts := replica_stmts w;
     next_txn := next_txn w;
     pending := pending w; visible := visible w;
     trace := trace w |}.

Definition set_loads (p v : list load) (w : world) : world :=
  {| clock_reads := clock_reads w; next_temp := next_temp w;
     temp_files := temp_files w; s3 := s3 w;
     replica_txn := replica_txn w; replica_stmts := replica_stmts w;
     next_txn := next_txn w;
     pending := p; visible := v;
     trace := trace w |}.

(** *** The monad: state and exceptions *)

Definition M (A : Type) : Type := world -> world * (exn + A).

Definition ret {A} (a : A) : M A := fun w => (w, inr a).
Definition raise {A} (e : exn) : M A := fun w => (w, inl e).
Definition bind {A B} (m : M A) (k : A -> M B) : M B :=
  fun w =>
    match m w with
    | (w', inl e) => (w', inl e)
    | (w', inr a) => k a w'
    end.

End World.
Export World.

Notation "'let*' x ':=' m 'in' k" := (bind m (fun x => k))
  (at level 10, x pattern, m at level 100, k at level 200, only parsing).

(** ** The script *)

Module Script.

Section Pipeline.
Variable E : external.

(** [datetime.today()] (lines 30 and 66) *)
Definition datetime_today : M datetime := fun w =>
  ({| clock_reads := S (clock_reads w); next_temp := next_temp w;
      temp_files := temp_files w; s3 := s3 w;
      replica_txn := replica_txn w; replica_stmts := replica_stmts w;
     next_txn := next_txn w;
      pending := pending w; visible := visible w;
      trace := trace w |},
   inr (clock E (clock_reads w))).

(** [t - timedelta(days=1)] *)
Definition minus_timedelta_1 (t : datetime) : M datetime :=
  match minus_one_day t with
  | Some t' => ret t'
  | None => raise OverflowError
  end.

(** [tempfile.NamedTemporaryFile(delete=False)] (line 24): a new empty
    file under a name not used before; closing it does not delete it. *)
Definition NamedTemporaryFile : M nat := fun w =>
  ({| clock_reads := clock_reads w; next_temp := S (next_temp w);
      temp_files := <[next_temp w := EmptyString]> (temp_files w);
      s3 := s3 w;
      replica_txn := replica_txn w; replica_stmts := replica_stmts w;
     next_txn := next_txn w;
      pending := pending w; visible := visible w;
      trace := trace w |},
   inr (next_temp w)).

(** [temp.write(str.encode(line))] (line 34) for the line of the record
    [data] *)
Definition temp_write (temp : nat) (data : dict) (line : string) : M unit :=
  fun w =>
    (emit (ERecord temp data)
       (set_temp_files
          (<[temp := default EmptyString (temp_files w !! temp) +:+ line]>
             (temp_files w)) w),
     inr tt).

(** [temp.close()] (line 36) *)
Definition temp_close (temp : nat) : M unit := ret tt.

Definition s3_uri (bucket key : string) : string :=
  "s3://" +:+ bucket +:+ "/" +:+ key.

(** [s3_resource.Object(bucket, key).upload_file(temp.name)] (line 37);
    the store is addressed by the location that the [COPY] statement is
    given, ["s3://{0}/{1}".format(bucket, key)] (line 51). *)
Definition upload_file (bucket key : string) (temp : nat) : M unit :=
  fun w =>
    if upload_ok E (s3_uri bucket key) then
      (emit (EUpload (s3_uri bucket key))
         (set_s3 (<[s3_uri bucket key :=
                      default EmptyString (temp_files w !! temp)]> (s3 w)) w),
       inr tt)
    else (w, inl UploadError).

(** [os.remove(temp.name)] (line 38) *)
Definition os_remove (temp : nat) : M unit := fun w =>
  (set_temp_files (delete temp (temp_files w)) w, inr tt).

(** A cursor of the read replica after [execute]. *)
Record cursor := Cursor { curs_txn : nat; curs_result : result_set }.

(** One more statement executed in the transaction of the read
    replica. *)
Definition count_statement (w : world) : world :=
  {| clock_reads := clock_reads w; next_temp := next_temp w;
     temp_files := temp_files w; s3 := s3 w;
     replica_txn := replica_txn w; replica_stmts := S (replica_stmts w);
     next_txn := next_txn w;
     pending := pending w; visible := visible w;
     trace := trace w |}.

(** [curs.execute(query, params)] on the read replica (line 26).  psycopg2
    opens a transaction with the first statement of a connection that is
    not in one; the statement then runs inside the transaction, as the
    next of its statements, and the source answers it as it answers that
    statement of that transaction. *)
Definition replica_execute (query : string) (params : option (list pyval))
  : M cursor := fun w =>
  let w1 :=
    match replica_txn w with
    | Some _ => w
    | None =>
        emit (EBegin (next_txn w))
          {| clock_reads := clock_reads w; next_temp := next_temp w;
             temp_files := temp_files w; s3 := s3 w;
             replica_txn := Some (next_txn w); replica_stmts := 0;
             next_txn := S (next_txn w);
             pending := pending w; visible := visible w;
             trace := trace w |}
    end in
  let t := default O (replica_txn w1) in
  let i := replica_stmts w1 in
  let w2 := emit (EExecute t query params) (count_statement w1) in
  match source E t i query params with
  | Some r => (w2, inr (Cursor t r))
  | None => (w2, inl ExtractionError)
  end.

(** [for row in curs: body(row)] over a server-side cursor (line 28): the
    rows are fetched one after the other while the body runs; a dropped
    connection raises at the fetch after the last row delivered. *)
Fixpoint for_each_row (t : nat) (rs : list (list pyval)) (dropped : bool)
    (body : list pyval -> M unit) : M unit :=
  match rs with
  | [] => if dropped then raise ExtractionError else ret tt
  | row :: rest =>
      fun w =>
        match body row (emit (EFetch t) w) with
        | (w', inl e) => (w', inl e)
        | (w', inr _) => for_each_row t rest dropped body w'
        end
  end.

Definition for_row_in (curs : cursor) (body : list pyval -> M unit)
  : M unit :=
  for_each_row (curs_txn curs) (rows (curs_result curs))
               (dropped (curs_result curs)) body.

(** [for idx, col in enumerate(curs.description): data[col.name] = row[idx]]
    (lines 31-32) *)
Fixpoint set_columns (data : dict) (idx : nat) (descr : list column)
    (row : list pyval) : exn + dict :=
  match descr with
  | [] => inr data
  | col :: rest =>
      match row !! idx with
      | Some v => set_columns (dict_set data (col_name col) v) (S idx) rest row
      | None => inl IndexError
      end
  end.

Definition lift {A} (r : exn + A) : M A := fun w => (w, r).

(** The [COPY] statement executed on the warehouse connection (lines
    42-52): the warehouse reads the blob at [uri]; the load stays pending
    until the connection commits. *)
Definition redshift_copy (schema table uri role : string) : M unit :=
  fun w =>
    match s3 w !! uri with
    | Some blob =>
        if copy_ok E table blob then
          (emit (ECopy table uri)
             (set_loads (pending w ++ [Load schema table uri role blob])
                        (visible w) w),
           inr tt)
        else (w, inl LoadError)
    | None => (w, inl LoadError)
    end.

(** [logging.info] (lines 53 and 118) *)
Definition logging_info (msg : string) : M unit := fun w =>
  (emit (ELog msg) w, inr tt).

(** The record of one row: the dict that the body of the loop of [dump]
    fills before it calls [json.dumps] (lines 29-32). *)
Definition row_data (yesterday : datetime) (descr : list column)
    (row : list pyval) : exn + dict :=
  set_columns [("snapshot_date", PyStr (ustr (strftime_Ymd yesterday)))]
              0 descr row.

(** ["{}\n".format(json.dumps(data, default=date_string_or_none))] *)
Definition record_line (data : dict) : string :=
  json_dumps (date_string_or_none E) data +:+ String newline EmptyString.

(** The body of [for row in curs] in [dump] (lines 29-34): the clock is
    read for every row. *)
Definition write_row (temp : nat) (descr : list column) (row : list pyval)
  : M unit :=
  let* today := datetime_today in
  let* yesterday := minus_timedelta_1 today in
  let* data := lift (row_data yesterday descr row) in
  temp_write temp data (record_line data).

(** [dump(read_replica, redshift, to_file, copy_to, query, params)] (lines
    16-53); the two connections are those of the world.  Leaving the
    [with] block of a cursor closes the cursor, which changes nothing
    modelled here. *)
Definition dump (to_file copy_to query : string)
    (params : option (list pyval)) : M unit :=
  let bucket := DW_BUCKET E in
  let* _ :=
    (let* temp := NamedTemporaryFile in
     let* curs := replica_execute query params in
     let* _ :=
       for_row_in curs (write_row temp (description (curs_result curs))) in
     let* _ := temp_close temp in
     let* _ := upload_file bucket to_file temp in
     os_remove temp) in
  let* _ :=
    redshift_copy "snapshots" copy_to (s3_uri bucket to_file)
                  (REDSHIFT_ROLE E) in
  logging_info ("SUCCESS! snapshots." +:+ copy_to +:+ " table loaded").

(** [psycopg2.connect] (lines 61-62): a new connection is in no
    transaction and has nothing pending. *)
Definition connect_replica : M unit := fun w =>
  if replica_reachable E then (set_replica_txn None w, inr tt)
  else (w, inl ConnectionError).

Definition connect_redshift : M unit := fun w =>
  if redshift_reachable E then (set_loads [] (visible w) w, inr tt)
  else (w, inl ConnectionError).

(** [with read_replica: body] (line 65): psycopg2 commits the transaction
    of the connection when the body returns and rolls it back when it
    raises. *)
Definition with_read_replica {A} (body : M A) : M A := fun w =>
  match body w with
  | (w', inr a) => (emit EReplicaCommit (set_replica_txn None w'), inr a)
  | (w', inl e) => (emit EReplicaRollback (set_replica_txn None w'), inl e)
  end.

(** [redshift.commit()] (line 117) *)
Definition redshift_commit : M unit := fun w =>
  (emit ERedshiftCommit (set_loads [] (visible w ++ pending w) w), inr tt).

(** [dd_events.create(dd_events(title))] (lines 120-121): a call into a
    module that is not part of these sources, which creates the event or
    raises. *)
Definition dd_events_create (title : string) : M unit := fun w =>
  if datadog_ok E then (emit (EDatadog title) w, inr tt)
  else (w, inl NotificationError).

(** [date_params] (lines 68-73) *)
Definition date_params (day : datetime) : string :=
  "snapshot_year=" +:+ str_int (dt_year day) +:+
  "/snapshot_month=" +:+ strftime_m day +:+
  "/snapshot_day=" +:+ strftime_d day.

(** The three statements, character for character (lines 76-84, 89-97
    and 103-112). *)
Definition users_query : string := "
            SELECT
                id,
                created_at,
                updated_at,
                deleted_at,
                name
            FROM users
            ".

Definition projects_query : string := "
            SELECT
                id,
                repository_id,
                created_at,
                updated_at,
                deleted_at,
                name
            FROM projects".

Definition activities_query : string := "
            SELECT
                id,
                event,
                created_at,
                updated_at,
                project_id,
                user_id
            FROM activities
            WHERE DATE(created_at) = %s".

(** [day.date()] (line 114) *)
Definition date_of (day : datetime) : pyval :=
  PyDate (dt_year day) (dt_month day) (dt_day day).

(** The three values of [dump_to] in [main] (lines 75, 88 and 102). *)
Definition users_path (day : datetime) : string :=
  "users/" +:+ date_params day +:+ "/data".
Definition projects_path (day : datetime) : string :=
  "projects/" +:+ date_params day +:+ "/data".
Definition activities_path (day : datetime) : string :=
  "activities/" +:+ date_params day +:+ "/incremental".

(** The three calls of [dump] in [main] (lines 86, 98 and 113), for the
    value of [day]. *)
Definition dump_users (day : datetime) : M unit :=
  dump (users_path day) "users" users_query None.

Definition dump_projects (day : datetime) : M unit :=
  dump (projects_path day) "projects" projects_query None.

Definition dump_activities (day : datetime) : M unit :=
  dump (activities_path day) "activities" activities_query
       (Some [date_of day]).

(** The body of [with read_replica:] in [main] (lines 66-114). *)
Definition run_dumps : M unit :=
  let* today := datetime_today in
  let* day := minus_timedelta_1 today in
  let* _ := dump_users day in
  let* _ := dump_projects day in
  dump_activities day.

(** [main()] (lines 56-121).  [initialize_sentry] and the log level have
    no effect on what is modelled. *)
Definition main : M unit :=
  let* _ := connect_replica in
  let* _ := connect_redshift in
  let* _ := with_read_replica run_dumps in
  let* _ := redshift_commit in
  let* _ := logging_info "Done" in
  dd_events_create "Warehouse Tables".

End Pipeline.

End Script.
Export Script.

(** ** Vocabulary of the statements *)

(** A JSON string without characters to escape. *)
Definition quoted (s : string) : string :=
  String dquote (s +:+ String dquote EmptyString).

Fixpoint no_newline (s : string) : bool :=
  match s with
  | EmptyString => true
  | String c rest => negb (Ascii.eqb c newline) && no_newline rest
  end.

Fixpoint all_digits (s : string) : bool :=
  match s with
  | EmptyString => true
  | String c rest => is_digit c && all_digits rest
  end.

(** The shape [YYYY-MM-DD]. *)
Definition is_Ymd_format (s : string) : bool :=
  match s with
  | String y1 (String y2 (String y3 (String y4 (String h1
      (String m1 (String m2 (String h2 (String d1 (String d2
         EmptyString))))))))) =>
      is_digit y1 && is_digit y2 && is_digit y3 && is_digit y4 &&
      Ascii.eqb h1 "-" && is_digit m1 && is_digit m2 &&
      Ascii.eqb h2 "-" && is_digit d1 && is_digit d2
  | _ => false
  end.

(** The value that the assignments [data[name] = value], made in the order
    of the list, leave under the key [k]. *)
Fixpoint last_assigned (cols : list (string * pyval)) (k : string)
    (before : option pyval) : option pyval :=
  match cols with
  | [] => before
  | (name, v) :: rest =>
      last_assigned rest k (if String.eqb name k then Some v else before)
  end.

(** *** Outcomes of the loop and of [dump]

    The world a run of the loop of [dump], and of [dump] itself, ends in,
    written out field by field; the lemmas below show that the script
    reaches exactly these worlds. *)

(** An event of the loop over the rows: a fetch in the transaction [t], or
    the record of a row stamped with the day before the clock read [j]. *)
Definition row_event (E : external) (t temp : nat) (descr : list column)
    (lo hi : nat) (e : event) : Prop :=
  e = EFetch t \/
  exists data j y row,
    e = ERecord temp data /\ (lo <= j < hi)%nat /\
    minus_one_day (clock E j) = Some y /\
    row_data y descr row = inr data.

Definition loop_world (w : world) (k temp : nat) (content : string)
    (evs : list event) : world :=
  {| clock_reads := clock_reads w + k; next_temp := next_temp w;
     temp_files := <[temp := content]> (temp_files w); s3 := s3 w;
     replica_txn := replica_txn w; replica_stmts := replica_stmts w;
     next_txn := next_txn w;
     pending := pending w; visible := visible w;
     trace := trace w ++ evs |}.

(** The world after one more clock read. *)
Definition tick (w : world) : world :=
  {| clock_reads := S (clock_reads w); next_temp := next_temp w;
     temp_files := temp_files w; s3 := s3 w;
     replica_txn := replica_txn w; replica_stmts := replica_stmts w;
     next_txn := next_txn w;
     pending := pending w; visible := visible w; trace := trace w |}.

(** How far a call of [dump] gets. *)
Inductive stage :=
| FailedExecute             (* the query is rejected *)
| FailedRows (e : exn)      (* the loop over the rows raises [e] *)
| FailedUpload
| FailedCopy
| Loaded.

Definition dump_result (st : stage) : exn + unit :=
  match st with
  | FailedExecute => inl ExtractionError
  | FailedRows e => inl e
  | FailedUpload => inl UploadError
  | FailedCopy => inl LoadError
  | Loaded => inr tt
  end.

Definition uploaded (st : stage) : bool :=
  match st with FailedCopy | Loaded => true | _ => false end.

(** The transaction a statement on the read replica runs in, and its
    number among the statements of that transaction. *)
Definition txn_of (w : world) : nat := default (next_txn w) (replica_txn w).

Definition stmt_of (w : world) : nat :=
  match replica_txn w with Some _ => replica_stmts w | None => 0%nat end.

Definition begin_events (w : world) : list event :=
  match replica_txn w with Some _ => [] | None => [EBegin (next_txn w)] end.

Definition dump_load (E : external) (to_file copy_to blob : string) : load :=
  Load "snapshots" copy_to (s3_uri (DW_BUCKET E) to_file) (REDSHIFT_ROLE E) blob.

Definition dump_events (E : external) (to_file copy_to query : string)
    (params : option (list pyval)) (w : world) (evs : list event)
    (st : stage) : list event :=
  begin_events w ++ [EExecute (txn_of w) query params] ++ evs ++
  match st with
  | FailedCopy => [EUpload (s3_uri (DW_BUCKET E) to_file)]
  | Loaded =>
      [EUpload (s3_uri (DW_BUCKET E) to_file);
       ECopy copy_to (s3_uri (DW_BUCKET E) to_file);
       ELog ("SUCCESS! snapshots." +:+ copy_to +:+ " table loaded")]
  | _ => []
  end.

Definition dump_world (E : external) (to_file copy_to query : string)
    (params : option (list pyval)) (w : world) (k : nat) (content : string)
    (evs : list event) (st : stage) : world :=
  {| clock_reads := clock_reads w + k;
     next_temp := S (next_temp w);
     temp_files :=
       if uploaded st then delete (next_temp w) (temp_files w)
       else <[next_temp w := content]> (temp_files w);
     s3 :=
       if uploaded st
       then <[s3_uri (DW_BUCKET E) to_file := content]> (s3 w)
       else s3 w;
     replica_txn := Some (txn_of w);
     replica_stmts := S (stmt_of w);
     next_txn :=
       match replica_txn w with
       | Some _ => next_txn w
       | None => S (next_txn w)
       end;
     pending :=
       match st with
       | Loaded => pending w ++ [dump_load E to_file copy_to content]
       | _ => pending w
       end;
     visible := visible w;
     trace := trace w ++ dump_events E to_file copy_to query params w evs st |}.

(** What is known of the environment when [dump] stops at a stage. *)
Definition stage_facts (E : external) (to_file copy_to query : string)
    (params : option (list pyval)) (w : world) (k : nat) (content : string)
    (evs : list event) (st : stage) : Prop :=
  match st with
  | FailedExecute =>
      source E (txn_of w) (stmt_of w) query params = None /\
      k = 0%nat /\ evs = []
  | _ =>
      exists rs,
        source E (txn_of w) (stmt_of w) query params = Some rs /\
        Forall (row_event E (txn_of w) (next_temp w) (description rs)
                  (clock_reads w) (clock_reads w + k)) evs /\
        match st with
        | FailedRows e =>
            (e = ExtractionError -> dropped rs = true) /\
            (e = OverflowError \/ e = IndexError \/ e = ExtractionError)
        | FailedUpload =>
            dropped rs = false /\
            upload_ok E (s3_uri (DW_BUCKET E) to_file) = false
        | FailedCopy =>
            dropped rs = false /\
            upload_ok E (s3_uri (DW_BUCKET E) to_file) = true /\
            copy_ok E copy_to content = false
        | _ =>
            dropped rs = false /\
            upload_ok E (s3_uri (DW_BUCKET E) to_file) = true /\
            copy_ok E copy_to content = true
        end
  end.

(** *** What a trace shows *)

(** The statements executed on the read replica, with their transaction. *)
Definition executed (evs : list event)
    : list (nat * string * option (list pyval)) :=
  omap (fun e => match e with
                 | EExecute t q p => Some (t, q, p)
                 | _ => None
                 end) evs.

Definition uploads (evs : list event) : list string :=
  omap (fun e => match e with EUpload u => Some u | _ => None end) evs.

Definition copies (evs : list event) : list (string * string) :=
  omap (fun e => match e with ECopy t u => Some (t, u) | _ => None end) evs.

Definition redshift_commits (evs : list event) : list unit :=
  omap (fun e => match e with ERedshiftCommit => Some tt | _ => None end) evs.

Definition records (evs : list event) : list dict :=
  omap (fun e => match e with ERecord _ d => Some d | _ => None end) evs.

(** The trace as the read-replica connection sees it. *)
Inductive replica_op :=
| TxnBegin (txn : nat)
| TxnStatement (txn : nat)    (* an execute or a fetch *)
| TxnEnd.                     (* commit or rollback *)

Definition replica_view (evs : list event) : list replica_op :=
  omap (fun e => match e with
                 | EBegin t => Some (TxnBegin t)
                 | EExecute t _ _ => Some (TxnStatement t)
                 | EFetch t => Some (TxnStatement t)
                 | EReplicaCommit => Some TxnEnd
                 | EReplicaRollback => Some TxnEnd
                 | _ => None
                 end) evs.

(** The records written for the first rows of a result, the row number
    [i] being stamped with the day before the clock read number [lo + i]. *)
Inductive rows_written (E : external) (descr : list column)
    : nat -> list (list pyval) -> list dict -> Prop :=
| written_none lo rs : rows_written E descr lo rs []
| written_next lo row rs y data datas :
    minus_one_day (clock E lo) = Some y ->
    row_data y descr row = inr data ->
    rows_written E descr (S lo) rs datas ->
    rows_written E descr lo (row :: rs) (data :: datas).

(** The content of the temporary file of a dump: the lines of the records
    written, in their order, one record for every row once the loop is
    through. *)
Definition blob_facts (E : external) (query : string)
    (params : option (list pyval)) (w : world) (content : string)
    (evs : list event) (st : stage) : Prop :=
  content = String.concat EmptyString (map (record_line E) (records evs)) /\
  match source E (txn_of w) (stmt_of w) query params with
  | Some rs =>
      rows_written E (description rs) (clock_reads w) (rows rs) (records evs) /\
      match st with
      | FailedUpload | FailedCopy | Loaded =>
          length (records evs) = length (rows rs)
      | _ => True
      end
  | None => records evs = []
  end.

(** *** Outcomes of [main] *)

(** The world once both connections are made. *)
Definition connected (w : world) : world :=
  set_loads [] (visible w) (set_replica_txn None w).

(** The world when the [with read_replica] block is left by an exception. *)
Definition rolled_back (w : world) : world :=
  emit EReplicaRollback (set_replica_txn None w).

(** The last step of [main]: the event is created, or [dd_events]
    raises. *)
Definition notice (E : external) : list event :=
  if datadog_ok E then [EDatadog "Warehouse Tables"] else [].

Definition notified (E : external) : exn + unit :=
  if datadog_ok E then inr tt else inl NotificationError.

(** The world at the end of [main] when the block is left normally. *)
Definition finished (E : external) (w : world) : world :=
  {| clock_reads := clock_reads w; next_temp := next_temp w;
     temp_files := temp_files w; s3 := s3 w;
     replica_txn := None; replica_stmts := replica_stmts w;
     next_txn := next_txn w;
     pending := []; visible := visible w ++ pending w;
     trace := trace w ++ [EReplicaCommit; ERedshiftCommit; ELog "Done"] ++
              notice E |}.

(** The [i]-th dump of [main] is the first to raise: it raises [e] and
    leaves the world [wf]. *)
Definition fails_at (E : external) (day : datetime) (w0 : world) (i : nat)
    (wf : world) (e : exn) : Prop :=
  match i with
  | 0%nat => dump_users E day w0 = (wf, inl e)
  | 1%nat =>
      exists w1, dump_users E day w0 = (w1, inr tt) /\
                 dump_projects E day w1 = (wf, inl e)
  | 2%nat =>
      exists w1 w2, dump_users E day w0 = (w1, inr tt) /\
                    dump_projects E day w1 = (w2, inr tt) /\
                    dump_activities E day w2 = (wf, inl e)
  | _ => False
  end.

(** The three statements of [main], in the order of the script, as
    executed in the transaction [t]. *)
Definition statements (t : nat) (day : datetime)
    : list (nat * string * option (list pyval)) :=
  [(t, users_query, None); (t, projects_query, None);
   (t, activities_query, Some [date_of day])].

(** The three loads of [main]: the table and the blob location. *)
Definition targets (E : external) (day : datetime) : list (string * string) :=
  [("users", s3_uri (DW_BUCKET E) (users_path day));
   ("projects", s3_uri (DW_BUCKET E) (projects_path day));
   ("activities", s3_uri (DW_BUCKET E) (activities_path day))].

(** The three blob locations of [main], in the order of the script. *)
Definition locations (E : external) (day : datetime) : list string :=
  [s3_uri (DW_BUCKET E) (users_path day);
   s3_uri (DW_BUCKET E) (projects_path day);
   s3_uri (DW_BUCKET E) (activities_path day)].

(** All three dumps of [main] return, and leave the world [wb]. *)
Definition all_loaded (E : external) (day : datetime) (w0 wb : world) : Prop :=
  exists w1 w2, dump_users E day w0 = (w1, inr tt) /\
                dump_projects E day w1 = (w2, inr tt) /\
                dump_activities E day w2 = (wb, inr tt).

(** A record in the trace was built from a row of some result of the
    source and stamped with the day before a clock read made at or after
    the read number [lo]; other events satisfy this trivially. *)
Definition stamped (E : external) (lo : nat) (e : event) : Prop :=
  forall temp data, e = ERecord temp data ->
  exists j y t i q p rs row,
    (lo <= j)%nat /\
    minus_one_day (clock E j) = Some y /\
    source E t i q p = Some rs /\
    row_data y (description rs) row = inr data.

(** What the events of a run show when the first [n] dumps have executed
    their statement and the first [m] of them have loaded their table. *)
Definition run_shape (E : external) (day : datetime) (w0 : world)
    (n m : nat) (evs : list event) : Prop :=
  redshift_commits evs = [] /\
  executed evs = take n (statements (next_txn w0) day) /\
  copies evs = take m (targets E day) /\
  (exists u, uploads evs = take u (locations E day) /\ (m <= u <= n)%nat) /\
  (exists stmts, replica_view evs = TxnBegin (next_txn w0) :: stmts /\
                 Forall (fun op => op = TxnStatement (next_txn w0)) stmts) /\
  Forall (stamped E (clock_reads w0)) evs.

(** *** What the extractions observe *)

(** [blob] is the dump of the result [rs]: the lines of the records of
    its rows, one for every row, in the order of the result. *)
Definition dumped (E : external) (rs : result_set) (blob : string) : Prop :=
  exists lo datas,
    rows_written E (description rs) lo (rows rs) datas /\
    length datas = length (rows rs) /\
    blob = String.concat EmptyString (map (record_line E) datas).

(** The server answers every statement of a transaction from the data as
    of its first statement, as it does under REPEATABLE READ or
    SERIALIZABLE.  Under READ COMMITTED, the default of PostgreSQL, every
    statement sees the data committed when it starts. *)
Definition one_snapshot (E : external) : Prop :=
  forall t i q p, source E t i q p = source E t 0%nat q p.

(** The three results are the answers of the source to the three
    statements of [main] at one and the same point of the transaction
    [t]. *)
Definition same_snapshot (E : external) (t : nat) (day : datetime)
    (rsu rsp rsa : result_set) : Prop :=
  exists i,
    source E t i users_query None = Some rsu /\
    source E t i projects_query None = Some rsp /\
    source E t i activities_query (Some [date_of day]) = Some rsa.

(** *** Concrete environments and worlds *)

(** Two columns and two rows for every query, nothing fails, and every
    clock read falls on 2023-03-06. *)
Definition two_rows : result_set :=
  ResultSet [Column "id" 23; Column "name" 25]
            [[PyInt 1; PyStr (ustr "ann")]; [PyInt 2; PyNone]] false.

Definition steady : external :=
  {| clock := fun _ => DateTime 2023 3 6 10 0 0 0;
     replica_reachable := true;
     redshift_reachable := true;
     source := fun _ _ _ _ => Some two_rows;
     upload_ok := fun _ => true;
     copy_ok := fun _ _ => true;
     datadog_ok := true;
     DW_BUCKET := "dw";
     REDSHIFT_ROLE := "loader";
     date_string_or_none := fun _ => None |}.

Definition empty_world : world :=
  {| clock_reads := 0; next_temp := 0; temp_files := ∅; s3 := ∅;
     replica_txn := None; replica_stmts := 0; next_txn := 0;
     pending := []; visible := []; trace := [] |}.


(** As [steady], but the connection to the read replica drops after the
    second row of every result. *)
Definition dropping : external :=
  {| clock := clock steady;
     replica_reachable := true;
     redshift_reachable := true;
     source := fun _ _ _ _ =>
       Some (ResultSet (description two_rows) (rows two_rows) true);
     upload_ok := upload_ok steady;
     copy_ok := copy_ok steady;
     datadog_ok := true;
     DW_BUCKET := "dw";
     REDSHIFT_ROLE := "loader";
     date_string_or_none := date_string_or_none steady |}.

(** As [steady], but the warehouse rejects the blob of the table
    projects. *)
Definition projects_rejected : external :=
  {| clock := clock steady;
     replica_reachable := true;
     redshift_reachable := true;
     source := source steady;
     upload_ok := upload_ok steady;
     copy_ok := fun table _ => negb (String.eqb table "projects");
     datadog_ok := true;
     DW_BUCKET := "dw";
     REDSHIFT_ROLE := "loader";
     date_string_or_none := date_string_or_none steady |}.

(** As [steady], but under READ COMMITTED while rows are being committed
    to every table: the first statement of a transaction sees one row,
    the second two, the third and the later ones three. *)
Definition first_rows (n : nat) : result_set :=
  ResultSet (description two_rows)
            (take n [[PyInt 1; PyStr (ustr "ann")]; [PyInt 2; PyNone];
                     [PyInt 3; PyStr (ustr "cy")]])
            false.

Definition growing : external :=
  {| clock := clock steady;
     replica_reachable := true;
     redshift_reachable := true;
     source := fun _ i _ _ => Some (first_rows (S i));
     upload_ok := upload_ok steady;
     copy_ok := copy_ok steady;
     datadog_ok := true;
     DW_BUCKET := "dw";
     REDSHIFT_ROLE := "loader";
     date_string_or_none := date_string_or_none steady |}.

(** As [steady], but the event of the last line cannot be created. *)
Definition unnotified : external :=
  {| clock := clock steady;
     replica_reachable := true;
     redshift_reachable := true;
     source := source steady;
     upload_ok := upload_ok steady;
     copy_ok := copy_ok steady;
     datadog_ok := false;
     DW_BUCKET := "dw";
     REDSHIFT_ROLE := "loader";
     date_string_or_none := date_string_or_none steady |}.

(** As [steady], but the first clock read, the one of [main], is made
    just before midnight and the later ones, those of the rows, just
    after it. *)
Definition midnight : external :=
  {| clock := fun n =>
       match n with
       | O => DateTime 2023 3 6 23 59 59 0
       | S _ => DateTime 2023 3 7 0 0 1 0
       end;
     replica_reachable := true;
     redshift_reachable := true;
     source := source steady;
     upload_ok := upload_ok steady;
     copy_ok := copy_ok steady;
     datadog_ok := true;
     DW_BUCKET := "dw";
     REDSHIFT_ROLE := "loader";
     date_string_or_none := date_string_or_none steady |}.

(** *** Vocabulary of the further properties *)

(** The events that a call of [dump] can leave in the trace: neither the
    end of a transaction, nor the notification, nor the last log line of
    [main]. *)
Definition inside_dump (e : event) : bool :=
  match e with
  | EReplicaCommit | EReplicaRollback | ERedshiftCommit | EDatadog _ => false
  | ELog msg => negb (String.eqb msg "Done")
  | _ => true
  end.

Definition notifications (evs : list event) : list string :=
  omap (fun e => match e with EDatadog t => Some t | _ => None end) evs.

Fixpoint count_newlines (s : string) : nat :=
  match s with
  | EmptyString => 0%nat
  | String c rest =>
      if Ascii.eqb c newline then S (count_newlines rest)
      else count_newlines rest
  end.

(** Printable ASCII, from the space to the tilde. *)
Definition printable (c : ascii) : bool :=
  let n := N_of_ascii c in ((32 <=? n) && (n <=? 126))%N.

Fixpoint all_printable (s : string) : bool :=
  match s with
  | EmptyString => true
  | String c rest => printable c && all_printable rest
  end.

(** Lines of printable ASCII, each closed by a newline. *)
Fixpoint printable_lines (s : string) : bool :=
  match s with
  | EmptyString => true
  | String c rest => (Ascii.eqb c newline || printable c) && printable_lines rest
  end.

(** The line that the loop of [dump] writes for a row when the day before
    the clock read is [y]; empty when the row has no record. *)
Definition line_of (E : external) (y : datetime) (descr : list column)
    (row : list pyval) : string :=
  match row_data y descr row with
  | inr data => record_line E data
  | inl _ => EmptyString
  end.

(** The names that [NamedTemporaryFile] has not given out yet are the
    names of no file: what [tempfile] guarantees of a fresh name. *)
Definition fresh_names (w : world) : Prop :=
  forall m, (next_temp w <= m)%nat -> temp_files w !! m = None.

(** The blob that the warehouse read for a load is the one that the store
    holds at the location of the load. *)
Definition load_in_store (w : world) (l : load) : Prop :=
  s3 w !! ld_from l = Some (ld_blob l).

(** The blob of a result on a day: the lines of its rows, each stamped
    with [y]. *)
Definition blob_of (E : external) (y : datetime) (rs : result_set) : string :=
  String.concat EmptyString (map (line_of E y (description rs)) (rows rs)).

(** The three loads of a run whose queries were answered by [rsu], [rsp]
    and [rsa], in the order of the script. *)
Definition loads_of (E : external) (day : datetime)
    (rsu rsp rsa : result_set) : list load :=
  [dump_load E (users_path day) "users" (blob_of E day rsu);
   dump_load E (projects_path day) "projects" (blob_of E day rsp);
   dump_load E (activities_path day) "activities" (blob_of E day rsa)].

(** The store once the three blobs of a run are written. *)
Definition store_of (E : external) (day : datetime)
    (rsu rsp rsa : result_set) (o : gmap string string) : gmap string string :=
  <[s3_uri (DW_BUCKET E) (activities_path day) := blob_of E day rsa]>
    (<[s3_uri (DW_BUCKET E) (projects_path day) := blob_of E day rsp]>
       (<[s3_uri (DW_BUCKET E) (users_path day) := blob_of E day rsu]> o)).

(** What a sequence of events of the script does to the store: every
    location uploaded holds an object afterwards, every other location
    is as before, and no object is removed. *)
Definition store_follows (o o' : gmap string string) (evs : list event)
    : Prop :=
  (forall u, u ∈ uploads evs -> is_Some (o' !! u)) /\
  (forall u, u ∉ uploads evs -> o' !! u = o !! u) /\
  (forall u, is_Some (o !! u) -> is_Some (o' !! u)).

(** The order of the calendar on the dates of two [datetime] values. *)
Definition date_before (a b : datetime) : Prop :=
  dt_year a < dt_year b \/
  (dt_year a = dt_year b /\
   (dt_month a < dt_month b \/
    (dt_month a = dt_month b /\ dt_day a < dt_day b))).

Definition same_time (a b : datetime) : Prop :=
  dt_hour a = dt_hour b /\ dt_minute a = dt_minute b /\
  dt_second a = dt_second b /\ dt_microsecond a = dt_microsecond b.

(** Printable ASCII other than the quote and the backslash. *)
Definition plain (c : ascii) : bool :=
  printable c && negb (Ascii.eqb c dquote) && negb (Ascii.eqb c backslash).

Fixpoint all_plain (s : string) : bool :=
  match s with
  | EmptyString => true
  | String c rest => plain c && all_plain rest
  end.

(** ** The script on small inputs *)

Example minus_one_day_leap :
  minus_one_day (DateTime 2024 3 1 8 0 0 0) = Some (DateTime 2024 2 29 8 0 0 0).
Proof. reflexivity. Qed.

Example minus_one_day_new_year :
  minus_one_day (DateTime 2023 1 1 8 0 0 0) = Some (DateTime 2022 12 31 8 0 0 0).
Proof. reflexivity. Qed.

Example minus_one_day_overflow :
  minus_one_day (DateTime 1 1 1 0 0 0 0) = None.
Proof. reflexivity. Qed.

Example strftime_Ymd_padded :
  strftime_Ymd (DateTime 2023 3 5 8 0 0 0) = "2023-03-05".
Proof. reflexivity. Qed.

Example strftime_Ymd_year_999 :
  strftime_Ymd (DateTime 999 1 1 0 0 0 0) = "999-01-01".
Proof. reflexivity. Qed.

Example escape_control_characters :
  escape (ustr (String "a" (String newline (String dquote "b")))) =
  String "a" (String backslash (String "n"
    (String backslash (String dquote "b")))).
Proof. reflexivity. Qed.

(** The euro sign, U+20AC, and an emoji, U+1F600. *)
Example escape_beyond_latin_1 :
  escape [8364%N; 128512%N] =
  String backslash "u20ac" +:+
  String backslash "ud83d" +:+ String backslash "ude00".
Proof. reflexivity. Qed.

Example encode_list_of_numbers :
  encode_value (fun _ => None)
    (PyList [PyInt 1;
             PyFloat (FFinite (Decimal.Decimal (Decimal.Pos (Decimal.D2 Decimal.Nil))
                                               (Decimal.D5 Decimal.Nil)));
             PyFloat FNaN; PyNone; PyList []]) =
  "[1, 2.5, NaN, null, []]".
Proof. reflexivity. Qed.

Example encode_dict :
  encode_value (fun _ => None)
    (PyDict [(ustr "a", PyList [PyBool true]); (ustr "b", PyDict [])]) =
  "{" +:+ quoted "a" +:+ ": [true], " +:+ quoted "b" +:+ ": {}}".
Proof. reflexivity. Qed.

Example record_line_of_a_row :
  record_line steady
    [("snapshot_date", PyStr (ustr "2023-03-05")); ("id", PyInt 1);
     ("name", PyNone)] =
  "{" +:+ quoted "snapshot_date" +:+ ": " +:+ quoted "2023-03-05" +:+ ", " +:+
  quoted "id" +:+ ": 1, " +:+ quoted "name" +:+ ": null}" +:+
  String newline EmptyString.
Proof. reflexivity. Qed.

Example steady_run_returns : snd (main steady empty_world) = inr tt.
Proof. vm_compute. reflexivity. Qed.

Example steady_run_uploads :
  uploads (trace (fst (main steady empty_world))) =
  ["s3://dw/users/snapshot_year=2023/snapshot_month=03/snapshot_day=05/data";
   "s3://dw/projects/snapshot_year=2023/snapshot_month=03/snapshot_day=05/data";
   "s3://dw/activities/snapshot_year=2023/snapshot_month=03/snapshot_day=05/incremental"].
Proof. vm_compute. reflexivity. Qed.

Example steady_run_cleans_up :
  map_to_list (temp_files (fst (main steady empty_world))) = [].
Proof. vm_compute. reflexivity. Qed.

Example dropping_run_raises :
  snd (main dropping empty_world) = inl ExtractionError /\
  uploads (trace (fst (main dropping empty_world))) = [] /\
  redshift_commits (trace (fst (main dropping empty_world))) = [].
Proof. vm_compute. repeat split. Qed.

(** ** Dates and paths *)

Lemma append_cons (x : ascii) (a b : string) :
  String x a +:+ b = String x (a +:+ b).
Proof. reflexivity. Qed.

Lemma append_assoc (a b c : string) : (a +:+ b) +:+ c = a +:+ (b +:+ c).
Proof.
  induction a as [|x a IH]; [reflexivity|].
  rewrite !append_cons. f_equal. exact IH.
Qed.

Lemma append_nil_r (a : string) : a +:+ EmptyString = a.
Proof.
  induction a as [|x a IH]; [reflexivity|].
  rewrite append_cons. f_equal. exact IH.
Qed.

Lemma below_ten (P : Z -> Prop) :
  Forall P (map Z.of_nat (seq 0 10)) -> forall n, 0 <= n < 10 -> P n.
Proof.
  intros H n Hn. rewrite Forall_forall in H. apply H.
  apply list_elem_of_fmap. exists (Z.to_nat n).
  split; [lia | apply elem_of_seq; lia].
Qed.

Ltac each_digit := simpl; repeat (constructor; [try reflexivity|]); try constructor.

Lemma digit_is_digit n : 0 <= n < 10 -> is_digit (digit n) = true.
Proof. revert n. apply below_ten. each_digit. Qed.

Lemma pad2_digits n : all_digits (pad2 n) = true /\ String.length (pad2 n) = 2%nat.
Proof.
  unfold pad2; simpl. split; [|reflexivity].
  rewrite !digit_is_digit; [reflexivity | |]; apply Z.mod_pos_bound; lia.
Qed.


Lemma pad2_small n : 0 <= n < 10 -> pad2 n = String "0" (str_int n).
Proof. revert n. apply below_ten. each_digit. Qed.

Lemma pad2_large n : 10 <= n < 100 -> pad2 n = str_int n.
Proof.
  intros H.
  assert (forallb (fun k => String.eqb (pad2 (Z.of_nat k)) (str_int (Z.of_nat k)))
            (seq 10 90) = true) as Hall by (vm_compute; reflexivity).
  rewrite forallb_forall in Hall.
  specialize (Hall (Z.to_nat n)).
  rewrite Z2Nat.id in Hall by lia.
  apply String.eqb_eq, Hall, in_seq. lia.
Qed.

(** From 1000 to 9999, [str] prints four digits. *)
Lemma str_int_four_digits n :
  1000 <= n < 10000 ->
  str_int n =
    String (digit (n / 1000 mod 10)) (String (digit (n / 100 mod 10)) (pad2 n)).
Proof.
  intros H.
  assert (forallb (fun h => forallb (fun l =>
              let k := 100 * Z.of_nat h + Z.of_nat l in
              String.eqb (str_int k)
                (String (digit (k / 1000 mod 10))
                   (String (digit (k / 100 mod 10)) (pad2 k)))) (seq 0 100))
            (seq 10 90) = true) as Hall by (vm_compute; reflexivity).
  rewrite forallb_forall in Hall.
  specialize (Hall (Z.to_nat (n / 100))).
  rewrite forallb_forall in Hall.
  specialize (fun Hh => Hall Hh (Z.to_nat (n mod 100))).
  cbv zeta in Hall. rewrite !Z2Nat.id in Hall by (Z.div_mod_to_equations; lia).
  replace (100 * (n / 100) + n mod 100) with n in Hall
    by (Z.div_mod_to_equations; lia).
  apply String.eqb_eq, Hall; apply in_seq; Z.div_mod_to_equations; lia.
Qed.

(** The date printed has the shape YYYY-MM-DD when the year has four
    digits. *)
Lemma strftime_Ymd_format t :
  1000 <= dt_year t < 10000 -> is_Ymd_format (strftime_Ymd t) = true.
Proof.
  intros Hy. unfold strftime_Ymd. rewrite (str_int_four_digits _ Hy).
  unfold pad2; simpl.
  rewrite !digit_is_digit; [reflexivity | ..]; apply Z.mod_pos_bound; lia.
Qed.

Lemma datetime_ok_bounds t :
  datetime_ok t = true ->
  1 <= dt_year t <= 9999 /\ 1 <= dt_month t <= 12 /\
  1 <= dt_day t <= _days_in_month (dt_year t) (dt_month t).
Proof. unfold datetime_ok. intros H. repeat (apply andb_prop in H as [H ?]). lia. Qed.

Lemma days_in_month_bounds y m : 28 <= _days_in_month y m <= 31.
Proof.
  unfold _days_in_month.
  repeat match goal with |- context [if ?b then _ else _] => destruct b end; lia.
Qed.

Lemma minus_one_day_ok t t' :
  datetime_ok t = true -> minus_one_day t = Some t' -> datetime_ok t' = true.
Proof.
  intros Hok Hm. apply datetime_ok_bounds in Hok.
  unfold minus_one_day in Hm.
  repeat match type of Hm with
         | context [if ?b then _ else _] => destruct b eqn:?
         end; try discriminate; injection Hm as <-;
    unfold datetime_ok, with_date; simpl.
  - repeat (apply andb_true_intro; split); lia.
  - pose proof (days_in_month_bounds (dt_year t) (dt_month t - 1)).
    repeat (apply andb_true_intro; split); lia.
  - repeat (apply andb_true_intro; split); try lia. reflexivity.
Qed.

Lemma date_params_same_date a b :
  same_date a b -> date_params a = date_params b.
Proof.
  intros (Hy & Hm & Hd). unfold date_params, strftime_m, strftime_d.
  now rewrite Hy, Hm, Hd.
Qed.

Lemma pad2_zero_padded n :
  0 <= n < 100 ->
  pad2 n = if n <? 10 then String "0" (str_int n) else str_int n.
Proof.
  intros H. destruct (Z.ltb_spec n 10).
  - apply pad2_small; lia.
  - apply pad2_large; lia.
Qed.

(** C7.  The partition paths of a run are a function of the calendar date
    of [day] alone (two values of [day] on the same date, whatever their
    time of day, give the same three paths); the path has the fixed field
    order year, month, day, with month and day printed as two digits,
    zero-padded below ten; and for the date 2023-03-05 the path of the
    dataset users is the one the specification spells out. *)
Theorem partition_path_deterministic (a b : datetime) :
  datetime_ok a = true ->
  same_date a b ->
  (users_path a = users_path b /\
   projects_path a = projects_path b /\
   activities_path a = activities_path b) /\
  (exists mm dd,
     users_path a =
       "users/snapshot_year=" +:+ str_int (dt_year a) +:+
       "/snapshot_month=" +:+ mm +:+ "/snapshot_day=" +:+ dd +:+ "/data" /\
     projects_path a =
       "projects/snapshot_year=" +:+ str_int (dt_year a) +:+
       "/snapshot_month=" +:+ mm +:+ "/snapshot_day=" +:+ dd +:+ "/data" /\
     activities_path a =
       "activities/snapshot_year=" +:+ str_int (dt_year a) +:+
       "/snapshot_month=" +:+ mm +:+ "/snapshot_day=" +:+ dd +:+
       "/incremental" /\
     String.length mm = 2%nat /\ all_digits mm = true /\
     String.length dd = 2%nat /\ all_digits dd = true /\
     mm = (if dt_month a <? 10 then String "0" (str_int (dt_month a))
           else str_int (dt_month a)) /\
     dd = (if dt_day a <? 10 then String "0" (str_int (dt_day a))
           else str_int (dt_day a))) /\
  (dt_year a = 2023 -> dt_month a = 3 -> dt_day a = 5 ->
   users_path a =
     "users/snapshot_year=2023/snapshot_month=03/snapshot_day=05/data").
Proof.
  intros Hok Hsame. split; [|split].
  - unfold users_path, projects_path, activities_path.
    now rewrite (date_params_same_date a b Hsame).
  - apply datetime_ok_bounds in Hok as (_ & Hm & Hd).
    pose proof (days_in_month_bounds (dt_year a) (dt_month a)).
    exists (pad2 (dt_month a)), (pad2 (dt_day a)).
    destruct (pad2_digits (dt_month a)) as [? ?].
    destruct (pad2_digits (dt_day a)) as [? ?].
    repeat split; try assumption.
    + unfold users_path, date_params, strftime_m, strftime_d.
      now rewrite !append_assoc.
    + unfold projects_path, date_params, strftime_m, strftime_d.
      now rewrite !append_assoc.
    + unfold activities_path, date_params, strftime_m, strftime_d.
      now rewrite !append_assoc.
    + apply pad2_zero_padded; lia.
    + apply pad2_zero_padded; lia.
  - intros Hy Hm Hd. unfold users_path, date_params, strftime_m, strftime_d.
    rewrite Hy, Hm, Hd. reflexivity.
Qed.

Lemma partition_path_deterministic_witness :
  users_path (DateTime 2023 3 5 9 30 0 0) =
    users_path (DateTime 2023 3 5 23 59 59 0) /\
  users_path (DateTime 2023 3 5 9 30 0 0) =
    "users/snapshot_year=2023/snapshot_month=03/snapshot_day=05/data".
Proof.
  destruct (partition_path_deterministic
              (DateTime 2023 3 5 9 30 0 0) (DateTime 2023 3 5 23 59 59 0))
    as ((Hu & _) & _ & Hex).
  - reflexivity.
  - repeat split.
  - split; [exact Hu | apply Hex; reflexivity].
Defined.

(** ** The record of a row *)

Lemma dict_set_fresh (data : dict) k v :
  k ∉ keys data -> dict_set data k v = data ++ [(k, v)].
Proof.
  induction data as [|[k' v'] data IH]; intros Hk; simpl; [reflexivity|].
  simpl in Hk. apply not_elem_of_cons in Hk as [Hne Hk].
  destruct (String.eqb_spec k' k) as [->|_]; [contradiction|].
  now rewrite IH.
Qed.

Lemma dict_get_set (data : dict) k v k' :
  dict_get (dict_set data k v) k' =
  if String.eqb k k' then Some v else dict_get data k'.
Proof.
  induction data as [|[k0 v0] data IH]; simpl.
  - reflexivity.
  - destruct (String.eqb_spec k0 k) as [->|Hne]; simpl.
    + destruct (String.eqb_spec k k'); reflexivity.
    + rewrite IH. destruct (String.eqb_spec k0 k') as [->|]; [|reflexivity].
      destruct (String.eqb_spec k k'); [congruence | reflexivity].
Qed.

Lemma keys_dict_set (data : dict) k v :
  keys (dict_set data k v) =
  keys data ++ (if decide (k ∈ keys data) then [] else [k]).
Proof.
  induction data as [|[k0 v0] data IH]; simpl.
  - destruct (decide (k ∈ [])) as [H|_]; [inversion H | reflexivity].
  - destruct (String.eqb_spec k0 k) as [->|Hne]; simpl.
    + destruct (decide (k ∈ k :: keys data)) as [_|H];
        [now rewrite app_nil_r | exfalso; apply H; left].
    + rewrite IH. f_equal.
      destruct (decide (k ∈ keys data)) as [Hin|Hin];
        destruct (decide (k ∈ k0 :: keys data)) as [Hin'|Hin']; try reflexivity.
      * exfalso; apply Hin'; now right.
      * apply elem_of_cons in Hin' as [->|?]; contradiction.
Qed.

Lemma set_columns_total descr : forall data idx (row : list pyval),
  (idx + length descr <= length row)%nat ->
  exists data', set_columns data idx descr row = inr data'.
Proof.
  induction descr as [|col descr IH]; intros data idx row Hlen; simpl in *.
  - eauto.
  - destruct (lookup_lt_is_Some_2 row idx) as [v Hv]; [lia|].
    rewrite Hv. apply IH. lia.
Qed.

Lemma set_columns_fresh descr : forall data idx (row : list pyval),
  NoDup (map col_name descr) ->
  (forall k, k ∈ map col_name descr -> k ∉ keys data) ->
  (idx + length descr <= length row)%nat ->
  set_columns data idx descr row =
    inr (data ++ zip (map col_name descr) (drop idx row)).
Proof.
  induction descr as [|col descr IH]; intros data idx row Hnd Hfresh Hlen;
    simpl in *.
  - now rewrite app_nil_r.
  - destruct (lookup_lt_is_Some_2 row idx) as [v Hv]; [lia|].
    rewrite Hv. apply NoDup_cons in Hnd as [Hcol Hnd].
    rewrite (drop_S _ _ _ Hv). simpl.
    rewrite dict_set_fresh by (apply Hfresh; left).
    rewrite IH; [now rewrite <- app_assoc | assumption | | lia].
    intros k Hk. unfold keys. rewrite map_app. simpl.
    intros Hin. apply elem_of_app in Hin as [Hin|Hin].
    + apply (Hfresh k); [now right | exact Hin].
    + apply list_elem_of_singleton in Hin as ->. contradiction.
Qed.

Lemma set_columns_get descr : forall data idx (row : list pyval) data' k,
  set_columns data idx descr row = inr data' ->
  dict_get data' k =
    last_assigned (zip (map col_name descr) (drop idx row)) k (dict_get data k).
Proof.
  induction descr as [|col descr IH]; intros data idx row data' k H;
    simpl in *.
  - now injection H as <-.
  - destruct (row !! idx) as [v|] eqn:Hv; [|discriminate].
    rewrite (drop_S _ _ _ Hv). simpl.
    rewrite (IH _ _ _ _ k H), dict_get_set. reflexivity.
Qed.

Lemma set_columns_keys descr : forall data idx (row : list pyval) data',
  set_columns data idx descr row = inr data' ->
  (exists extra, keys data' = keys data ++ extra) /\
  (forall k, k ∈ keys data' <-> k ∈ keys data \/ k ∈ map col_name descr) /\
  (NoDup (keys data) -> NoDup (keys data')).
Proof.
  induction descr as [|col descr IH]; intros data idx row data' H; simpl in *.
  - injection H as <-. split; [exists []; now rewrite app_nil_r|].
    split; [|tauto]. intros k. split; [tauto|].
    intros [?|Hk]; [assumption | inversion Hk].
  - destruct (row !! idx) as [v|] eqn:Hv; [|discriminate].
    destruct (IH _ _ _ _ H) as ((extra & Hex) & Hmem & Hnd).
    rewrite keys_dict_set in Hex, Hmem, Hnd.
    split; [|split].
    + eexists. rewrite Hex, <- app_assoc. reflexivity.
    + intros k. rewrite Hmem, elem_of_app, elem_of_cons.
      destruct (decide (col_name col ∈ keys data)) as [Hin|Hin].
      * split; [intros [[?|Hk]|?]; [tauto | inversion Hk | tauto]|].
        intros [?|[->|?]]; tauto.
      * rewrite list_elem_of_singleton. tauto.
    + intros Hd. apply Hnd.
      destruct (decide (col_name col ∈ keys data)) as [Hin|Hin].
      * now rewrite app_nil_r.
      * apply NoDup_app. split; [assumption|]. split.
        -- intros x Hx Hx'. apply list_elem_of_singleton in Hx' as ->.
           contradiction.
        -- apply NoDup_singleton.
Qed.

Lemma last_assigned_at (names : list string) : forall (vals : list pyval) i k v b,
  names !! i = Some k -> vals !! i = Some v ->
  (forall j, (i < j)%nat -> names !! j <> Some k) ->
  last_assigned (zip names vals) k b = Some v.
Proof.
  induction names as [|n names IH]; intros vals i k v b Hn Hv Hlast.
  - discriminate.
  - destruct vals as [|v0 vals]; [destruct i; discriminate|].
    destruct i as [|i]; simpl in *.
    + injection Hn as ->. injection Hv as ->.
      rewrite String.eqb_refl.
      assert (forall b', k ∉ names ->
                last_assigned (zip names vals) k b' = b') as Hskip.
      { clear. revert vals. induction names as [|n names IH];
          intros vals b' Hk; [reflexivity|].
        destruct vals as [|v0 vals]; [reflexivity|]. simpl.
        apply not_elem_of_cons in Hk as [Hne Hk].
        destruct (String.eqb_spec n k); [congruence|]. now apply IH. }
      apply Hskip. intros Hin. apply list_elem_of_lookup in Hin as [j Hj].
      apply (Hlast (S j)); [lia | exact Hj].
    + apply (IH vals i k v); [assumption..|].
      intros j Hj. apply (Hlast (S j)). lia.
Qed.

(** ** One record, one line *)

Lemma no_newline_app a b :
  no_newline (a +:+ b) = no_newline a && no_newline b.
Proof.
  induction a as [|x a IH]; [reflexivity|].
  rewrite append_cons. simpl. rewrite IH. now rewrite andb_assoc.
Qed.

Lemma count_newlines_app a b :
  count_newlines (a +:+ b) = (count_newlines a + count_newlines b)%nat.
Proof.
  induction a as [|x a IH]; [reflexivity|].
  rewrite append_cons. simpl. rewrite IH. now destruct (Ascii.eqb x newline).
Qed.

Lemma count_newlines_none s : no_newline s = true -> count_newlines s = 0%nat.
Proof.
  induction s as [|x s IH]; [reflexivity|]. simpl.
  destruct (Ascii.eqb x newline); [discriminate | exact IH].
Qed.

Lemma all_printable_app a b :
  all_printable (a +:+ b) = all_printable a && all_printable b.
Proof.
  induction a as [|x a IH]; [reflexivity|].
  rewrite append_cons. simpl. rewrite IH. now rewrite andb_assoc.
Qed.

Lemma all_printable_no_newline s :
  all_printable s = true -> no_newline s = true.
Proof.
  induction s as [|x s IH]; [reflexivity|]. simpl.
  intros [Hx Hs]%andb_prop. rewrite (IH Hs), andb_true_r.
  destruct (Ascii.eqb_spec x newline) as [->|]; [discriminate Hx | reflexivity].
Qed.

Lemma printable_ascii_of_N n :
  (32 <= n <= 126)%N -> printable (ascii_of_N n) = true.
Proof.
  intros Hn. unfold printable. rewrite N_ascii_embedding by lia.
  apply andb_true_intro. split; apply N.leb_le; lia.
Qed.

Lemma printable_hex_digit n : (n < 16)%N -> printable (hex_digit n) = true.
Proof.
  intros Hn. unfold hex_digit.
  destruct (n <? 10)%N eqn:Hlt; apply printable_ascii_of_N.
  - apply N.ltb_lt in Hlt. lia.
  - apply N.ltb_ge in Hlt. lia.
Qed.

Lemma all_printable_u_escape n : all_printable (u_escape n) = true.
Proof.
  unfold u_escape. cbn [all_printable].
  rewrite !printable_hex_digit by (apply N.mod_lt; discriminate).
  reflexivity.
Qed.

(** Whatever the code point, its escape is printable ASCII. *)
Lemma all_printable_escape_char n : all_printable (escape_char n) = true.
Proof.
  unfold escape_char.
  repeat match goal with
         | |- context [if (n =? ?k)%N then _ else _] =>
             destruct (n =? k)%N; [reflexivity|]
         end.
  destruct ((32 <=? n) && (n <=? 126))%N eqn:Hp.
  - apply andb_prop in Hp as [Hlo Hhi].
    apply N.leb_le in Hlo. apply N.leb_le in Hhi.
    cbn [all_printable]. rewrite printable_ascii_of_N by lia. reflexivity.
  - destruct (n <? 65536)%N; [apply all_printable_u_escape|].
    cbv zeta. now rewrite all_printable_app, !all_printable_u_escape.
Qed.

Lemma all_printable_escape s : all_printable (escape s) = true.
Proof.
  induction s as [|c s IH]; [reflexivity|]. simpl.
  now rewrite all_printable_app, all_printable_escape_char, IH.
Qed.

Lemma all_printable_encode_basestring_ascii s :
  all_printable (encode_basestring_ascii s) = true.
Proof.
  unfold encode_basestring_ascii. simpl.
  now rewrite all_printable_app, all_printable_escape.
Qed.

Lemma all_printable_string_of_uint d :
  all_printable (NilEmpty.string_of_uint d) = true.
Proof. induction d; simpl; auto. Qed.

Lemma all_printable_string_of_int d :
  all_printable (NilZero.string_of_int d) = true.
Proof.
  unfold NilZero.string_of_int, NilZero.string_of_uint.
  destruct d as [d|d]; destruct d; simpl;
    auto using all_printable_string_of_uint.
Qed.

Lemma all_printable_str_int z : all_printable (str_int z) = true.
Proof. apply all_printable_string_of_int. Qed.

Lemma all_printable_float_repr f : all_printable (float_repr f) = true.
Proof.
  assert (Hf : forall d, all_printable (fraction d) = true).
  { intros d. unfold fraction.
    destruct d; try reflexivity;
      now rewrite all_printable_app, all_printable_string_of_uint. }
  assert (He : forall e, all_printable (exponent e) = true).
  { intros [d|d]; unfold exponent;
      now rewrite all_printable_app, all_printable_string_of_uint. }
  destruct f as [| | |[i d|i d e]]; try reflexivity; simpl;
    now rewrite ?all_printable_app, all_printable_string_of_int, ?Hf, ?He.
Qed.

Lemma concat_cons sep x xs :
  String.concat sep (x :: xs) =
  x +:+ String.concat EmptyString (map (fun y => sep +:+ y) xs).
Proof.
  revert x. induction xs as [|y xs IH]; intros x.
  - simpl. now rewrite append_nil_r.
  - change (String.concat sep (x :: y :: xs))
      with (x +:+ sep +:+ String.concat sep (y :: xs)).
    rewrite IH. simpl map.
    destruct xs as [|z xs].
    + simpl. now rewrite !append_nil_r.
    + change (String.concat EmptyString ((sep +:+ y) :: map (fun y0 => sep +:+ y0) (z :: xs)))
        with ((sep +:+ y) +:+ EmptyString +:+
              String.concat EmptyString (map (fun y0 => sep +:+ y0) (z :: xs))).
      now rewrite append_assoc.
Qed.

Lemma all_printable_concat sep xs :
  all_printable sep = true -> Forall (fun x => all_printable x = true) xs ->
  all_printable (String.concat sep xs) = true.
Proof.
  intros Hsep. induction 1 as [|x xs Hx Hxs IH]; [reflexivity|].
  destruct xs as [|y xs]; [exact Hx|].
  change (String.concat sep (x :: y :: xs))
    with (x +:+ sep +:+ String.concat sep (y :: xs)).
  now rewrite !all_printable_app, Hx, Hsep, IH.
Qed.

(** Whatever the value, lists and dicts at any depth included, its JSON
    text is printable ASCII. *)
Lemma all_printable_encode_value dflt v :
  all_printable (encode_value dflt v) = true.
Proof.
  induction v as [|[]|z|f|s|items IH|items IH|y m d|t|r]
    using pyval_ind; cbn [encode_value];
    try match goal with |- context [dflt ?x] => destruct (dflt x) end;
    auto using all_printable_str_int, all_printable_float_repr,
               all_printable_encode_basestring_ascii.
  - rewrite !all_printable_app, all_printable_concat; [reflexivity.. |].
    apply Forall_fmap. exact IH.
  - rewrite !all_printable_app, all_printable_concat; [reflexivity.. |].
    apply Forall_fmap. eapply Forall_impl; [exact IH|].
    intros kv Hkv. unfold compose.
    now rewrite !all_printable_app, all_printable_encode_basestring_ascii, Hkv.
Qed.

Lemma all_printable_encode_item dflt kv :
  all_printable (encode_item dflt kv) = true.
Proof.
  unfold encode_item.
  now rewrite !all_printable_app, all_printable_encode_basestring_ascii,
    all_printable_encode_value.
Qed.

Lemma all_printable_json_dumps dflt data :
  all_printable (json_dumps dflt data) = true.
Proof.
  unfold json_dumps.
  rewrite !all_printable_app, all_printable_concat; [reflexivity.. |].
  apply Forall_fmap, Forall_forall. intros kv _.
  apply all_printable_encode_item.
Qed.

Lemma no_newline_json_dumps dflt data : no_newline (json_dumps dflt data) = true.
Proof. apply all_printable_no_newline, all_printable_json_dumps. Qed.

(** A text without the quote, the backslash or a character outside
    printable ASCII is its own escape. *)
Lemma escape_plain s : all_plain s = true -> escape (ustr s) = s.
Proof.
  induction s as [|c s IH]; [reflexivity|].
  cbn [all_plain]. intros [Hc Hs]%andb_prop.
  change (ustr (String c s)) with (N_of_ascii c :: ustr s).
  cbn [escape]. rewrite (IH Hs).
  replace (escape_char (N_of_ascii c)) with (String c EmptyString);
    [reflexivity|].
  destruct c as [[] [] [] [] [] [] [] []];
    first [discriminate Hc | reflexivity].
Qed.

Lemma all_plain_app a b : all_plain (a +:+ b) = all_plain a && all_plain b.
Proof.
  induction a as [|x a IH]; [reflexivity|].
  rewrite append_cons. simpl. rewrite IH. now rewrite andb_assoc.
Qed.

Lemma all_plain_string_of_int d : all_plain (NilZero.string_of_int d) = true.
Proof.
  assert (Hu : forall u, all_plain (NilEmpty.string_of_uint u) = true)
    by (induction u; simpl; auto).
  unfold NilZero.string_of_int, NilZero.string_of_uint.
  destruct d as [d|d]; destruct d; simpl; auto.
Qed.

Lemma all_plain_pad2 n : all_plain (pad2 n) = true.
Proof.
  assert (Hd : forall k, 0 <= k < 10 -> plain (digit k) = true)
    by (apply below_ten; each_digit).
  unfold pad2. simpl.
  rewrite !Hd; [reflexivity | |]; apply Z.mod_pos_bound; lia.
Qed.

(** The date is written between quotes as it is. *)
Lemma encode_date y :
  encode_basestring_ascii (ustr (strftime_Ymd y)) = quoted (strftime_Ymd y).
Proof.
  unfold encode_basestring_ascii, quoted. rewrite escape_plain; [reflexivity|].
  unfold strftime_Ymd, str_int.
  now rewrite !all_plain_app, all_plain_string_of_int, !all_plain_pad2.
Qed.

(** C6, as amended.  For a row with one value per column, of a result whose
    column names are pairwise distinct and none of which is snapshot_date,
    the loop body builds the record with snapshot_date first, followed by
    each column name with its value in the order of the cursor; the date
    has the shape YYYY-MM-DD when its year has four digits; the line
    written is the JSON object of that record: the key snapshot_date and
    the date between quotes, then every column as its escaped name, a
    colon and the JSON text of its value, whatever the value; the line is
    closed by its only newline. *)
Theorem row_record_line (E : external) (y : datetime) (descr : list column)
    (row : list pyval) :
  NoDup (map col_name descr) ->
  "snapshot_date" ∉ map col_name descr ->
  length row = length descr ->
  let data :=
    ("snapshot_date", PyStr (ustr (strftime_Ymd y))) ::
    zip (map col_name descr) row in
  row_data y descr row = inr data /\
  (1000 <= dt_year y <= 9999 -> is_Ymd_format (strftime_Ymd y) = true) /\
  record_line E data =
    ("{" +:+ quoted "snapshot_date" +:+ ": " +:+ quoted (strftime_Ymd y) +:+
     String.concat EmptyString
       (map (fun kv => ", " +:+ encode_basestring_ascii (ustr (fst kv)) +:+
                       ": " +:+ encode_value (date_string_or_none E) (snd kv))
            (zip (map col_name descr) row)) +:+
     "}") +:+ String newline EmptyString /\
  no_newline (json_dumps (date_string_or_none E) data) = true /\
  count_newlines (record_line E data) = 1%nat.
Proof.
  intros Hnd Hfresh Hlen data. split; [|split; [|split; [|split]]].
  - unfold row_data. rewrite set_columns_fresh; [reflexivity | assumption | | lia].
    intros k Hk Hin. simpl in Hin. apply list_elem_of_singleton in Hin as ->.
    contradiction.
  - intros Hy. apply strftime_Ymd_format. lia.
  - unfold record_line, json_dumps, data. f_equal.
    rewrite map_cons, concat_cons, map_map.
    unfold encode_item at 1. cbn [fst snd encode_value].
    rewrite encode_date.
    change (encode_basestring_ascii (ustr "snapshot_date"))
      with (quoted "snapshot_date").
    rewrite !append_assoc. reflexivity.
  - apply no_newline_json_dumps.
  - unfold record_line. rewrite count_newlines_app.
    now rewrite (count_newlines_none _ (no_newline_json_dumps _ data)).
Qed.

Lemma row_record_line_witness :
  row_data (DateTime 2023 3 5 10 0 0 0) (description two_rows)
           [PyInt 1; PyStr (ustr "ann")] =
    inr [("snapshot_date", PyStr (ustr "2023-03-05")); ("id", PyInt 1);
         ("name", PyStr (ustr "ann"))].
Proof.
  refine (proj1 (row_record_line steady (DateTime 2023 3 5 10 0 0 0)
                   (description two_rows) [PyInt 1; PyStr (ustr "ann")] _ _ _)).
  - simpl. apply (bool_decide_unpack _). vm_compute. exact I.
  - simpl. apply (bool_decide_unpack _). vm_compute. exact I.
  - reflexivity.
Defined.

(** C6, the claim as stated, fails.  A result that reports a column named
    snapshot_date yields a record whose snapshot_date is the value of that
    column, here the number 7, and not a date followed by every column;
    and for a day of the year 999 the date written is 999-01-01, which
    has not the shape YYYY-MM-DD. *)
Lemma row_record_line_counterexample :
  let y := DateTime 2023 3 5 10 0 0 0 in
  let descr := [Column "id" 23; Column "snapshot_date" 1082] in
  let row := [PyInt 1; PyInt 7] in
  length row = length descr /\
  row_data y descr row = inr [("snapshot_date", PyInt 7); ("id", PyInt 1)] /\
  ~ (exists s, row_data y descr row =
               inr (("snapshot_date", PyStr s) :: zip (map col_name descr) row)) /\
  row_data (DateTime 999 1 1 0 0 0 0) [Column "id" 23] [PyInt 1] =
    inr [("snapshot_date", PyStr (ustr "999-01-01")); ("id", PyInt 1)] /\
  is_Ymd_format "999-01-01" = false.
Proof.
  split; [reflexivity|]. split; [reflexivity|].
  split; [|split; reflexivity].
  intros [s Hs]. vm_compute in Hs. discriminate Hs.
Qed.

(** C9.  When the result reports a column named snapshot_date, the record
    of a row has one snapshot_date key, it holds the value of that column
    (of the last such column, should several carry the name) in place of
    the injected date, and the keys of the record are exactly the names of
    the columns. *)
Theorem source_column_replaces_snapshot_date (y : datetime)
    (descr : list column) (row : list pyval) (i : nat) (col : column)
    (v : pyval) :
  length row = length descr ->
  descr !! i = Some col ->
  col_name col = "snapshot_date" ->
  (forall j c, (i < j)%nat -> descr !! j = Some c ->
               col_name c <> "snapshot_date") ->
  row !! i = Some v ->
  exists data,
    row_data y descr row = inr data /\
    dict_get data "snapshot_date" = Some v /\
    NoDup (keys data) /\
    (forall k, k ∈ keys data <-> k ∈ map col_name descr) /\
    (exists rest, keys data = "snapshot_date" :: rest).
Proof.
  intros Hlen Hcol Hname Hlast Hv. unfold row_data.
  destruct (set_columns_total descr
              [("snapshot_date", PyStr (ustr (strftime_Ymd y)))] 0 row) as [data Hd];
    [lia|].
  exists data. split; [exact Hd|].
  destruct (set_columns_keys _ _ _ _ _ Hd) as ((extra & Hex) & Hmem & Hnd).
  split; [|split; [|split]].
  - rewrite (set_columns_get _ _ _ _ _ "snapshot_date" Hd). rewrite drop_0.
    apply (last_assigned_at _ _ i); [|exact Hv|].
    + rewrite list_lookup_fmap, Hcol. simpl. now rewrite Hname.
    + intros j Hj. rewrite list_lookup_fmap.
      destruct (descr !! j) as [c|] eqn:Hc; [|discriminate].
      simpl. intros [= Heq]. exact (Hlast j c Hj Hc Heq).
  - apply Hnd. simpl. apply NoDup_singleton.
  - intros k. rewrite Hmem. simpl. split; [|tauto].
    intros [Hk|Hk]; [|exact Hk].
    apply list_elem_of_singleton in Hk as ->.
    apply list_elem_of_lookup. exists i.
    rewrite list_lookup_fmap, Hcol. simpl. now rewrite Hname.
  - exists extra. exact Hex.
Qed.

Lemma source_column_replaces_snapshot_date_witness :
  exists data,
    row_data (DateTime 2023 3 5 10 0 0 0)
             [Column "id" 23; Column "snapshot_date" 1082]
             [PyInt 1; PyInt 7] = inr data /\
    dict_get data "snapshot_date" = Some (PyInt 7).
Proof.
  destruct (source_column_replaces_snapshot_date
              (DateTime 2023 3 5 10 0 0 0)
              [Column "id" 23; Column "snapshot_date" 1082]
              [PyInt 1; PyInt 7] 1 (Column "snapshot_date" 1082) (PyInt 7))
    as (data & Hd & Hget & _).
  - reflexivity.
  - reflexivity.
  - reflexivity.
  - intros [|[|[|j]]] c Hj Hc; try lia; discriminate Hc.
  - reflexivity.
  - exists data. split; assumption.
Defined.

(** ** The loop over the rows *)

Lemma world_eq (a b : world) :
  clock_reads a = clock_reads b -> next_temp a = next_temp b ->
  temp_files a = temp_files b -> s3 a = s3 b ->
  replica_txn a = replica_txn b -> replica_stmts a = replica_stmts b ->
  next_txn a = next_txn b ->
  pending a = pending b -> visible a = visible b -> trace a = trace b ->
  a = b.
Proof. destruct a, b; simpl; intros; subst; reflexivity. Qed.

Lemma run_result {A} (x : world * (exn + A)) (r : exn + A) :
  snd x = r -> x = (fst x, r).
Proof. intros <-. now destruct x. Qed.

Lemma row_event_mono E t temp descr lo hi lo' hi' e :
  (lo' <= lo)%nat -> (hi <= hi')%nat ->
  row_event E t temp descr lo hi e -> row_event E t temp descr lo' hi' e.
Proof.
  intros Hlo Hhi [He | (data & j & y & row & He & Hj & Hy & Hd)];
    [now left | right].
  exists data, j, y, row. repeat split; try assumption; lia.
Qed.

Lemma write_row_run E temp descr row w :
  write_row E temp descr row w =
  match minus_one_day (clock E (clock_reads w)) with
  | None => (tick w, inl OverflowError)
  | Some y =>
      match row_data y descr row with
      | inl e => (tick w, inl e)
      | inr data =>
          (emit (ERecord temp data)
             (set_temp_files
                (<[temp := default EmptyString (temp_files w !! temp) +:+
                            record_line E data]> (temp_files w)) (tick w)),
           inr tt)
      end
  end.
Proof.
  unfold write_row, bind, datetime_today, minus_timedelta_1. simpl.
  destruct (minus_one_day _); [|reflexivity].
  unfold ret, lift. destruct (row_data _ _ _); reflexivity.
Qed.

Lemma row_data_error y descr row e :
  row_data y descr row = inl e -> e = IndexError.
Proof.
  unfold row_data. generalize [("snapshot_date", PyStr (ustr (strftime_Ymd y)))].
  generalize 0%nat. induction descr as [|c descr IHd]; intros i d H;
    simpl in H; [discriminate|].
  destruct (row !! i); [exact (IHd _ _ H) | now injection H].
Qed.

Lemma map_id_append (xs : list string) :
  map (fun y => EmptyString +:+ y) xs = xs.
Proof. induction xs as [|x xs IH]; simpl; [reflexivity | now rewrite IH]. Qed.

Lemma for_each_row_outcome E t temp descr drp rs : forall w c0,
  temp_files w !! temp = Some c0 ->
  exists k c evs r,
    for_each_row t rs drp (write_row E temp descr) w =
      (loop_world w k temp c evs, r) /\
    Forall (row_event E t temp descr (clock_reads w) (clock_reads w + k)) evs /\
    (drp = true -> r <> inr tt) /\
    (r = inl ExtractionError -> drp = true) /\
    (forall e, r = inl e ->
       e = OverflowError \/ e = IndexError \/ e = ExtractionError) /\
    c = c0 +:+ String.concat EmptyString (map (record_line E) (records evs)) /\
    rows_written E descr (clock_reads w) rs (records evs) /\
    (r = inr tt -> length (records evs) = length rs).
Proof.
  induction rs as [|row rs IH]; intros w c0 Hc0.
  - exists 0%nat, c0, [], (if drp then inl ExtractionError else inr tt).
    split; [|split; [constructor|split; [|split; [|split; [|split; [|split]]]]]].
    + simpl. destruct drp; unfold raise, ret; f_equal;
        apply world_eq; simpl; try reflexivity; try lia;
        try (now rewrite insert_id); now rewrite app_nil_r.
    + intros ->. discriminate.
    + destruct drp; [reflexivity | discriminate].
    + destruct drp; intros e [= <-]. tauto.
    + simpl. now rewrite append_nil_r.
    + constructor.
    + reflexivity.
  - cbn [for_each_row]. rewrite write_row_run. cbn [emit clock_reads temp_files].
    destruct (minus_one_day (clock E (clock_reads w))) as [y|] eqn:Hy.
    + destruct (row_data y descr row) as [e|data] eqn:Hd.
      * apply row_data_error in Hd as ->.
        exists 1%nat, c0, [EFetch t], (inl IndexError).
        split; [|split; [|split; [|split; [|split; [|split; [|split]]]]]].
        -- f_equal. apply world_eq; simpl; try reflexivity; try lia.
           now rewrite insert_id.
        -- repeat constructor.
        -- discriminate.
        -- discriminate.
        -- intros e [= <-]. tauto.
        -- simpl. now rewrite append_nil_r.
        -- constructor.
        -- discriminate.
      * rewrite Hc0. cbn [default].
        match goal with |- context [for_each_row t rs drp _ ?w1] =>
          destruct (IH w1 (c0 +:+ record_line E data))
            as (k & c & evs & r & Hrun & Hevs & Hdrp & Hex & Hkind & Hc & Hw
                & Hlen)
        end; [simpl; apply lookup_insert_eq|].
        rewrite Hrun.
        exists (S k), c, (EFetch t :: ERecord temp data :: evs), r.
        split; [|split; [|split; [|split; [|split; [|split; [|split]]]]]];
          try assumption.
        -- f_equal. apply world_eq; simpl; try reflexivity; try lia.
           ++ apply insert_insert_eq.
           ++ now rewrite <- !app_assoc.
        -- constructor; [now left|]. constructor.
           ++ right. exists data, (clock_reads w), y, row.
              repeat split; try assumption; lia.
           ++ simpl in Hevs. eapply Forall_impl; [exact Hevs|].
              intros e. apply row_event_mono; lia.
        -- rewrite Hc.
           change (records (EFetch t :: ERecord temp data :: evs))
             with (data :: records evs).
           rewrite map_cons, concat_cons, map_id_append, append_assoc.
           reflexivity.
        -- change (records (EFetch t :: ERecord temp data :: evs))
             with (data :: records evs).
           econstructor; [exact Hy | exact Hd | exact Hw].
        -- intros Hr.
           change (records (EFetch t :: ERecord temp data :: evs))
             with (data :: records evs).
           simpl length. f_equal. now apply Hlen.
    + exists 1%nat, c0, [EFetch t], (inl OverflowError).
      split; [|split; [|split; [|split; [|split; [|split; [|split]]]]]].
      * f_equal. apply world_eq; simpl; try reflexivity; try lia.
        now rewrite insert_id.
      * repeat constructor.
      * discriminate.
      * discriminate.
      * intros e [= <-]. tauto.
      * simpl. now rewrite append_nil_r.
      * constructor.
      * discriminate.
Qed.

(** ** The outcome of [dump] *)

Ltac same_world :=
  apply world_eq; simpl; try reflexivity; try lia;
  try (rewrite ?insert_insert_eq, ?delete_insert_eq; reflexivity);
  try (unfold dump_events; simpl;
       rewrite <- ?app_assoc, ?app_nil_r; reflexivity).

Lemma dump_outcome E to_file copy_to query params w :
  exists k c evs st,
    dump E to_file copy_to query params w =
      (dump_world E to_file copy_to query params w k c evs st,
       dump_result st) /\
    stage_facts E to_file copy_to query params w k c evs st /\
    blob_facts E query params w c evs st.
Proof.
  set (n := next_temp w). set (t := txn_of w). set (i := stmt_of w).
  set (w1 := {| clock_reads := clock_reads w; next_temp := S n;
                temp_files := <[n := EmptyString]> (temp_files w);
                s3 := s3 w; replica_txn := Some t;
                replica_stmts := S i;
                next_txn := match replica_txn w with
                            | Some _ => next_txn w
                            | None => S (next_txn w)
                            end;
                pending := pending w; visible := visible w;
                trace := trace w ++ begin_events w ++
                         [EExecute t query params] |}).
  assert (Hexec : replica_execute E query params
            {| clock_reads := clock_reads w; next_temp := S n;
               temp_files := <[n := EmptyString]> (temp_files w);
               s3 := s3 w; replica_txn := replica_txn w;
               replica_stmts := replica_stmts w;
               next_txn := next_txn w;
               pending := pending w; visible := visible w;
               trace := trace w |} =
          (w1, match source E t i query params with
               | Some r => inr (Cursor t r)
               | None => inl ExtractionError
               end)).
  { unfold replica_execute, w1, t, i, txn_of, stmt_of, begin_events. simpl.
    destruct (replica_txn w) as [t0|]; simpl;
      destruct (source E _ _ query params); simpl; f_equal;
      apply world_eq; simpl; try reflexivity; now rewrite <- app_assoc. }
  unfold dump.
  unfold bind at 1. unfold bind at 1. unfold NamedTemporaryFile at 1.
  fold n. unfold bind at 1. rewrite Hexec.
  destruct (source E t i query params) as [rs|] eqn:Hsrc.
  2:{ exists 0%nat, EmptyString, [], FailedExecute.
      split; [|split].
      - f_equal. same_world.
      - repeat split. exact Hsrc.
      - unfold blob_facts. fold t i. rewrite Hsrc. split; reflexivity. }
  unfold bind at 1. unfold for_row_in. cbn [curs_txn curs_result].
  destruct (for_each_row_outcome E t n (description rs) (dropped rs) (rows rs)
              w1 EmptyString)
    as (k & c & evs & r & Hrun & Hevs & Hdrp & Hex & Hkind & Hc & Hw & Hlen).
  { simpl. apply lookup_insert_eq. }
  rewrite Hrun. simpl in Hc, Hw.
  assert (Hblob : forall st,
            match st with
            | FailedUpload | FailedCopy | Loaded => r = inr tt
            | _ => True
            end -> blob_facts E query params w c evs st).
  { intros st Hst. unfold blob_facts. fold t i. rewrite Hsrc.
    split; [exact Hc|]. split; [exact Hw|].
    destruct st; try exact I; now apply Hlen. }
  destruct r as [e|[]].
  { exists k, c, evs, (FailedRows e). split; [|split].
    - f_equal. same_world.
    - exists rs. split; [exact Hsrc|]. split; [exact Hevs|].
      split; [intros ->; now apply Hex | now apply Hkind].
    - now apply Hblob. }
  assert (Hnd : dropped rs = false).
  { destruct (dropped rs); [|reflexivity]. now destruct Hdrp. }
  unfold bind at 1. unfold temp_close, ret. unfold bind at 1.
  unfold upload_file.
  destruct (upload_ok E (s3_uri (DW_BUCKET E) to_file)) eqn:Hup.
  2:{ exists k, c, evs, FailedUpload. split; [|split].
      - f_equal. same_world.
      - exists rs. repeat split; assumption.
      - now apply Hblob. }
  unfold os_remove, bind at 1. unfold redshift_copy. simpl.
  rewrite !lookup_insert_eq. simpl.
  destruct (copy_ok E copy_to c) eqn:Hcp.
  - exists k, c, evs, Loaded. split; [|split].
    + unfold logging_info. simpl. f_equal. same_world.
    + exists rs. repeat split; assumption.
    + now apply Hblob.
  - exists k, c, evs, FailedCopy. split; [|split].
    + f_equal. same_world.
    + exists rs. repeat split; assumption.
    + now apply Hblob.
Qed.

(** The blob of a dump that returns: one line for every row of the result,
    in the order of the result, each the line of the record of its row;
    it is what the store holds at the location and what the warehouse was
    given to load. *)
Lemma dump_blob E to_file copy_to query params w w' rs :
  dump E to_file copy_to query params w = (w', inr tt) ->
  source E (txn_of w) (stmt_of w) query params = Some rs ->
  exists datas,
    rows_written E (description rs) (clock_reads w) (rows rs) datas /\
    length datas = length (rows rs) /\
    let blob := String.concat EmptyString (map (record_line E) datas) in
    s3 w' !! s3_uri (DW_BUCKET E) to_file = Some blob /\
    pending w' = pending w ++ [dump_load E to_file copy_to blob].
Proof.
  intros Hrun Hsrc.
  destruct (dump_outcome E to_file copy_to query params w)
    as (k & c & evs & st & Heq & _ & Hc & Hw).
  rewrite Heq in Hrun. injection Hrun as <- Hres.
  destruct st; try discriminate Hres.
  rewrite Hsrc in Hw. destruct Hw as [Hw Hlen].
  exists (records evs). split; [exact Hw|]. split; [exact Hlen|].
  simpl. rewrite <- Hc. split; [apply lookup_insert_eq | reflexivity].
Qed.

Example steady_blob_of_users :
  s3 (fst (dump_users steady (DateTime 2023 3 5 10 0 0 0) empty_world))
    !! "s3://dw/users/snapshot_year=2023/snapshot_month=03/snapshot_day=05/data" =
  Some (record_line steady
          [("snapshot_date", PyStr (ustr "2023-03-05")); ("id", PyInt 1);
           ("name", PyStr (ustr "ann"))] +:+
        record_line steady
          [("snapshot_date", PyStr (ustr "2023-03-05")); ("id", PyInt 2);
           ("name", PyNone)]).
Proof. vm_compute. reflexivity. Qed.

Ltac elem_cases H :=
  repeat match type of H with
         | _ ∈ [] => apply elem_of_nil in H; destruct H
         | _ ∈ _ :: _ => apply elem_of_cons in H as [H|H]; [try discriminate H|]
         | _ ∈ _ ++ _ => apply elem_of_app in H as [H|H]
         | _ ∈ begin_events ?w =>
             unfold begin_events in H; destruct (replica_txn w)
         end.

Lemma row_events_no_upload E t temp descr lo hi evs uri :
  Forall (row_event E t temp descr lo hi) evs -> EUpload uri ∉ evs.
Proof.
  intros Hall Hin. rewrite Forall_forall in Hall.
  destruct (Hall _ Hin) as [He | (data & j & y & row & He & _)];
    discriminate He.
Qed.




(** C5.  When the extraction of a dump raises, and in particular when the
    connection drops after any number of rows of the result, [dump]
    raises, the object store is as it was before and no upload was made. *)
Theorem no_upload_after_failed_extraction (E : external)
    (to_file copy_to query : string) (params : option (list pyval))
    (w w' : world) (r : exn + unit) :
  dump E to_file copy_to query params w = (w', r) ->
  (r = inl ExtractionError \/
   exists rs, source E (txn_of w) (stmt_of w) query params = Some rs /\
              dropped rs = true) ->
  (exists e, r = inl e) /\
  s3 w' = s3 w /\
  pending w' = pending w /\
  exists evs, trace w' = trace w ++ evs /\ forall uri, EUpload uri ∉ evs.
Proof.
  intros Hrun Hfail.
  destruct (dump_outcome E to_file copy_to query params w)
    as (k & c & evs & st & Heq & Hfacts & _).
  rewrite Heq in Hrun. injection Hrun as <- <-.
  assert (Hst : st = FailedExecute \/ exists e rs,
            st = FailedRows e /\
            Forall (row_event E (txn_of w) (next_temp w) (description rs)
                      (clock_reads w) (clock_reads w + k)) evs).
  { destruct st as [|e| | |]; simpl in *.
    - now left.
    - right. destruct Hfacts as (rs & _ & Hevs & _). eauto.
    - destruct Hfail as [[=]|(rs & Hs & Hd)].
      destruct Hfacts as (rs' & Hs' & _ & Hd' & _). congruence.
    - destruct Hfail as [[=]|(rs & Hs & Hd)].
      destruct Hfacts as (rs' & Hs' & _ & Hd' & _). congruence.
    - destruct Hfail as [[=]|(rs & Hs & Hd)].
      destruct Hfacts as (rs' & Hs' & _ & Hd' & _). congruence. }
  destruct Hst as [->|(e & rs & -> & Hevs)]; simpl.
  - destruct Hfacts as (_ & _ & ->).
    repeat split; eauto. eexists. split; [reflexivity|].
    intros uri Hin. unfold dump_events in Hin. elem_cases Hin.
  - repeat split; eauto. eexists. split; [reflexivity|].
    intros uri Hin. unfold dump_events in Hin. elem_cases Hin.
    exact (row_events_no_upload _ _ _ _ _ _ _ _ Hevs Hin).
Qed.

Lemma no_upload_after_failed_extraction_witness :
  snd (dump dropping "users/d/data" "users" users_query None empty_world) =
    inl ExtractionError /\
  s3 (fst (dump dropping "users/d/data" "users" users_query None
                empty_world)) = s3 empty_world.
Proof.
  split; [reflexivity|].
  destruct (dump dropping "users/d/data" "users" users_query None empty_world)
    as [w' r] eqn:Hrun.
  apply (no_upload_after_failed_extraction dropping "users/d/data" "users"
           users_query None empty_world w' r Hrun).
  right. exists (ResultSet (description two_rows) (rows two_rows) true).
  split; reflexivity.
Defined.

(** ** What the events of a dump show *)

Lemma row_events_view E t temp descr lo hi evs :
  Forall (row_event E t temp descr lo hi) evs ->
  executed evs = [] /\ uploads evs = [] /\ copies evs = [] /\
  redshift_commits evs = [] /\
  Forall (fun op => op = TxnStatement t) (replica_view evs).
Proof.
  induction 1 as [|e evs He _ (IH1 & IH2 & IH3 & IH4 & IH5)].
  - repeat split; constructor.
  - destruct He as [-> | (data & j & y & row & -> & _)]; simpl;
      repeat split; try assumption.
    constructor; [reflexivity | assumption].
Qed.

Lemma dump_events_view E to_file copy_to query params w evs st t temp descr lo hi :
  Forall (row_event E t temp descr lo hi) evs ->
  let all := dump_events E to_file copy_to query params w evs st in
  executed all = [(txn_of w, query, params)] /\
  uploads all = (if uploaded st then [s3_uri (DW_BUCKET E) to_file] else []) /\
  copies all = match st with
               | Loaded => [(copy_to, s3_uri (DW_BUCKET E) to_file)]
               | _ => []
               end /\
  redshift_commits all = [] /\
  replica_view all =
    replica_view (begin_events w) ++ TxnStatement (txn_of w) :: replica_view evs.
Proof.
  intros Hevs. destruct (row_events_view _ _ _ _ _ _ _ Hevs)
    as (H1 & H2 & H3 & H4 & _).
  unfold dump_events, executed, uploads, copies, redshift_commits,
    replica_view in *.
  rewrite !omap_app, ?H1, ?H2, ?H3, ?H4.
  unfold begin_events.
  destruct (replica_txn w), st; simpl; rewrite ?app_nil_r; repeat split.
Qed.

Lemma stage_facts_rows E to_file copy_to query params w k c evs st :
  stage_facts E to_file copy_to query params w k c evs st ->
  exists descr,
    Forall (row_event E (txn_of w) (next_temp w) descr
              (clock_reads w) (clock_reads w + k)) evs.
Proof.
  destruct st; simpl.
  - intros (_ & _ & ->). exists []. constructor.
  - intros (rs & _ & H & _). eauto.
  - intros (rs & _ & H & _). eauto.
  - intros (rs & _ & H & _). eauto.
  - intros (rs & _ & H & _). eauto.
Qed.

Lemma dump_inv E to_file copy_to query params w w' r :
  dump E to_file copy_to query params w = (w', r) ->
  exists k c evs st descr,
    w' = dump_world E to_file copy_to query params w k c evs st /\
    r = dump_result st /\
    Forall (row_event E (txn_of w) (next_temp w) descr
              (clock_reads w) (clock_reads w + k)) evs /\
    stage_facts E to_file copy_to query params w k c evs st.
Proof.
  intros Hrun.
  destruct (dump_outcome E to_file copy_to query params w)
    as (k & c & evs & st & Heq & Hfacts & _).
  rewrite Heq in Hrun. injection Hrun as <- <-.
  destruct (stage_facts_rows _ _ _ _ _ _ _ _ _ _ Hfacts) as [descr Hrows].
  exists k, c, evs, st, descr. repeat split; assumption.
Qed.

(** ** The run *)

Lemma run_dumps_run E w :
  run_dumps E w =
  match minus_one_day (clock E (clock_reads w)) with
  | None => (tick w, inl OverflowError)
  | Some day =>
      match dump_users E day (tick w) with
      | (w1, inl e) => (w1, inl e)
      | (w1, inr _) =>
          match dump_projects E day w1 with
          | (w2, inl e) => (w2, inl e)
          | (w2, inr _) => dump_activities E day w2
          end
      end
  end.
Proof.
  unfold run_dumps, bind, datetime_today, minus_timedelta_1. fold (tick w).
  destruct (minus_one_day _); reflexivity.
Qed.

Lemma main_run E w :
  replica_reachable E = true -> redshift_reachable E = true ->
  main E w =
  match run_dumps E (connected w) with
  | (wb, inl e) => (rolled_back wb, inl e)
  | (wb, inr _) => (finished E wb, notified E)
  end.
Proof.
  intros Hr Hw. unfold main, bind, connect_replica, connect_redshift,
    with_read_replica.
  rewrite Hr, Hw.
  change (set_loads [] (visible (set_replica_txn None w))
            (set_replica_txn None w)) with (connected w).
  destruct (run_dumps E (connected w)) as [wb [e|[]]]; [reflexivity|].
  unfold redshift_commit, logging_info, dd_events_create, finished, notified,
    notice.
  destruct (datadog_ok E); f_equal;
    apply world_eq; simpl; try reflexivity;
    now rewrite <- ?app_assoc, ?app_nil_r.
Qed.

Ltac invert_dump H k c evs st descr Hres Hrows Hfacts :=
  unfold dump_users, dump_projects, dump_activities in H;
  apply dump_inv in H
    as (k & c & evs & st & descr & -> & Hres & Hrows & Hfacts).

Lemma stamped_mono E lo lo' e :
  (lo' <= lo)%nat -> stamped E lo e -> stamped E lo' e.
Proof.
  intros Hle H temp data He.
  destruct (H temp data He) as (j & y & t & i & q & p & rs & row & Hj & Hrest).
  exists j, y, t, i, q, p, rs, row. split; [lia | exact Hrest].
Qed.

Lemma dump_events_stamped E to_file copy_to query params w k c evs st :
  stage_facts E to_file copy_to query params w k c evs st ->
  Forall (stamped E (clock_reads w))
         (dump_events E to_file copy_to query params w evs st).
Proof.
  intros Hfacts. apply Forall_forall. intros e Hin temp data ->.
  assert (Hrows : st <> FailedExecute -> exists rs,
            source E (txn_of w) (stmt_of w) query params = Some rs /\
            Forall (row_event E (txn_of w) (next_temp w) (description rs)
                      (clock_reads w) (clock_reads w + k)) evs).
  { destruct st; simpl in Hfacts; try congruence; intros _;
      destruct Hfacts as (rs & Hs & Hr & _); eauto. }
  unfold dump_events in Hin.
  assert (Hin' : ERecord temp data ∈ evs).
  { elem_cases Hin; try assumption; destruct st; elem_cases Hin. }
  destruct st; try (destruct Hfacts as (_ & _ & ->); elem_cases Hin').
  all: destruct Hrows as (rs & Hs & Hr); [discriminate|].
  all: rewrite Forall_forall in Hr.
  all: destruct (Hr _ Hin') as [He | (d & j & y & row & He & Hj & Hy & Hd)];
    [discriminate He|].
  all: injection He as _ <-.
  all: exists j, y, (txn_of w), (stmt_of w), query, params, rs, row.
  all: repeat split; try assumption; lia.
Qed.

Ltac view_of Hrows st Hx Hu Hc Hm Hv :=
  match type of Hrows with
  | Forall (row_event ?E _ _ _ _ _) ?evs =>
      match goal with
      | |- context [dump_events E ?f ?t ?q ?p ?w evs st] =>
          destruct (dump_events_view E f t q p w evs st _ _ _ _ _ Hrows)
            as (Hx & Hu & Hc & Hm & Hv)
      end
  end.

Ltac stmts_of Hrows Hs :=
  pose proof (proj2 (proj2 (proj2 (proj2
    (row_events_view _ _ _ _ _ _ _ Hrows))))) as Hs.

Ltac stamped_of Hfacts Hst :=
  pose proof (dump_events_stamped _ _ _ _ _ _ _ _ _ _ Hfacts) as Hst;
  simpl clock_reads in Hst.

Ltac weaken_stamped :=
  match goal with
  | H : Forall (stamped _ _) ?l |- Forall (stamped _ _) ?l =>
      eapply Forall_impl; [exact H|];
      intros ?; apply stamped_mono; simpl; lia
  end.

Ltac settle_txn Hnone :=
  repeat progress (simpl in *; unfold txn_of, begin_events in *;
                   rewrite ?Hnone in *).

Ltac split_stamped :=
  match goal with
  | |- Forall _ (dump_events _ _ _ _ _ _ _ _ ++ _) =>
      apply Forall_app; split; [|split_stamped]
  | _ => idtac
  end.

Ltac keep_stamped Hst :=
  match goal with
  | |- _ /\ _ /\ _ /\ _ /\ _ /\ Forall ?P ?l =>
      assert (Hst : Forall P l)
        by (split_stamped; first [assumption | weaken_stamped])
  end.

Lemma failed_run_shape E day w0 i wf e :
  replica_txn w0 = None ->
  fails_at E day w0 i wf e ->
  visible wf = visible w0 /\
  length (pending wf) = (length (pending w0) + i)%nat /\
  exists evs, trace wf = trace w0 ++ evs /\ run_shape E day w0 (S i) i evs.
Proof.
  intros Hnone Hfail. unfold run_shape.
  destruct i as [|[|[|i]]]; simpl in Hfail; [| | |contradiction].
  - invert_dump Hfail k1 c1 evs1 st1 d1 Hres1 Hrows1 Hf1.
    split; [reflexivity|].
    split; [destruct st1; try discriminate Hres1; simpl; lia|].
    eexists. split; [reflexivity|].
    view_of Hrows1 st1 Hx1 Hu1 Hc1 Hm1 Hv1.
    stmts_of Hrows1 Hs1. stamped_of Hf1 Hst1.
    rewrite Hx1, Hc1, Hm1, Hu1, Hv1.
    settle_txn Hnone.
    split; [reflexivity|]. split; [reflexivity|].
    split; [destruct st1; try discriminate Hres1; reflexivity|].
    split; [|split; [eauto | exact Hst1]].
    destruct st1; simpl;
      first [exists 0%nat; split; [reflexivity | lia]
            |exists 1%nat; split; [reflexivity | lia]].
  - destruct Hfail as (w1 & H1 & H2).
    invert_dump H1 k1 c1 evs1 st1 d1 Hres1 Hrows1 Hf1.
    destruct st1; try discriminate Hres1.
    invert_dump H2 k2 c2 evs2 st2 d2 Hres2 Hrows2 Hf2.
    split; [reflexivity|].
    split; [destruct st2; try discriminate Hres2; simpl;
            rewrite ?length_app; simpl; lia|].
    eexists. split; [simpl; rewrite <- !app_assoc; reflexivity|].
    view_of Hrows1 Loaded Hx1 Hu1 Hc1 Hm1 Hv1.
    view_of Hrows2 st2 Hx2 Hu2 Hc2 Hm2 Hv2.
    stmts_of Hrows1 Hs1. stmts_of Hrows2 Hs2.
    stamped_of Hf1 Hst1. stamped_of Hf2 Hst2. keep_stamped Hst.
    unfold redshift_commits, executed, copies, uploads, replica_view in *.
    rewrite !omap_app, Hx1, Hc1, Hm1, Hu1, Hv1, Hx2, Hc2, Hm2, Hu2, Hv2.
    settle_txn Hnone.
    split; [reflexivity|]. split; [reflexivity|].
    split; [destruct st2; try discriminate Hres2; reflexivity|].
    split; [|split].
    + destruct st2; simpl;
        first [exists 1%nat; split; [reflexivity | lia]
              |exists 2%nat; split; [reflexivity | lia]].
    + eexists. split; [reflexivity|]. constructor; [reflexivity|].
      apply Forall_app. split; [exact Hs1|]. constructor; [reflexivity|].
      exact Hs2.
    + exact Hst.
  - destruct Hfail as (w1 & w2 & H1 & H2 & H3).
    invert_dump H1 k1 c1 evs1 st1 d1 Hres1 Hrows1 Hf1.
    destruct st1; try discriminate Hres1.
    invert_dump H2 k2 c2 evs2 st2 d2 Hres2 Hrows2 Hf2.
    destruct st2; try discriminate Hres2.
    invert_dump H3 k3 c3 evs3 st3 d3 Hres3 Hrows3 Hf3.
    split; [reflexivity|].
    split; [destruct st3; try discriminate Hres3; simpl;
            rewrite ?length_app; simpl; lia|].
    eexists. split; [simpl; rewrite <- !app_assoc; reflexivity|].
    view_of Hrows1 Loaded Hx1 Hu1 Hc1 Hm1 Hv1.
    view_of Hrows2 Loaded Hx2 Hu2 Hc2 Hm2 Hv2.
    view_of Hrows3 st3 Hx3 Hu3 Hc3 Hm3 Hv3.
    stmts_of Hrows1 Hs1. stmts_of Hrows2 Hs2. stmts_of Hrows3 Hs3.
    stamped_of Hf1 Hst1. stamped_of Hf2 Hst2. stamped_of Hf3 Hst3.
    keep_stamped Hst.
    unfold redshift_commits, executed, copies, uploads, replica_view in *.
    rewrite !omap_app, Hx1, Hc1, Hm1, Hu1, Hv1, Hx2, Hc2, Hm2, Hu2, Hv2,
      Hx3, Hc3, Hm3, Hu3, Hv3.
    settle_txn Hnone.
    split; [reflexivity|]. split; [reflexivity|].
    split; [destruct st3; try discriminate Hres3; reflexivity|].
    split; [|split].
    + destruct st3; simpl;
        first [exists 2%nat; split; [reflexivity | lia]
              |exists 3%nat; split; [reflexivity | lia]].
    + eexists. split; [reflexivity|]. constructor; [reflexivity|].
      apply Forall_app. split; [exact Hs1|]. constructor; [reflexivity|].
      apply Forall_app. split; [exact Hs2|]. constructor; [reflexivity|].
      exact Hs3.
    + exact Hst.
Qed.

Lemma completed_run_shape E day w0 wb :
  replica_txn w0 = None ->
  all_loaded E day w0 wb ->
  visible wb = visible w0 /\
  (exists b1 b2 b3,
     pending wb = pending w0 ++
       [dump_load E (users_path day) "users" b1;
        dump_load E (projects_path day) "projects" b2;
        dump_load E (activities_path day) "activities" b3]) /\
  exists evs, trace wb = trace w0 ++ evs /\ run_shape E day w0 3 3 evs.
Proof.
  intros Hnone (w1 & w2 & H1 & H2 & H3). unfold run_shape.
  invert_dump H1 k1 c1 evs1 st1 d1 Hres1 Hrows1 Hf1.
  destruct st1; try discriminate Hres1.
  invert_dump H2 k2 c2 evs2 st2 d2 Hres2 Hrows2 Hf2.
  destruct st2; try discriminate Hres2.
  invert_dump H3 k3 c3 evs3 st3 d3 Hres3 Hrows3 Hf3.
  destruct st3; try discriminate Hres3.
  split; [reflexivity|].
  split; [exists c1, c2, c3; simpl; now rewrite <- !app_assoc|].
  eexists. split; [simpl; rewrite <- !app_assoc; reflexivity|].
  view_of Hrows1 Loaded Hx1 Hu1 Hc1 Hm1 Hv1.
  view_of Hrows2 Loaded Hx2 Hu2 Hc2 Hm2 Hv2.
  view_of Hrows3 Loaded Hx3 Hu3 Hc3 Hm3 Hv3.
  stmts_of Hrows1 Hs1. stmts_of Hrows2 Hs2. stmts_of Hrows3 Hs3.
  stamped_of Hf1 Hst1. stamped_of Hf2 Hst2. stamped_of Hf3 Hst3.
  keep_stamped Hst.
  unfold redshift_commits, executed, copies, uploads, replica_view in *.
  rewrite !omap_app, Hx1, Hc1, Hm1, Hu1, Hv1, Hx2, Hc2, Hm2, Hu2, Hv2,
    Hx3, Hc3, Hm3, Hu3, Hv3.
  settle_txn Hnone.
  split; [reflexivity|]. split; [reflexivity|]. split; [reflexivity|].
  split; [exists 3%nat; split; [reflexivity | lia]|].
  split; [|exact Hst].
  eexists. split; [reflexivity|]. constructor; [reflexivity|].
  apply Forall_app. split; [exact Hs1|]. constructor; [reflexivity|].
  apply Forall_app. split; [exact Hs2|]. constructor; [reflexivity|].
  exact Hs3.
Qed.

Lemma run_dumps_inv E w wb r day :
  minus_one_day (clock E (clock_reads w)) = Some day ->
  run_dumps E w = (wb, r) ->
  (r = inr tt /\ all_loaded E day (tick w) wb) \/
  (exists i e, r = inl e /\ fails_at E day (tick w) i wb e).
Proof.
  intros Hday. rewrite run_dumps_run, Hday.
  destruct (dump_users E day (tick w)) as [w1 [e1|[]]] eqn:H1.
  { intros [= <- <-]. right. exists 0%nat, e1. split; [reflexivity | exact H1]. }
  destruct (dump_projects E day w1) as [w2 [e2|[]]] eqn:H2.
  { intros [= <- <-]. right. exists 1%nat, e2. split; [reflexivity|].
    exists w1. split; assumption. }
  destruct r as [e3|[]]; intros H3.
  - right. exists 2%nat, e3. split; [reflexivity|].
    exists w1, w2. repeat split; assumption.
  - left. split; [reflexivity|]. exists w1, w2. repeat split; assumption.
Qed.

Lemma fails_at_run E w day i wf e :
  minus_one_day (clock E (clock_reads w)) = Some day ->
  fails_at E day (tick w) i wf e ->
  run_dumps E w = (wf, inl e).
Proof.
  intros Hday Hfail. rewrite run_dumps_run, Hday.
  destruct i as [|[|[|i]]]; simpl in Hfail; [| | |contradiction].
  - now rewrite Hfail.
  - destruct Hfail as (w1 & H1 & H2). now rewrite H1, H2.
  - destruct Hfail as (w1 & w2 & H1 & H2 & H3). now rewrite H1, H2, H3.
Qed.

(** C3.  When one of the three dumps raises, [main] raises the same
    exception; nothing runs after the failing dump but the rollback of the
    read replica: the statements executed are those of the dumps up to the
    failing one, the later ones are not attempted; no commit is sent to
    the warehouse, and the warehouse shows what it showed before the run,
    the loads of the earlier dumps staying uncommitted. *)
Theorem failed_dump_aborts_run (E : external) (w : world) (day : datetime)
    (i : nat) (wf : world) (e : exn) :
  replica_reachable E = true ->
  redshift_reachable E = true ->
  minus_one_day (clock E (clock_reads w)) = Some day ->
  fails_at E day (tick (connected w)) i wf e ->
  main E w = (rolled_back wf, inl e) /\
  visible (rolled_back wf) = visible w /\
  length (pending (rolled_back wf)) = i /\
  exists evs,
    trace (rolled_back wf) = trace w ++ evs /\
    redshift_commits evs = [] /\
    executed evs = take (S i) (statements (next_txn w) day) /\
    copies evs = take i (targets E day).
Proof.
  intros Hr Hw Hday Hfail.
  rewrite (main_run E w Hr Hw).
  rewrite (fails_at_run E (connected w) day i wf e Hday Hfail).
  split; [reflexivity|].
  destruct (failed_run_shape E day (tick (connected w)) i wf e eq_refl Hfail)
    as (Hvis & Hpend & evs & Htr & Hcm & Hex & Hcp & _).
  split; [exact Hvis|]. split; [exact Hpend|].
  exists (evs ++ [EReplicaRollback]). simpl. rewrite Htr.
  split; [now rewrite <- app_assoc|].
  unfold redshift_commits, executed, copies in *.
  rewrite !omap_app, Hcm, Hex, Hcp. simpl. now rewrite !app_nil_r.
Qed.

Lemma failed_dump_aborts_run_witness :
  snd (main projects_rejected empty_world) = inl LoadError /\
  visible (fst (main projects_rejected empty_world)) = [].
Proof.
  destruct (failed_dump_aborts_run projects_rejected empty_world
              (DateTime 2023 3 5 10 0 0 0) 1
              (fst (dump_projects projects_rejected
                      (DateTime 2023 3 5 10 0 0 0)
                      (fst (dump_users projects_rejected
                              (DateTime 2023 3 5 10 0 0 0)
                              (tick (connected empty_world))))))
              LoadError) as (Hmain & Hvis & _).
  - reflexivity.
  - reflexivity.
  - reflexivity.
  - eexists. split; refine (run_result _ _ _); vm_compute; reflexivity.
  - rewrite Hmain. split; [reflexivity | exact Hvis].
Defined.



Lemma shape_after_block (evs tail : list event) :
  executed tail = [] -> uploads tail = [] -> copies tail = [] ->
  executed (evs ++ tail) = executed evs /\
  uploads (evs ++ tail) = uploads evs /\
  copies (evs ++ tail) = copies evs.
Proof.
  intros Hx Hu Hc. unfold executed, uploads, copies in *.
  now rewrite !omap_app, Hx, Hu, Hc, !app_nil_r.
Qed.

(** C10.  A run that reaches the dumps executes the statements of users,
    projects and activities in this order, stopping after the first dump
    that raises; a run that returns has executed the three of them, and
    has uploaded and loaded the three blobs in the same order.  The users
    and projects statements select the whole table, without bind
    parameters, into the leaf data; the activities statement ends with
    the filter on the date of created_at, bound to the date of [day],
    the date of the path, and goes to the leaf incremental. *)
Theorem three_dumps_in_order (E : external) (w w' : world) (r : exn + unit)
    (day : datetime) :
  replica_reachable E = true ->
  redshift_reachable E = true ->
  minus_one_day (clock E (clock_reads w)) = Some day ->
  main E w = (w', r) ->
  (exists evs n u m,
     trace w' = trace w ++ evs /\
     (1 <= n <= 3)%nat /\ (m <= u <= n)%nat /\
     executed evs = take n (statements (next_txn w) day) /\
     uploads evs = take u (locations E day) /\
     copies evs = take m (targets E day) /\
     (r = inr tt -> n = 3%nat /\ u = 3%nat /\ m = 3%nat)) /\
  statements (next_txn w) day =
    [(next_txn w, users_query, None);
     (next_txn w, projects_query, None);
     (next_txn w, activities_query,
      Some [PyDate (dt_year day) (dt_month day) (dt_day day)])] /\
  locations E day =
    [s3_uri (DW_BUCKET E) ("users/" +:+ date_params day +:+ "/data");
     s3_uri (DW_BUCKET E) ("projects/" +:+ date_params day +:+ "/data");
     s3_uri (DW_BUCKET E)
            ("activities/" +:+ date_params day +:+ "/incremental")] /\
  map fst (targets E day) = ["users"; "projects"; "activities"] /\
  String.index 0 "WHERE" users_query = None /\
  String.index 0 "WHERE" projects_query = None /\
  (exists n, String.index 0 "WHERE" activities_query = Some n /\
             substring n (String.length activities_query - n) activities_query =
               "WHERE DATE(created_at) = %s").
Proof.
  intros Hr Hw Hday Hmain.
  split.
  2:{ split; [reflexivity|]. split; [reflexivity|].
      split; [reflexivity|]. split; [vm_compute; reflexivity|].
      split; [vm_compute; reflexivity|].
      exists 211%nat. split; vm_compute; reflexivity. }
  rewrite (main_run E w Hr Hw) in Hmain.
  destruct (run_dumps E (connected w)) as [wb rb] eqn:Hrun.
  destruct (run_dumps_inv E (connected w) wb rb day Hday Hrun)
    as [[-> Hall] | (i & e & -> & Hfail)].
  - injection Hmain as <- <-.
    destruct (completed_run_shape E day (tick (connected w)) wb eq_refl Hall)
      as (_ & _ & evs & Htr & _ & Hx & Hc & (u & Hu & Hle) & _).
    exists (evs ++ [EReplicaCommit; ERedshiftCommit; ELog "Done"] ++ notice E),
           3%nat, u, 3%nat.
    destruct (shape_after_block evs
                ([EReplicaCommit; ERedshiftCommit; ELog "Done"] ++ notice E))
      as (-> & -> & ->);
      try (unfold notice; destruct (datadog_ok E); reflexivity).
    simpl trace. rewrite Htr, <- app_assoc.
    repeat split; try assumption; try lia.
  - injection Hmain as <- <-.
    assert (Hi : (i < 3)%nat).
    { destruct i as [|[|[|i]]]; simpl in Hfail; [lia | lia | lia | contradiction]. }
    destruct (failed_run_shape E day (tick (connected w)) i wb e eq_refl Hfail)
      as (_ & _ & evs & Htr & _ & Hx & Hc & (u & Hu & Hle) & _).
    exists (evs ++ [EReplicaRollback]), (S i), u, i.
    destruct (shape_after_block evs [EReplicaRollback]) as (-> & -> & ->);
      try reflexivity.
    simpl trace. rewrite Htr, <- app_assoc.
    repeat split; try assumption; try lia; discriminate.
Qed.

Lemma three_dumps_in_order_witness :
  exists evs, trace (fst (main steady empty_world)) = evs /\
    executed evs = statements 0 (DateTime 2023 3 5 10 0 0 0).
Proof.
  destruct (three_dumps_in_order steady empty_world
              (fst (main steady empty_world)) (snd (main steady empty_world))
              (DateTime 2023 3 5 10 0 0 0)) as ((evs & n & u & m & H) & _).
  - reflexivity.
  - reflexivity.
  - reflexivity.
  - apply surjective_pairing.
  - destruct H as (Htr & _ & _ & Hx & _ & _ & Hn).
    destruct Hn as (-> & _); [vm_compute; reflexivity|].
    exists evs. split; [exact Htr | exact Hx].
Defined.

Lemma statements_txn t day n x :
  x ∈ take n (statements t day) -> x.1.1 = t.
Proof.
  intros Hx. apply elem_of_take in Hx as (i & Hi & _).
  apply list_elem_of_lookup_2 in Hi. unfold statements in Hi.
  elem_cases Hi; subst; reflexivity.
Qed.

Lemma dump_raises_no_notification E to_file copy_to query params w w' :
  dump E to_file copy_to query params w <> (w', inl NotificationError).
Proof.
  intros Hrun.
  apply dump_inv in Hrun as (k & c & evs & st & descr & _ & Hres & _ & Hfacts).
  destruct st as [|e| | |]; try discriminate Hres.
  injection Hres as <-.
  destruct Hfacts as (rs & _ & _ & _ & [Hk | [Hk | Hk]]); discriminate Hk.
Qed.

(** A dump that returns: the statement it executed, the result it was
    given and the world it leaves. *)
Lemma dump_returns E to_file copy_to query params w w' :
  dump E to_file copy_to query params w = (w', inr tt) ->
  exists rs blob,
    source E (txn_of w) (stmt_of w) query params = Some rs /\
    dumped E rs blob /\
    pending w' = pending w ++ [dump_load E to_file copy_to blob] /\
    visible w' = visible w /\
    replica_txn w' = Some (txn_of w) /\
    replica_stmts w' = S (stmt_of w).
Proof.
  intros Hrun.
  destruct (dump_outcome E to_file copy_to query params w)
    as (k & c & evs & st & Heq & Hfacts & Hc & Hw).
  rewrite Heq in Hrun. injection Hrun as <- Hres.
  destruct st; try discriminate Hres.
  destruct Hfacts as (rs & Hsrc & _). exists rs, c.
  rewrite Hsrc in Hw |- *. destruct Hw as [Hw Hlen].
  split; [reflexivity|]. split.
  { exists (clock_reads w), (records evs). auto. }
  simpl. auto.
Qed.

(** The three results of a block that is left normally: the answers of
    the source to the statements number 0, 1 and 2 of the transaction. *)
Lemma completed_run_results E day w0 wb :
  replica_txn w0 = None ->
  all_loaded E day w0 wb ->
  exists rsu rsp rsa b1 b2 b3,
    source E (next_txn w0) 0 users_query None = Some rsu /\
    source E (next_txn w0) 1 projects_query None = Some rsp /\
    source E (next_txn w0) 2 activities_query (Some [date_of day]) = Some rsa /\
    dumped E rsu b1 /\ dumped E rsp b2 /\ dumped E rsa b3 /\
    visible wb = visible w0 /\
    pending wb = pending w0 ++
      [dump_load E (users_path day) "users" b1;
       dump_load E (projects_path day) "projects" b2;
       dump_load E (activities_path day) "activities" b3].
Proof.
  intros Hnone (w1 & w2 & H1 & H2 & H3).
  apply dump_returns in H1
    as (rsu & b1 & Hsu & Hd1 & Hp1 & Hv1 & Ht1 & Hn1).
  apply dump_returns in H2
    as (rsp & b2 & Hsp & Hd2 & Hp2 & Hv2 & Ht2 & Hn2).
  apply dump_returns in H3
    as (rsa & b3 & Hsa & Hd3 & Hp3 & Hv3 & Ht3 & Hn3).
  unfold txn_of, stmt_of in *.
  rewrite Hnone in *. cbn [default] in *.
  rewrite Ht1 in *. cbn [default] in *. rewrite Hn1 in *.
  rewrite Ht2 in *. cbn [default] in *. rewrite Hn2 in *.
  exists rsu, rsp, rsa, b1, b2, b3.
  repeat (split; [assumption|]). split.
  - now rewrite Hv3, Hv2, Hv1.
  - rewrite Hp3, Hp2, Hp1, <- !app_assoc. reflexivity.
Qed.

(** C8, as amended.  Seen from the read-replica connection, a run is
    either nothing (a connection could not be made), or the end of a
    block in which no statement ran, or one transaction: it begins with
    the first statement, then come the statements and fetches of the
    extractions, every one inside that transaction, and only then does it
    end.  In a run that gets past the block, the three extractions are
    the statements number 0, 1 and 2 of that transaction, and the blobs
    that the warehouse loads are the dumps of the answers to these three
    statements.  The three answers are those of one snapshot when the
    server answers a whole transaction from one snapshot, which the
    script does not ask for. *)
Theorem single_source_transaction (E : external) (w : world) :
  (exists evs,
     trace (fst (main E w)) = trace w ++ evs /\
     (forall t q p, (t, q, p) ∈ executed evs -> t = next_txn w) /\
     ((replica_view evs = [] /\ executed evs = []) \/
      (replica_view evs = [TxnEnd] /\ executed evs = []) \/
      exists stmts,
        replica_view evs = TxnBegin (next_txn w) :: stmts ++ [TxnEnd] /\
        Forall (fun op => op = TxnStatement (next_txn w)) stmts /\
        executed evs <> [])) /\
  (snd (main E w) = inr tt \/ snd (main E w) = inl NotificationError ->
   exists day rsu rsp rsa b1 b2 b3,
     minus_one_day (clock E (clock_reads w)) = Some day /\
     source E (next_txn w) 0 users_query None = Some rsu /\
     source E (next_txn w) 1 projects_query None = Some rsp /\
     source E (next_txn w) 2 activities_query (Some [date_of day]) = Some rsa /\
     dumped E rsu b1 /\ dumped E rsp b2 /\ dumped E rsa b3 /\
     visible (fst (main E w)) =
       visible w ++ [dump_load E (users_path day) "users" b1;
                     dump_load E (projects_path day) "projects" b2;
                     dump_load E (activities_path day) "activities" b3] /\
     (one_snapshot E -> same_snapshot E (next_txn w) day rsu rsp rsa)).
Proof.
  destruct (replica_reachable E) eqn:Hr.
  2:{ unfold main, bind, connect_replica. rewrite Hr. simpl. split.
      - exists []. rewrite app_nil_r. split; [reflexivity|].
        split; [intros t q p H; inversion H | left; split; reflexivity].
      - intros [H|H]; discriminate H. }
  destruct (redshift_reachable E) eqn:Hw.
  2:{ unfold main, bind, connect_replica, connect_redshift.
      rewrite Hr, Hw. simpl. split.
      - exists []. rewrite app_nil_r. split; [reflexivity|].
        split; [intros t q p H; inversion H | left; split; reflexivity].
      - intros [H|H]; discriminate H. }
  rewrite (main_run E w Hr Hw).
  destruct (minus_one_day (clock E (clock_reads w))) as [day|] eqn:Hday.
  2:{ rewrite run_dumps_run.
      change (clock_reads (connected w)) with (clock_reads w). rewrite Hday.
      split.
      - exists [EReplicaRollback]. split; [reflexivity|].
        split; [intros t q p H; inversion H | right; left; split; reflexivity].
      - intros [H|H]; discriminate H. }
  destruct (run_dumps E (connected w)) as [wb rb] eqn:Hrun.
  destruct (run_dumps_inv E (connected w) wb rb day Hday Hrun)
    as [[-> Hall] | (i & e & -> & Hfail)].
  - split.
    + destruct (completed_run_shape E day (tick (connected w)) wb eq_refl Hall)
        as (_ & _ & evs & Htr & _ & Hx & _ & _ & (stmts & Hv & Hs) & _).
      exists (evs ++ [EReplicaCommit; ERedshiftCommit; ELog "Done"] ++ notice E).
      assert (Hn : executed (notice E) = [] /\ replica_view (notice E) = [])
        by (unfold notice; destruct (datadog_ok E); split; reflexivity).
      destruct Hn as [Hnx Hnv].
      unfold executed, replica_view in *. rewrite !omap_app, Hx, Hv, Hnx, Hnv.
      simpl. rewrite Htr, <- app_assoc, ?app_nil_r.
      split; [reflexivity|]. split; [|right; right; exists stmts].
      * intros t q p Hin.
        exact (statements_txn (next_txn w) day 3 (t, q, p) Hin).
      * repeat split; [assumption | discriminate].
    + intros _.
      destruct (completed_run_results E day (tick (connected w)) wb eq_refl Hall)
        as (rsu & rsp & rsa & b1 & b2 & b3 & Hsu & Hsp & Hsa &
            Hd1 & Hd2 & Hd3 & Hvis & Hpend).
      simpl in Hsu, Hsp, Hsa, Hvis, Hpend.
      exists day, rsu, rsp, rsa, b1, b2, b3.
      split; [reflexivity|]. repeat (split; [assumption|]). split.
      * simpl. now rewrite Hvis, Hpend.
      * intros Hone. exists 0%nat.
        rewrite (Hone _ 1%nat) in Hsp. rewrite (Hone _ 2%nat) in Hsa. auto.
  - split.
    + destruct (failed_run_shape E day (tick (connected w)) i wb e eq_refl Hfail)
        as (_ & _ & evs & Htr & _ & Hx & _ & _ & (stmts & Hv & Hs) & _).
      exists (evs ++ [EReplicaRollback]).
      unfold executed, replica_view in *. rewrite !omap_app, Hx, Hv.
      simpl. rewrite Htr, <- app_assoc, ?app_nil_r.
      split; [reflexivity|]. split; [|right; right; exists stmts].
      * intros t q p Hin.
        exact (statements_txn (next_txn w) day (S i) (t, q, p) Hin).
      * repeat split; [assumption | discriminate].
    + cbn [snd]. intros [H|H]; [discriminate H|]. injection H as ->.
      exfalso. destruct i as [|[|[|i]]]; simpl in Hfail.
      * now apply dump_raises_no_notification in Hfail.
      * destruct Hfail as (w1 & _ & Hfail).
        now apply dump_raises_no_notification in Hfail.
      * destruct Hfail as (w1 & w2 & _ & _ & Hfail).
        now apply dump_raises_no_notification in Hfail.
      * exact Hfail.
Qed.

Lemma single_source_transaction_witness :
  (exists stmts,
     replica_view (trace (fst (main steady empty_world))) =
       TxnBegin 0 :: stmts ++ [TxnEnd] /\
     Forall (fun op => op = TxnStatement 0) stmts) /\
  same_snapshot steady 0 (DateTime 2023 3 5 10 0 0 0)
                two_rows two_rows two_rows.
Proof.
  destruct (single_source_transaction steady empty_world)
    as ((evs & Htr & _ & Hview) & Hres).
  split.
  - change (trace empty_world ++ evs) with evs in Htr. rewrite Htr.
    assert (Hx : executed evs <> []).
    { rewrite <- Htr. vm_compute. discriminate. }
    destruct Hview as [[_ H] | [[_ H] | (stmts & Hv & Hs & _)]];
      [contradiction | contradiction |].
    exists stmts. split; [exact Hv | exact Hs].
  - destruct Hres
      as (day & rsu & rsp & rsa & b1 & b2 & b3 & Hday & Hsu & Hsp & Hsa &
          _ & _ & _ & _ & Hsame).
    + left. vm_compute. reflexivity.
    + vm_compute in Hday. injection Hday as <-.
      injection Hsu as <-. injection Hsp as <-. injection Hsa as <-.
      apply Hsame. intros t i q p. reflexivity.
Defined.

(** C8, the claim as stated, fails.  The script sets no isolation level,
    and under READ COMMITTED, the default of the server, every statement
    of a transaction sees the rows committed when it starts.  With one
    more row committed to every table between the statements, the run is
    one transaction and returns; the blob loaded into users holds one
    line, from the first statement, that of projects two and that of
    activities three: at no point of the transaction does the source
    answer the three statements with these three results. *)
Lemma single_source_transaction_counterexample :
  let w' := fst (main growing empty_world) in
  let day := DateTime 2023 3 5 10 0 0 0 in
  snd (main growing empty_world) = inr tt /\
  (exists stmts,
     replica_view (trace w') = TxnBegin 0 :: stmts ++ [TxnEnd] /\
     Forall (fun op => op = TxnStatement 0) stmts) /\
  source growing 0 0 users_query None = Some (first_rows 1) /\
  source growing 0 1 projects_query None = Some (first_rows 2) /\
  source growing 0 2 activities_query (Some [date_of day]) =
    Some (first_rows 3) /\
  map (fun l => (ld_table l, count_newlines (ld_blob l))) (visible w') =
    [("users", 1%nat); ("projects", 2%nat); ("activities", 3%nat)] /\
  ~ same_snapshot growing 0 day (first_rows 1) (first_rows 2) (first_rows 3).
Proof.
  intros w' day.
  split; [vm_compute; reflexivity|]. split.
  { exists (replicate 9 (TxnStatement 0)).
    split; [vm_compute; reflexivity | repeat constructor]. }
  split; [reflexivity|]. split; [reflexivity|]. split; [reflexivity|].
  split; [vm_compute; reflexivity|].
  intros (i & Hu & _ & Ha).
  destruct i as [|[|[|i]]]; vm_compute in Hu, Ha;
    first [discriminate Hu | discriminate Ha].
Qed.

(** ** The date of the records and the date of the paths *)

Lemma last_assigned_skip (names : list string) : forall (vals : list pyval) k b,
  k ∉ names -> last_assigned (zip names vals) k b = b.
Proof.
  induction names as [|n names IH]; intros vals k b Hk; [reflexivity|].
  destruct vals as [|v vals]; [reflexivity|]. simpl.
  apply not_elem_of_cons in Hk as [Hne Hk].
  destruct (String.eqb_spec n k); [congruence|]. now apply IH.
Qed.

Lemma row_data_snapshot_date y descr row data :
  "snapshot_date" ∉ map col_name descr ->
  row_data y descr row = inr data ->
  dict_get data "snapshot_date" = Some (PyStr (ustr (strftime_Ymd y))).
Proof.
  intros Hfresh Hd. unfold row_data in Hd.
  rewrite (set_columns_get _ _ _ _ _ "snapshot_date" Hd).
  now rewrite last_assigned_skip.
Qed.

Lemma minus_one_day_same_date a b a' b' :
  same_date a b -> minus_one_day a = Some a' -> minus_one_day b = Some b' ->
  same_date a' b'.
Proof.
  intros (Hy & Hm & Hd). unfold minus_one_day. rewrite Hy, Hm, Hd.
  repeat match goal with
         | |- context [if ?c then _ else _] => destruct c
         end; intros [= <-] [= <-]; try discriminate;
    unfold same_date, with_date; simpl; rewrite ?Hy, ?Hm, ?Hd; auto.
Qed.

Lemma strftime_Ymd_same_date a b :
  same_date a b -> strftime_Ymd a = strftime_Ymd b.
Proof. intros (Hy & Hm & Hd). unfold strftime_Ymd. now rewrite Hy, Hm, Hd. Qed.

Lemma records_elem data evs :
  data ∈ records evs -> exists temp, ERecord temp data ∈ evs.
Proof.
  unfold records. rewrite list_elem_of_omap. intros (e & Hin & He).
  destruct e; try discriminate. injection He as ->. eauto.
Qed.

Lemma records_app a b : records (a ++ b) = records a ++ records b.
Proof. apply omap_app. Qed.

Lemma uploads_app a b : uploads (a ++ b) = uploads a ++ uploads b.
Proof. apply omap_app. Qed.

Lemma stamped_records E lo day evs :
  minus_one_day (clock E lo) = Some day ->
  (forall j, (lo <= j)%nat -> same_date (clock E j) (clock E lo)) ->
  (forall t i q p rs, source E t i q p = Some rs ->
                      "snapshot_date" ∉ map col_name (description rs)) ->
  Forall (stamped E lo) evs ->
  forall data, data ∈ records evs ->
    dict_get data "snapshot_date" = Some (PyStr (ustr (strftime_Ymd day))).
Proof.
  intros Hday Hclock Hfresh Hst data Hin.
  apply records_elem in Hin as [temp Hin].
  rewrite Forall_forall in Hst.
  destruct (Hst _ Hin temp data eq_refl)
    as (j & y & t & i & q & p & rs & row & Hj & Hy & Hs & Hd).
  rewrite (row_data_snapshot_date y _ row data (Hfresh _ _ _ _ _ Hs) Hd).
  do 3 f_equal. apply strftime_Ymd_same_date.
  exact (minus_one_day_same_date _ _ _ _ (Hclock j Hj) Hy Hday).
Qed.

(** C1, as amended.  In a run whose clock reads all fall on one calendar
    day, and in which no result reports a column named snapshot_date,
    every record carries the same snapshot_date, the day before that of
    the run, and every blob is uploaded to a path built from that same
    day: the year, month and day printed in the path are those printed in
    the snapshot_date. *)
Theorem snapshot_date_matches_partition (E : external) (w w' : world)
    (r : exn + unit) (day : datetime) :
  minus_one_day (clock E (clock_reads w)) = Some day ->
  (forall j, (clock_reads w <= j)%nat ->
             same_date (clock E j) (clock E (clock_reads w))) ->
  (forall t i q p rs, source E t i q p = Some rs ->
                      "snapshot_date" ∉ map col_name (description rs)) ->
  main E w = (w', r) ->
  exists evs,
    trace w' = trace w ++ evs /\
    (forall data, data ∈ records evs ->
       dict_get data "snapshot_date" = Some (PyStr (ustr (strftime_Ymd day)))) /\
    (forall u, u ∈ uploads evs -> u ∈ locations E day) /\
    (datetime_ok day = true -> 1000 <= dt_year day ->
     strftime_Ymd day =
       str_int (dt_year day) +:+ "-" +:+ strftime_m day +:+ "-" +:+
       strftime_d day /\
     date_params day =
       "snapshot_year=" +:+ str_int (dt_year day) +:+
       "/snapshot_month=" +:+ strftime_m day +:+
       "/snapshot_day=" +:+ strftime_d day).
Proof.
  intros Hday Hclock Hfresh Hmain.
  assert (Hstr : datetime_ok day = true -> 1000 <= dt_year day ->
     strftime_Ymd day =
       str_int (dt_year day) +:+ "-" +:+ strftime_m day +:+ "-" +:+
       strftime_d day /\
     date_params day =
       "snapshot_year=" +:+ str_int (dt_year day) +:+
       "/snapshot_month=" +:+ strftime_m day +:+
       "/snapshot_day=" +:+ strftime_d day).
  { intros Hok Hy. apply datetime_ok_bounds in Hok as (Hyear & _).
    split; [|reflexivity].
    reflexivity. }
  destruct (replica_reachable E) eqn:Hr.
  2:{ exists []. unfold main, bind, connect_replica in Hmain.
      rewrite Hr in Hmain. injection Hmain as <- <-.
      rewrite app_nil_r. split; [reflexivity|].
      split; [|split; [|exact Hstr]]; intros x H; inversion H. }
  destruct (redshift_reachable E) eqn:Hw.
  2:{ exists []. unfold main, bind, connect_replica, connect_redshift in Hmain.
      rewrite Hr, Hw in Hmain. injection Hmain as <- <-. simpl.
      rewrite app_nil_r. split; [reflexivity|].
      split; [|split; [|exact Hstr]]; intros x H; inversion H. }
  rewrite (main_run E w Hr Hw) in Hmain.
  destruct (run_dumps E (connected w)) as [wb rb] eqn:Hrun.
  assert (Hshape : exists evs n m,
            trace wb = trace w ++ evs /\
            run_shape E day (tick (connected w)) n m evs).
  { destruct (run_dumps_inv E (connected w) wb rb day Hday Hrun)
      as [[-> Hall] | (i & e & -> & Hfail)].
    - destruct (completed_run_shape E day (tick (connected w)) wb eq_refl Hall)
        as (_ & _ & evs & Htr & Hsh). eauto.
    - destruct (failed_run_shape E day (tick (connected w)) i wb e eq_refl Hfail)
        as (_ & _ & evs & Htr & Hsh). eauto. }
  destruct Hshape as (evs & n & m & Htr & _ & _ & _ & (u & Hu & _) & _ & Hst).
  assert (Hrec : forall data, data ∈ records evs ->
            dict_get data "snapshot_date" = Some (PyStr (ustr (strftime_Ymd day)))).
  { apply (stamped_records E (clock_reads w)); try assumption.
    eapply Forall_impl; [exact Hst|].
    intros e. apply stamped_mono. simpl. lia. }
  assert (Hup : forall x, x ∈ uploads evs -> x ∈ locations E day).
  { intros x Hx. rewrite Hu in Hx.
    apply elem_of_take in Hx as (i & Hi & _).
    exact (list_elem_of_lookup_2 _ _ _ Hi). }
  destruct rb as [e|[]]; injection Hmain as <- <-; simpl trace; rewrite Htr.
  - exists (evs ++ [EReplicaRollback]).
    rewrite <- app_assoc, records_app, uploads_app. simpl.
    rewrite !app_nil_r. split; [reflexivity|]. split; [exact Hrec|].
    split; [exact Hup | exact Hstr].
  - exists (evs ++ [EReplicaCommit; ERedshiftCommit; ELog "Done"] ++ notice E).
    assert (Hn : records (notice E) = [] /\ uploads (notice E) = [])
      by (unfold notice; destruct (datadog_ok E); split; reflexivity).
    destruct Hn as [Hnr Hnu].
    rewrite <- app_assoc, records_app, uploads_app.
    rewrite (records_app _ (notice E)), (uploads_app _ (notice E)), Hnr, Hnu.
    simpl.
    rewrite !app_nil_r. split; [reflexivity|]. split; [exact Hrec|].
    split; [exact Hup | exact Hstr].
Qed.

Lemma snapshot_date_matches_partition_witness :
  exists evs,
    trace (fst (main steady empty_world)) = evs /\
    forall data, data ∈ records evs ->
      dict_get data "snapshot_date" = Some (PyStr (ustr "2023-03-05")).
Proof.
  destruct (snapshot_date_matches_partition steady empty_world
              (fst (main steady empty_world)) (snd (main steady empty_world))
              (DateTime 2023 3 5 10 0 0 0)) as (evs & Htr & Hrec & _ & _).
  - reflexivity.
  - intros j _. repeat split.
  - intros t i q p rs [= <-]. simpl.
    apply (bool_decide_unpack _). vm_compute. exact I.
  - apply surjective_pairing.
  - exists evs. split; [exact Htr | exact Hrec].
Defined.

Lemma digit_inj a b :
  0 <= a < 10 -> 0 <= b < 10 -> digit a = digit b -> a = b.
Proof.
  intros Ha Hb H. apply (f_equal N_of_ascii) in H. unfold digit in H.
  rewrite !N_ascii_embedding in H by lia. lia.
Qed.

Lemma pad2_inj a b :
  0 <= a < 100 -> 0 <= b < 100 -> pad2 a = pad2 b -> a = b.
Proof.
  intros Ha Hb H. unfold pad2 in H. injection H as H1 H2.
  apply digit_inj in H1; [|apply Z.mod_pos_bound; lia..].
  apply digit_inj in H2; [|apply Z.mod_pos_bound; lia..].
  revert H1 H2. Z.div_mod_to_equations. lia.
Qed.

Lemma all_digits_string_of_uint d :
  all_digits (NilEmpty.string_of_uint d) = true.
Proof. induction d; simpl; auto. Qed.

Lemma all_digits_str_int z : 0 <= z -> all_digits (str_int z) = true.
Proof.
  intros Hz. unfold str_int. destruct z as [|p|p]; [reflexivity| |lia].
  simpl Z.to_int. unfold NilZero.string_of_int, NilZero.string_of_uint.
  destruct (Pos.to_uint p); auto using all_digits_string_of_uint.
Qed.

Lemma str_int_inj a b : 0 < a -> 0 < b -> str_int a = str_int b -> a = b.
Proof.
  intros Ha Hb H. unfold str_int in H.
  destruct a as [|p|p]; try lia. destruct b as [|q|q]; try lia.
  apply (f_equal NilZero.int_of_string) in H.
  rewrite !NilZero.isi in H; simpl; try discriminate;
    try (intros [= Hnil]; now apply DecimalPos.Unsigned.to_uint_nonnil in Hnil).
  injection H as H. now apply DecimalPos.Unsigned.to_uint_inj in H as ->.
Qed.

(** A number written in digits ends where the separator begins. *)
Lemma digits_then (sep : ascii) s1 : forall s2 r1 r2,
  is_digit sep = false ->
  all_digits s1 = true -> all_digits s2 = true ->
  s1 +:+ String sep r1 = s2 +:+ String sep r2 -> s1 = s2 /\ r1 = r2.
Proof.
  induction s1 as [|c1 s1 IH]; intros [|c2 s2] r1 r2 Hsep H1 H2 H.
  - injection H as ->. now split.
  - rewrite append_cons in H. injection H as <- _.
    simpl in H2. rewrite Hsep in H2. discriminate H2.
  - rewrite append_cons in H. injection H as -> _.
    simpl in H1. rewrite Hsep in H1. discriminate H1.
  - rewrite !append_cons in H. injection H as -> H.
    simpl in H1, H2.
    apply andb_prop in H1 as [_ H1]. apply andb_prop in H2 as [_ H2].
    destruct (IH _ _ _ Hsep H1 H2 H) as [-> ->]. now split.
Qed.

Lemma digits_then_slash s1 s2 r1 r2 :
  all_digits s1 = true -> all_digits s2 = true ->
  s1 +:+ String "/" r1 = s2 +:+ String "/" r2 -> s1 = s2 /\ r1 = r2.
Proof. now apply digits_then. Qed.

Lemma pad2_append_inj m1 m2 x1 x2 :
  pad2 m1 +:+ x1 = pad2 m2 +:+ x2 -> pad2 m1 = pad2 m2 /\ x1 = x2.
Proof.
  unfold pad2. rewrite !append_cons.
  intros [= -> -> H]. split; [reflexivity | exact H].
Qed.

Lemma strftime_Ymd_inj a b :
  datetime_ok a = true -> datetime_ok b = true ->
  strftime_Ymd a = strftime_Ymd b -> same_date a b.
Proof.
  intros Ha Hb H.
  apply datetime_ok_bounds in Ha as (Hya & Hma & Hda).
  apply datetime_ok_bounds in Hb as (Hyb & Hmb & Hdb).
  pose proof (days_in_month_bounds (dt_year a) (dt_month a)).
  pose proof (days_in_month_bounds (dt_year b) (dt_month b)).
  unfold strftime_Ymd in H.
  change ("-" +:+ ?x) with (String "-" x) in H.
  apply digits_then in H as [Hy H];
    [|reflexivity|apply all_digits_str_int; lia|apply all_digits_str_int; lia].
  apply pad2_append_inj in H as [Hm H].
  assert (Hd : pad2 (dt_day a) = pad2 (dt_day b))
    by exact (f_equal (fun s => match s with
                                | String _ r => r
                                | EmptyString => EmptyString
                                end) H).
  split; [|split].
  - apply str_int_inj; [lia | lia | exact Hy].
  - apply pad2_inj; [lia | lia | exact Hm].
  - apply pad2_inj; [lia | lia | exact Hd].
Qed.

Lemma ustr_inj a : forall b, ustr a = ustr b -> a = b.
Proof.
  induction a as [|x a IH]; intros [|y b] H; try discriminate H; [reflexivity|].
  change (N_of_ascii x :: ustr a = N_of_ascii y :: ustr b) in H.
  injection H as Hxy H.
  apply (f_equal ascii_of_N) in Hxy. rewrite !ascii_N_embedding in Hxy.
  now rewrite Hxy, (IH _ H).
Qed.

Lemma locations_same_date E a b :
  same_date a b -> locations E a = locations E b.
Proof.
  intros H. unfold locations, users_path, projects_path, activities_path.
  now rewrite (date_params_same_date a b H).
Qed.

(** C1, the claim as stated, fails: in a run that starts just before
    midnight, the path of users is built from the day read by [main],
    2023-03-05, and the records, stamped row by row after midnight, carry
    2023-03-06; no date fits both. *)
Lemma snapshot_date_diverges_counterexample :
  let evs := trace (fst (main midnight empty_world)) in
  hd_error (records evs) =
    Some [("snapshot_date", PyStr (ustr "2023-03-06")); ("id", PyInt 1);
          ("name", PyStr (ustr "ann"))] /\
  hd_error (uploads evs) =
    Some "s3://dw/users/snapshot_year=2023/snapshot_month=03/snapshot_day=05/data" /\
  ~ (exists day,
       datetime_ok day = true /\
       (forall data, data ∈ records evs ->
          dict_get data "snapshot_date" = Some (PyStr (ustr (strftime_Ymd day)))) /\
       (forall u, u ∈ uploads evs -> u ∈ locations midnight day)).
Proof.
  intros evs.
  assert (Hrec : hd_error (records evs) =
            Some [("snapshot_date", PyStr (ustr "2023-03-06")); ("id", PyInt 1);
                  ("name", PyStr (ustr "ann"))]) by (vm_compute; reflexivity).
  assert (Hup : hd_error (uploads evs) =
            Some "s3://dw/users/snapshot_year=2023/snapshot_month=03/snapshot_day=05/data")
    by (vm_compute; reflexivity).
  split; [exact Hrec|]. split; [exact Hup|].
  intros (day & Hok & Hdate & Hpath).
  destruct (records evs) as [|d ds]; [discriminate Hrec|].
  destruct (uploads evs) as [|u us]; [discriminate Hup|].
  injection Hrec as ->. injection Hup as ->.
  specialize (Hdate _ (list_elem_of_here _ _)).
  specialize (Hpath _ (list_elem_of_here _ _)).
  apply (f_equal (fun o => match o with
                            | Some (PyStr s) => s
                            | _ => []
                            end)) in Hdate.
  apply (ustr_inj "2023-03-06") in Hdate.
  assert (Hsame : same_date (DateTime 2023 3 6 0 0 0 0) day).
  { apply strftime_Ymd_inj; [reflexivity | exact Hok | exact Hdate]. }
  rewrite <- (locations_same_date midnight _ _ Hsame) in Hpath.
  unfold locations in Hpath.
  repeat (apply elem_of_cons in Hpath as [H|Hpath];
          [vm_compute in H; discriminate H|]).
  now apply elem_of_nil in Hpath.
Qed.

(** * Further properties of [dump] and [main] *)

(** ** What one call of [dump] does and does not do *)

Lemma dump_blob_witness :
  exists datas,
    length datas = 2%nat /\
    s3 (fst (dump_users steady (DateTime 2023 3 5 10 0 0 0) empty_world))
      !! s3_uri "dw" (users_path (DateTime 2023 3 5 10 0 0 0)) =
    Some (String.concat EmptyString (map (record_line steady) datas)).
Proof.
  destruct (dump_blob steady (users_path (DateTime 2023 3 5 10 0 0 0)) "users"
              users_query None empty_world
              (fst (dump_users steady (DateTime 2023 3 5 10 0 0 0) empty_world))
              two_rows) as (datas & _ & Hlen & Hs3 & _).
  - refine (run_result _ _ _). vm_compute. reflexivity.
  - reflexivity.
  - exists datas. split; [exact Hlen | exact Hs3].
Defined.

(** [dump] leaves the transactions to its caller: whatever happens, it
    sends no commit and no rollback on either connection, the loads that
    the warehouse shows are unchanged, the read replica is left inside the
    transaction in which the statement ran, and at most one load, the one
    of this dump, is added to the pending ones, and only when [dump]
    returns. *)
Theorem dump_leaves_transactions_to_caller (E : external)
    (to_file copy_to query : string) (params : option (list pyval))
    (w : world) :
  let w' := fst (dump E to_file copy_to query params w) in
  let r := snd (dump E to_file copy_to query params w) in
  visible w' = visible w /\
  replica_txn w' = Some (txn_of w) /\
  (exists evs, trace w' = trace w ++ evs /\
               redshift_commits evs = [] /\
               TxnEnd ∉ replica_view evs) /\
  ((r <> inr tt /\ pending w' = pending w) \/
   (r = inr tt /\
    exists blob, pending w' = pending w ++ [dump_load E to_file copy_to blob])).
Proof.
  destruct (dump_outcome E to_file copy_to query params w)
    as (k & c & evs & st & Heq & Hfacts & _).
  rewrite Heq. cbn [fst snd].
  destruct (stage_facts_rows _ _ _ _ _ _ _ _ _ _ Hfacts) as [descr Hrows].
  destruct (dump_events_view E to_file copy_to query params w evs st
              _ _ _ _ _ Hrows) as (_ & _ & _ & Hm & Hv).
  pose proof (proj2 (proj2 (proj2 (proj2
    (row_events_view _ _ _ _ _ _ _ Hrows))))) as Hs.
  split; [reflexivity|]. split; [reflexivity|]. split.
  - eexists. split; [reflexivity|]. split; [exact Hm|].
    rewrite Hv. intros Hin.
    apply elem_of_app in Hin as [Hin|Hin].
    + unfold begin_events in Hin. destruct (replica_txn w); simpl in Hin;
        elem_cases Hin.
    + apply elem_of_cons in Hin as [Hin|Hin]; [discriminate Hin|].
      rewrite Forall_forall in Hs. specialize (Hs _ Hin). discriminate Hs.
  - destruct st; simpl;
      first [left; split; [discriminate | reflexivity]
            |right; split; [reflexivity | eauto]].
Qed.


(** [dump] touches one object of the store and one temporary file, its
    own: every other location of the store and every other temporary file
    is after the call what it was before, whether [dump] returns or
    raises; and each call takes a new name for its file. *)
Theorem dump_touches_only_its_own (E : external)
    (to_file copy_to query : string) (params : option (list pyval))
    (w : world) :
  let w' := fst (dump E to_file copy_to query params w) in
  (forall u, u <> s3_uri (DW_BUCKET E) to_file -> s3 w' !! u = s3 w !! u) /\
  (forall m, m <> next_temp w -> temp_files w' !! m = temp_files w !! m) /\
  next_temp w' = S (next_temp w).
Proof.
  destruct (dump_outcome E to_file copy_to query params w)
    as (k & c & evs & st & Heq & _).
  rewrite Heq. cbn [fst]. split; [|split; [|reflexivity]].
  - intros u Hu. simpl. destruct (uploaded st); [|reflexivity].
    now rewrite lookup_insert_ne.
  - intros m Hm. simpl. destruct (uploaded st).
    + now rewrite lookup_delete_ne.
    + now rewrite lookup_insert_ne.
Qed.

(** ** Whole runs *)

(** The three ways [main] can go: a connection cannot be made, or the
    block of the three dumps runs and is left by an exception or
    normally. *)
Lemma main_cases E w :
  (replica_reachable E = false /\ main E w = (w, inl ConnectionError)) \/
  (replica_reachable E = true /\ redshift_reachable E = false /\
   main E w = (set_replica_txn None w, inl ConnectionError)) \/
  (replica_reachable E = true /\ redshift_reachable E = true /\
   exists wb r0,
     run_dumps E (connected w) = (wb, r0) /\
     main E w = match r0 with
                | inl e => (rolled_back wb, inl e)
                | inr _ => (finished E wb, notified E)
                end).
Proof.
  destruct (replica_reachable E) eqn:Hr.
  - destruct (redshift_reachable E) eqn:Hw.
    + right; right. split; [reflexivity|]. split; [reflexivity|].
      rewrite (main_run E w Hr Hw).
      destruct (run_dumps E (connected w)) as [wb r0].
      exists wb, r0. split; [reflexivity|]. now destruct r0.
    + right; left. split; [reflexivity|]. split; [reflexivity|].
      unfold main, bind, connect_replica, connect_redshift.
      now rewrite Hr, Hw.
  - left. split; [reflexivity|].
    unfold main, bind, connect_replica. now rewrite Hr.
Qed.

Lemma row_event_inside E t temp descr lo hi e :
  row_event E t temp descr lo hi e -> inside_dump e = true.
Proof.
  intros [-> | (data & j & y & row & -> & _)]; reflexivity.
Qed.

Lemma dump_inside E to_file copy_to query params w w' r :
  dump E to_file copy_to query params w = (w', r) ->
  exists evs, trace w' = trace w ++ evs /\
              Forall (fun e => inside_dump e = true) evs.
Proof.
  intros Hrun.
  apply dump_inv in Hrun as (k & c & evs & st & descr & -> & _ & Hrows & _).
  eexists. split; [reflexivity|].
  unfold dump_events. apply Forall_app. split.
  { unfold begin_events. destruct (replica_txn w); repeat constructor. }
  apply Forall_cons. split; [reflexivity|].
  apply Forall_app. split.
  - eapply Forall_impl; [exact Hrows|].
    intros e. apply row_event_inside.
  - destruct st; repeat constructor.
Qed.

Lemma run_dumps_inside E w wb r :
  run_dumps E w = (wb, r) ->
  exists evs, trace wb = trace w ++ evs /\
              Forall (fun e => inside_dump e = true) evs.
Proof.
  rewrite run_dumps_run.
  destruct (minus_one_day (clock E (clock_reads w))) as [day|].
  2:{ intros [= <- <-]. exists []. split; [simpl; now rewrite app_nil_r|].
      constructor. }
  destruct (dump_users E day (tick w)) as [w1 r1] eqn:H1.
  apply dump_inside in H1 as (evs1 & Ht1 & Hin1). simpl in Ht1.
  destruct r1 as [e1|[]].
  { intros [= <- <-]. now exists evs1. }
  destruct (dump_projects E day w1) as [w2 r2] eqn:H2.
  apply dump_inside in H2 as (evs2 & Ht2 & Hin2).
  destruct r2 as [e2|[]].
  { intros [= <- <-]. exists (evs1 ++ evs2).
    split; [now rewrite Ht2, Ht1, app_assoc | now apply Forall_app]. }
  intros H3. apply dump_inside in H3 as (evs3 & Ht3 & Hin3).
  exists (evs1 ++ evs2 ++ evs3). split.
  - now rewrite Ht3, Ht2, Ht1, !app_assoc.
  - apply Forall_app. split; [assumption | now apply Forall_app].
Qed.

Lemma inside_dump_views evs :
  Forall (fun e => inside_dump e = true) evs ->
  notifications evs = [] /\ redshift_commits evs = [] /\
  ELog "Done" ∉ evs.
Proof.
  induction 1 as [|e evs He _ (IHn & IHc & IHl)].
  - split; [reflexivity|]. split; [reflexivity|]. apply not_elem_of_nil.
  - split; [|split].
    + destruct e; try discriminate He; exact IHn.
    + destruct e; try discriminate He; exact IHc.
    + apply not_elem_of_cons. split; [|exact IHl].
      intros <-. discriminate He.
Qed.

(** The event that announces the warehouse tables is created exactly
    when [main] returns, and it is then the last thing the run does,
    after the one commit of the warehouse and the log line.  A run that
    raises has created no event; it has sent no commit and logged no
    [Done] either, unless what raised is the creation of the event
    itself, after the commit: the loads are then committed although
    [main] raises. *)
Theorem notification_only_after_commit (E : external) (w : world) :
  let w' := fst (main E w) in
  let r := snd (main E w) in
  exists evs,
    trace w' = trace w ++ evs /\
    ((r = inr tt /\
      exists pre,
        evs = pre ++ [EReplicaCommit; ERedshiftCommit; ELog "Done";
                      EDatadog "Warehouse Tables"] /\
        notifications pre = [] /\ redshift_commits pre = [] /\
        ELog "Done" ∉ pre) \/
     (r <> inr tt /\ notifications evs = [] /\
      ((redshift_commits evs = [] /\ ELog "Done" ∉ evs) \/
       (datadog_ok E = false /\
        exists pre,
          evs = pre ++ [EReplicaCommit; ERedshiftCommit; ELog "Done"] /\
          redshift_commits pre = [] /\ ELog "Done" ∉ pre)))).
Proof.
  destruct (main_cases E w)
    as [(_ & ->) | [(_ & _ & ->) | (_ & _ & wb & r0 & Hrun & ->)]];
    cbn [fst snd].
  - exists []. split; [now rewrite app_nil_r|]. right.
    split; [discriminate|]. split; [reflexivity|]. left.
    split; [reflexivity | apply not_elem_of_nil].
  - exists []. split; [simpl; now rewrite app_nil_r|]. right.
    split; [discriminate|]. split; [reflexivity|]. left.
    split; [reflexivity | apply not_elem_of_nil].
  - apply run_dumps_inside in Hrun as (evs & Ht & Hin). simpl in Ht.
    destruct (inside_dump_views evs Hin) as (Hn & Hc & Hl).
    destruct r0 as [e|u]; cbn [fst snd].
    + exists (evs ++ [EReplicaRollback]). split.
      { simpl. now rewrite Ht, app_assoc. }
      right. split; [discriminate|].
      unfold notifications, redshift_commits in *.
      rewrite !omap_app, Hn, Hc.
      split; [reflexivity|]. left. split; [reflexivity|].
      intros Hd. apply elem_of_app in Hd as [Hd|Hd]; [now apply Hl|].
      elem_cases Hd.
    + exists (evs ++ [EReplicaCommit; ERedshiftCommit; ELog "Done"] ++ notice E).
      split.
      { simpl. rewrite Ht, <- app_assoc. reflexivity. }
      unfold notified, notice. destruct (datadog_ok E).
      * left. split; [reflexivity|]. exists evs.
        split; [reflexivity|]. split; [exact Hn|]. split; [exact Hc | exact Hl].
      * right. split; [discriminate|]. split.
        { unfold notifications in *. now rewrite omap_app, Hn. }
        right. split; [reflexivity|]. exists evs.
        split; [reflexivity|]. split; [exact Hc | exact Hl].
Qed.

(** *** Temporary files of a run *)

Lemma dump_fresh_names E to_file copy_to query params w w' r :
  fresh_names w ->
  dump E to_file copy_to query params w = (w', r) ->
  fresh_names w' /\
  (forall m, m <> next_temp w -> temp_files w' !! m = temp_files w !! m) /\
  (r = inr tt -> temp_files w' = temp_files w).
Proof.
  intros Hfresh Hrun.
  apply dump_inv in Hrun as (k & c & evs & st & descr & -> & -> & _ & _).
  split; [|split].
  - intros m Hm. simpl in *. destruct (uploaded st).
    + rewrite lookup_delete_ne by lia. apply Hfresh. lia.
    + rewrite lookup_insert_ne by lia. apply Hfresh. lia.
  - intros m Hm. simpl. destruct (uploaded st).
    + now rewrite lookup_delete_ne.
    + now rewrite lookup_insert_ne.
  - destruct st; try discriminate. intros _. simpl.
    apply delete_id, Hfresh. lia.
Qed.

Lemma run_dumps_fresh_names E w wb r :
  fresh_names w ->
  run_dumps E w = (wb, r) ->
  fresh_names wb /\
  (exists n, forall m, m <> n -> temp_files wb !! m = temp_files w !! m) /\
  (r = inr tt -> temp_files wb = temp_files w).
Proof.
  intros Hfresh. rewrite run_dumps_run.
  destruct (minus_one_day (clock E (clock_reads w))) as [day|].
  2:{ intros [= <- <-]. split; [exact Hfresh|].
      split; [now exists 0%nat | discriminate]. }
  assert (Hf0 : fresh_names (tick w)) by exact Hfresh.
  destruct (dump_users E day (tick w)) as [w1 r1] eqn:H1.
  destruct (dump_fresh_names _ _ _ _ _ _ _ _ Hf0 H1) as (Hf1 & Hd1 & He1).
  destruct r1 as [e1|[]].
  { intros [= <- <-]. split; [exact Hf1|].
    split; [now exists (next_temp (tick w)) | discriminate]. }
  specialize (He1 eq_refl). simpl in He1.
  destruct (dump_projects E day w1) as [w2 r2] eqn:H2.
  destruct (dump_fresh_names _ _ _ _ _ _ _ _ Hf1 H2) as (Hf2 & Hd2 & He2).
  destruct r2 as [e2|[]].
  { intros [= <- <-]. split; [exact Hf2|]. split; [|discriminate].
    exists (next_temp w1). intros m Hm. now rewrite Hd2, He1. }
  specialize (He2 eq_refl).
  intros H3.
  destruct (dump_fresh_names _ _ _ _ _ _ _ _ Hf2 H3) as (Hf3 & Hd3 & He3).
  split; [exact Hf3|]. split.
  - exists (next_temp w2). intros m Hm. now rewrite Hd3, He2, He1.
  - intros Hr. now rewrite (He3 Hr), He2, He1.
Qed.

(** A run that returns leaves the directory of temporary files as it
    found it; a run that raises leaves at most one file behind, the one
    of the dump that failed.  The names not yet given out stay free, so
    that the next run starts as this one did. *)
Theorem run_leaves_at_most_one_temp_file (E : external) (w : world) :
  fresh_names w ->
  let w' := fst (main E w) in
  let r := snd (main E w) in
  (r = inr tt -> temp_files w' = temp_files w) /\
  (exists n, forall m, m <> n -> temp_files w' !! m = temp_files w !! m) /\
  fresh_names w'.
Proof.
  intros Hfresh.
  destruct (main_cases E w)
    as [(_ & ->) | [(_ & _ & ->) | (_ & _ & wb & r0 & Hrun & ->)]];
    cbn [fst snd].
  - split; [reflexivity|]. split; [now exists 0%nat | exact Hfresh].
  - split; [reflexivity|]. split; [now exists 0%nat | exact Hfresh].
  - assert (Hf0 : fresh_names (connected w)) by exact Hfresh.
    destruct (run_dumps_fresh_names _ _ _ _ Hf0 Hrun) as (Hfb & Hone & Hret).
    destruct r0 as [e|[]]; cbn [fst snd].
    + split; [discriminate|]. split; [exact Hone | exact Hfb].
    + split; [intros _; exact (Hret eq_refl)|].
      split; [exact Hone | exact Hfb].
Qed.

Lemma run_leaves_at_most_one_temp_file_witness :
  temp_files (fst (main steady empty_world)) = temp_files empty_world.
Proof.
  refine (proj1 (run_leaves_at_most_one_temp_file steady empty_world _) _).
  - intros m _. reflexivity.
  - vm_compute. reflexivity.
Defined.

(** *** The object store after a run *)

Lemma append_inj_l (a x y : string) : a +:+ x = a +:+ y -> x = y.
Proof.
  induction a as [|c a IH]; [trivial|].
  rewrite !append_cons. intros [= H]. now apply IH.
Qed.

Lemma s3_uri_inj bucket p q : s3_uri bucket p = s3_uri bucket q -> p = q.
Proof.
  unfold s3_uri. intros H.
  now apply append_inj_l, append_inj_l, append_inj_l in H.
Qed.

(** The three locations of a run are three different objects. *)
Lemma locations_distinct E day :
  s3_uri (DW_BUCKET E) (users_path day) <>
    s3_uri (DW_BUCKET E) (projects_path day) /\
  s3_uri (DW_BUCKET E) (users_path day) <>
    s3_uri (DW_BUCKET E) (activities_path day) /\
  s3_uri (DW_BUCKET E) (projects_path day) <>
    s3_uri (DW_BUCKET E) (activities_path day).
Proof.
  unfold users_path, projects_path, activities_path.
  split; [|split]; intros H; apply s3_uri_inj in H;
    rewrite !append_cons in H; discriminate H.
Qed.

Lemma dump_store E to_file copy_to query params w w' r :
  dump E to_file copy_to query params w = (w', r) ->
  (forall u, u <> s3_uri (DW_BUCKET E) to_file -> s3 w' !! u = s3 w !! u) /\
  visible w' = visible w /\
  (r = inr tt ->
   exists blob,
     s3 w' !! s3_uri (DW_BUCKET E) to_file = Some blob /\
     pending w' = pending w ++ [dump_load E to_file copy_to blob]).
Proof.
  intros Hrun.
  apply dump_inv in Hrun as (k & c & evs & st & descr & -> & -> & _ & _).
  split; [|split; [reflexivity|]].
  - intros u Hu. simpl. destruct (uploaded st); [|reflexivity].
    now rewrite lookup_insert_ne.
  - destruct st; try discriminate. intros _. exists c. simpl.
    split; [apply lookup_insert_eq | reflexivity].
Qed.

(** A run writes to the store at its three locations and nowhere else,
    whether it returns or raises.  When it returns, the three loads that
    the commit makes visible are those of users, projects and activities
    from these locations, and for each of them the store still holds the
    blob that the warehouse read: no dump overwrites the blob of
    another. *)
Theorem run_store (E : external) (w : world) :
  let w' := fst (main E w) in
  let r := snd (main E w) in
  (forall u,
     (forall day, minus_one_day (clock E (clock_reads w)) = Some day ->
                  u ∉ locations E day) ->
     s3 w' !! u = s3 w !! u) /\
  (r = inr tt ->
   exists day loads,
     minus_one_day (clock E (clock_reads w)) = Some day /\
     visible w' = visible w ++ loads /\
     map ld_from loads = locations E day /\
     map ld_table loads = ["users"; "projects"; "activities"] /\
     Forall (load_in_store w') loads).
Proof.
  destruct (main_cases E w)
    as [(_ & ->) | [(_ & _ & ->) | (_ & _ & wb & r0 & Hrun & ->)]];
    cbn [fst snd].
  - split; [reflexivity | discriminate].
  - split; [reflexivity | discriminate].
  - rewrite run_dumps_run in Hrun. simpl clock_reads in Hrun.
    destruct (minus_one_day (clock E (clock_reads w))) as [day|].
    2:{ injection Hrun as <- <-. split; [reflexivity | discriminate]. }
    destruct (locations_distinct E day) as (Hup & Hua & Hpa).
    assert (Hout : forall u : string,
              (forall d, Some day = Some d -> u ∉ locations E d) ->
              u <> s3_uri (DW_BUCKET E) (users_path day) /\
              u <> s3_uri (DW_BUCKET E) (projects_path day) /\
              u <> s3_uri (DW_BUCKET E) (activities_path day)).
    { intros u Hu. specialize (Hu day eq_refl). unfold locations in Hu.
      rewrite !elem_of_cons in Hu.
      split; [|split]; intros ->; apply Hu; auto. }
    destruct (dump_users E day (tick (connected w))) as [w1 r1] eqn:H1.
    destruct (dump_store _ _ _ _ _ _ _ _ H1) as (Hs1 & Hv1 & Hb1).
    simpl s3 in Hs1. simpl pending in Hb1. simpl visible in Hv1.
    destruct r1 as [e1|[]].
    { injection Hrun as <- <-. cbn [fst snd]. split; [|discriminate].
      intros u Hu. apply Hout in Hu as (Hu1 & _). simpl. now apply Hs1. }
    destruct (Hb1 eq_refl) as (b1 & Hl1 & Hp1).
    destruct (dump_projects E day w1) as [w2 r2] eqn:H2.
    destruct (dump_store _ _ _ _ _ _ _ _ H2) as (Hs2 & Hv2 & Hb2).
    destruct r2 as [e2|[]].
    { injection Hrun as <- <-. cbn [fst snd]. split; [|discriminate].
      intros u Hu. apply Hout in Hu as (Hu1 & Hu2 & _). simpl.
      rewrite Hs2 by exact Hu2. now apply Hs1. }
    destruct (Hb2 eq_refl) as (b2 & Hl2 & Hp2).
    destruct (dump_store _ _ _ _ _ _ _ _ Hrun) as (Hs3 & Hv3 & Hb3).
    assert (Hframe : forall u,
              (forall d, Some day = Some d -> u ∉ locations E d) ->
              s3 wb !! u = s3 w !! u).
    { intros u Hu. apply Hout in Hu as (Hu1 & Hu2 & Hu3).
      rewrite Hs3 by exact Hu3. rewrite Hs2 by exact Hu2. now apply Hs1. }
    destruct r0 as [e3|[]]; cbn [fst snd].
    { split; [exact Hframe | discriminate]. }
    split; [exact Hframe|]. intros _.
    destruct (Hb3 eq_refl) as (b3 & Hl3 & Hp3).
    exists day.
    exists [dump_load E (users_path day) "users" b1;
            dump_load E (projects_path day) "projects" b2;
            dump_load E (activities_path day) "activities" b3].
    split; [reflexivity|]. split.
    { simpl. now rewrite Hp3, Hp2, Hp1, Hv3, Hv2, Hv1. }
    split; [reflexivity|]. split; [reflexivity|].
    unfold load_in_store. simpl s3.
    constructor; [|constructor; [|constructor; [|constructor]]];
      simpl ld_from; simpl ld_blob.
    + rewrite Hs3 by exact Hua. rewrite Hs2 by exact Hup. exact Hl1.
    + rewrite Hs3 by exact Hpa. exact Hl2.
    + exact Hl3.
Qed.

(** *** The locations of different days *)

(** The date can be read back from the text of [date_params], whatever
    follows it. *)
Lemma date_params_append_inj a b x y :
  datetime_ok a = true -> datetime_ok b = true ->
  date_params a +:+ x = date_params b +:+ y -> same_date a b.
Proof.
  intros Ha Hb H.
  apply datetime_ok_bounds in Ha as (Hya & Hma & Hda).
  apply datetime_ok_bounds in Hb as (Hyb & Hmb & Hdb).
  pose proof (days_in_month_bounds (dt_year a) (dt_month a)).
  pose proof (days_in_month_bounds (dt_year b) (dt_month b)).
  unfold date_params, strftime_m, strftime_d in H.
  rewrite !append_assoc in H.
  apply append_inj_l in H.
  change ("/snapshot_month=" +:+ ?s) with (String "/" ("snapshot_month=" +:+ s)) in H.
  apply digits_then_slash in H as [Hy H];
    [|apply all_digits_str_int; lia|apply all_digits_str_int; lia].
  apply append_inj_l in H.
  apply pad2_append_inj in H as [Hm H].
  apply append_inj_l in H.
  apply pad2_append_inj in H as [Hd _].
  split; [|split].
  - apply str_int_inj; [lia | lia | exact Hy].
  - apply pad2_inj; [lia | lia | exact Hm].
  - apply pad2_inj; [lia | lia | exact Hd].
Qed.

(** No location is shared by two days: the objects that a run writes for
    one day can only be overwritten by a run for the same day.  The year,
    the month and the day can be read back from each of the three
    paths. *)
Theorem locations_of_two_days_disjoint (E : external) (a b : datetime)
    (u : string) :
  datetime_ok a = true -> datetime_ok b = true ->
  u ∈ locations E a -> u ∈ locations E b -> same_date a b.
Proof.
  intros Ha Hb Hua Hub. unfold locations in Hua, Hub.
  rewrite !elem_of_cons in Hua, Hub.
  destruct Hua as [-> | [-> | [-> | Hua]]]; [| | |now apply elem_of_nil in Hua];
    (destruct Hub as [Hub | [Hub | [Hub | Hub]]];
       [| | |now apply elem_of_nil in Hub]);
    apply s3_uri_inj in Hub;
    unfold users_path, projects_path, activities_path in Hub;
    try (rewrite !append_cons in Hub; discriminate Hub);
    apply append_inj_l in Hub;
    exact (date_params_append_inj _ _ _ _ Ha Hb Hub).
Qed.

Lemma locations_of_two_days_disjoint_witness :
  same_date (DateTime 2023 3 5 10 0 0 0) (DateTime 2023 3 5 23 59 0 0).
Proof.
  apply (locations_of_two_days_disjoint steady _ _
           (s3_uri "dw" (users_path (DateTime 2023 3 5 10 0 0 0))));
    try reflexivity.
  - apply elem_of_cons. left. reflexivity.
  - apply elem_of_cons. left. reflexivity.
Defined.

(** ** The record of a row and the lines of a blob *)

Lemma set_columns_short descr : forall data idx (row : list pyval),
  (idx <= length row)%nat -> (length row < idx + length descr)%nat ->
  set_columns data idx descr row = inl IndexError.
Proof.
  induction descr as [|col descr IH]; intros data idx row Hle Hlt; simpl in *.
  - lia.
  - destruct (row !! idx) as [v|] eqn:Hv; [|reflexivity].
    apply lookup_lt_Some in Hv. apply IH; lia.
Qed.

Lemma set_columns_take descr : forall data idx n (row : list pyval),
  (idx + length descr <= n)%nat ->
  set_columns data idx descr (take n row) = set_columns data idx descr row.
Proof.
  induction descr as [|col descr IH]; intros data idx n row Hn; simpl in *.
  - reflexivity.
  - rewrite lookup_take_lt by lia.
    destruct (row !! idx) as [v|]; [|reflexivity]. apply IH. lia.
Qed.

(** The record of a row, whatever the names of the columns: a row that
    has fewer values than the cursor has columns raises [IndexError], and
    only such a row does; otherwise the values beyond the columns are
    ignored, the record has each key once, snapshot_date first, its keys
    are snapshot_date and the column names, and a key holds the value of
    the last column of that name, the date of the day before when no
    column has the name snapshot_date. *)
Theorem record_of_any_row (y : datetime) (descr : list column)
    (row : list pyval) :
  ((length row < length descr)%nat <->
   row_data y descr row = inl IndexError) /\
  ((length descr <= length row)%nat ->
   exists data,
     row_data y descr row = inr data /\
     row_data y descr (take (length descr) row) = inr data /\
     NoDup (keys data) /\
     head (keys data) = Some "snapshot_date" /\
     (forall k, k ∈ keys data <->
                k = "snapshot_date" \/ k ∈ map col_name descr) /\
     (forall k, dict_get data k =
        last_assigned (zip (map col_name descr) row) k
          (if String.eqb "snapshot_date" k
           then Some (PyStr (ustr (strftime_Ymd y))) else None))).
Proof.
  assert (Hlong : (length descr <= length row)%nat ->
                  exists data, row_data y descr row = inr data).
  { intros Hle. apply set_columns_total. simpl. exact Hle. }
  split.
  - split.
    + intros Hlt. apply set_columns_short; simpl; lia.
    + intros Herr.
      destruct (Nat.lt_ge_cases (length row) (length descr)) as [Hlt|Hge];
        [exact Hlt|].
      destruct (Hlong Hge) as (data & Hd). congruence.
  - intros Hle. destruct (Hlong Hle) as (data & Hd). exists data.
    split; [exact Hd|]. split.
    { unfold row_data in *. rewrite set_columns_take by (simpl; lia).
      exact Hd. }
    unfold row_data in Hd.
    destruct (set_columns_keys _ _ _ _ _ Hd) as ((extra & Hk) & Hin & Hnd).
    split; [|split; [|split]].
    + apply Hnd. simpl. apply NoDup_singleton.
    + rewrite Hk. reflexivity.
    + intros k. rewrite Hin. simpl. rewrite elem_of_cons.
      pose proof (not_elem_of_nil k). tauto.
    + intros k. rewrite (set_columns_get _ _ _ _ _ k Hd). reflexivity.
Qed.

(** The blob in the store once the upload is done, whether the [COPY]
    that follows is accepted or not. *)
Lemma uploaded_blob E to_file copy_to query params w w' r rs :
  dump E to_file copy_to query params w = (w', r) ->
  r = inr tt \/ r = inl LoadError ->
  source E (txn_of w) (stmt_of w) query params = Some rs ->
  exists datas,
    rows_written E (description rs) (clock_reads w) (rows rs) datas /\
    length datas = length (rows rs) /\
    s3 w' !! s3_uri (DW_BUCKET E) to_file =
      Some (String.concat EmptyString (map (record_line E) datas)).
Proof.
  intros Hrun Hr Hsrc.
  destruct (dump_outcome E to_file copy_to query params w)
    as (k & c & evs & st & Heq & Hfacts & Hc & Hw).
  rewrite Heq in Hrun. injection Hrun as <- <-.
  rewrite Hsrc in Hw. destruct Hw as [Hw Hlen].
  assert (Hup : uploaded st = true).
  { destruct st as [|e| | |]; simpl in Hr, Hfacts |- *;
      try reflexivity; destruct Hr as [Hr|Hr]; try discriminate Hr.
    injection Hr as ->.
    destruct Hfacts as (rs' & _ & _ & _ & [Hk | [Hk | Hk]]); discriminate Hk. }
  exists (records evs). split; [exact Hw|]. split.
  - destruct st; try discriminate Hup; exact Hlen.
  - simpl. rewrite Hup, <- Hc. apply lookup_insert_eq.
Qed.

Lemma concat_empty_cons (x : string) (xs : list string) :
  String.concat EmptyString (x :: xs) = x +:+ String.concat EmptyString xs.
Proof. now rewrite concat_cons, map_id_append. Qed.

Lemma printable_lines_app a b :
  printable_lines (a +:+ b) = printable_lines a && printable_lines b.
Proof.
  induction a as [|x a IH]; [reflexivity|].
  rewrite append_cons. simpl. rewrite IH. now rewrite andb_assoc.
Qed.

Lemma all_printable_lines s : all_printable s = true -> printable_lines s = true.
Proof.
  induction s as [|x s IH]; [reflexivity|]. simpl.
  intros [-> Hs]%andb_prop. rewrite (IH Hs). now rewrite orb_true_r.
Qed.

Lemma record_lines_shape E datas :
  let blob := String.concat EmptyString (map (record_line E) datas) in
  count_newlines blob = length datas /\ printable_lines blob = true.
Proof.
  induction datas as [|data datas [IHn IHp]]; [now split|].
  cbn [map length]. rewrite concat_empty_cons.
  rewrite count_newlines_app, printable_lines_app, IHn, IHp.
  unfold record_line.
  rewrite count_newlines_app, printable_lines_app.
  rewrite (count_newlines_none _ (no_newline_json_dumps _ data)).
  rewrite (all_printable_lines _ (all_printable_json_dumps _ data)).
  now split.
Qed.

(** The blob that a dump uploads is newline-delimited ASCII, whatever the
    values of the rows: it has exactly one newline for every row of the
    result, every other character is printable ASCII, and a result with
    no row gives the empty blob, which is uploaded and loaded all the
    same. *)
Theorem blob_is_newline_delimited_ascii (E : external)
    (to_file copy_to query : string) (params : option (list pyval))
    (w w' : world) (r : exn + unit) (rs : result_set) :
  dump E to_file copy_to query params w = (w', r) ->
  r = inr tt \/ r = inl LoadError ->
  source E (txn_of w) (stmt_of w) query params = Some rs ->
  exists blob,
    s3 w' !! s3_uri (DW_BUCKET E) to_file = Some blob /\
    count_newlines blob = length (rows rs) /\
    printable_lines blob = true /\
    (rows rs = [] -> blob = EmptyString).
Proof.
  intros Hrun Hr Hsrc.
  destruct (uploaded_blob _ _ _ _ _ _ _ _ _ Hrun Hr Hsrc)
    as (datas & _ & Hlen & Hs3).
  destruct (record_lines_shape E datas) as [Hn Hp].
  eexists. split; [exact Hs3|]. split; [now rewrite Hn|]. split; [exact Hp|].
  intros Hnil. rewrite Hnil in Hlen. now destruct datas.
Qed.

Lemma blob_is_newline_delimited_ascii_witness :
  exists blob,
    s3 (fst (dump_users steady (DateTime 2023 3 5 10 0 0 0) empty_world))
      !! s3_uri "dw" (users_path (DateTime 2023 3 5 10 0 0 0)) = Some blob /\
    count_newlines blob = 2%nat /\ printable_lines blob = true.
Proof.
  destruct (blob_is_newline_delimited_ascii steady
              (users_path (DateTime 2023 3 5 10 0 0 0)) "users"
              users_query None empty_world
              (fst (dump_users steady (DateTime 2023 3 5 10 0 0 0) empty_world))
              (inr tt) two_rows) as (blob & Hs3 & Hn & Hp & _).
  - refine (run_result _ _ _). vm_compute. reflexivity.
  - left. reflexivity.
  - reflexivity.
  - exists blob. split; [exact Hs3|]. split; [exact Hn | exact Hp].
Defined.

Lemma rows_written_by_day E descr d y : forall lo rs datas,
  rows_written E descr lo rs datas ->
  length datas = length rs ->
  (forall j, (lo <= j)%nat -> same_date (clock E j) d) ->
  minus_one_day d = Some y ->
  map (record_line E) datas = map (line_of E y descr) rs.
Proof.
  induction 1 as [lo rs|lo row rs y0 data datas Hy0 Hd _ IH];
    intros Hlen Hclock Hy.
  - destruct rs; [reflexivity | discriminate Hlen].
  - simpl in Hlen. injection Hlen as Hlen. cbn [map]. f_equal.
    + unfold line_of, row_data in *.
      rewrite <- (strftime_Ymd_same_date y0 y), Hd; [reflexivity|].
      exact (minus_one_day_same_date _ _ _ _ (Hclock lo (le_n _)) Hy0 Hy).
    + apply IH; [exact Hlen | | exact Hy].
      intros j Hj. apply Hclock. lia.
Qed.

(** On a day [d], the blob that a dump uploads is a function of the rows
    of the result and of the day alone: its lines are those of the rows,
    each stamped with the day before [d], whatever the time of day and
    whatever the world the dump started in.  Running the dump again on
    the same day over the same rows puts the same blob at the same
    location. *)
Theorem blob_determined_by_day (E : external)
    (to_file copy_to query : string) (params : option (list pyval))
    (w w' : world) (r : exn + unit) (rs : result_set) (d y : datetime) :
  dump E to_file copy_to query params w = (w', r) ->
  r = inr tt \/ r = inl LoadError ->
  source E (txn_of w) (stmt_of w) query params = Some rs ->
  (forall j, (clock_reads w <= j)%nat -> same_date (clock E j) d) ->
  minus_one_day d = Some y ->
  s3 w' !! s3_uri (DW_BUCKET E) to_file =
    Some (String.concat EmptyString
            (map (line_of E y (description rs)) (rows rs))).
Proof.
  intros Hrun Hr Hsrc Hclock Hy.
  destruct (uploaded_blob _ _ _ _ _ _ _ _ _ Hrun Hr Hsrc)
    as (datas & Hw & Hlen & Hs3).
  rewrite Hs3. do 2 f_equal.
  exact (rows_written_by_day _ _ _ _ _ _ _ Hw Hlen Hclock Hy).
Qed.

Lemma blob_determined_by_day_witness :
  s3 (fst (dump_users steady (DateTime 2023 3 5 10 0 0 0) empty_world))
    !! s3_uri "dw" (users_path (DateTime 2023 3 5 10 0 0 0)) =
  Some (String.concat EmptyString
          (map (line_of steady (DateTime 2023 3 5 0 0 0 0)
                  (description two_rows)) (rows two_rows))).
Proof.
  refine (blob_determined_by_day steady
            (users_path (DateTime 2023 3 5 10 0 0 0)) "users"
            users_query None empty_world
            (fst (dump_users steady (DateTime 2023 3 5 10 0 0 0) empty_world))
            (inr tt) two_rows (DateTime 2023 3 6 0 0 0 0)
            (DateTime 2023 3 5 0 0 0 0) _ _ _ _ _).
  - refine (run_result _ _ _). vm_compute. reflexivity.
  - left. reflexivity.
  - reflexivity.
  - intros j _. unfold same_date. simpl. auto.
  - reflexivity.
Defined.

(** ** A run on one calendar day, end to end *)

Lemma same_date_trans_r a b c : same_date a c -> same_date b c -> same_date a b.
Proof. unfold same_date. intros (? & ? & ?) (? & ? & ?). repeat split; congruence. Qed.

Lemma line_of_same_date E a b descr row :
  same_date a b -> line_of E a descr row = line_of E b descr row.
Proof.
  intros H. unfold line_of, row_data.
  now rewrite (strftime_Ymd_same_date a b H).
Qed.

Lemma blob_of_same_date E a b rs :
  same_date a b -> blob_of E a rs = blob_of E b rs.
Proof.
  intros H. unfold blob_of. f_equal. apply map_ext.
  intros row. now apply line_of_same_date.
Qed.

Lemma date_of_same_date a b : same_date a b -> date_of a = date_of b.
Proof. intros (Hy & Hm & Hd). unfold date_of. now rewrite Hy, Hm, Hd. Qed.

(** A dump that returns, on a day [d]: the world it leaves. *)
Lemma dump_returns_on_day E to_file copy_to query params w w' d y :
  dump E to_file copy_to query params w = (w', inr tt) ->
  (forall j, (clock_reads w <= j)%nat -> same_date (clock E j) d) ->
  minus_one_day d = Some y ->
  exists rs,
    source E (txn_of w) (stmt_of w) query params = Some rs /\
    s3 w' = <[s3_uri (DW_BUCKET E) to_file := blob_of E y rs]> (s3 w) /\
    pending w' =
      pending w ++ [dump_load E to_file copy_to (blob_of E y rs)] /\
    visible w' = visible w /\
    replica_txn w' = Some (txn_of w) /\
    replica_stmts w' = S (stmt_of w) /\
    next_txn w' = match replica_txn w with
                  | Some _ => next_txn w
                  | None => S (next_txn w)
                  end /\
    (clock_reads w <= clock_reads w')%nat.
Proof.
  intros Hrun Hclock Hy.
  destruct (dump_outcome E to_file copy_to query params w)
    as (k & c & evs & st & Heq & Hfacts & Hc & Hw).
  rewrite Heq in Hrun. injection Hrun as <- Hres.
  destruct st; try discriminate Hres.
  destruct Hfacts as (rs & Hsrc & _). exists rs.
  rewrite Hsrc in Hw. destruct Hw as [Hw Hlen].
  assert (Hblob : c = blob_of E y rs).
  { rewrite Hc. unfold blob_of. f_equal.
    exact (rows_written_by_day _ _ _ _ _ _ _ Hw Hlen Hclock Hy). }
  rewrite <- Hblob. simpl.
  split; [exact Hsrc|]. repeat (split; [reflexivity|]). lia.
Qed.

Lemma run_dumps_on_day E w wb day :
  replica_txn w = None ->
  run_dumps E w = (wb, inr tt) ->
  minus_one_day (clock E (clock_reads w)) = Some day ->
  (forall j, (clock_reads w <= j)%nat ->
             same_date (clock E j) (clock E (clock_reads w))) ->
  exists rsu rsp rsa,
    source E (next_txn w) 0 users_query None = Some rsu /\
    source E (next_txn w) 1 projects_query None = Some rsp /\
    source E (next_txn w) 2 activities_query (Some [date_of day]) = Some rsa /\
    s3 wb = store_of E day rsu rsp rsa (s3 w) /\
    pending wb = pending w ++ loads_of E day rsu rsp rsa /\
    visible wb = visible w /\
    next_txn wb = S (next_txn w) /\
    (clock_reads w <= clock_reads wb)%nat.
Proof.
  intros Hnone Hrun Hday Hclock.
  rewrite run_dumps_run, Hday in Hrun.
  assert (Hc0 : forall j, (clock_reads (tick w) <= j)%nat ->
                          same_date (clock E j) (clock E (clock_reads w))).
  { intros j Hj. apply Hclock. simpl in Hj. lia. }
  destruct (dump_users E day (tick w)) as [w1 [e1|[]]] eqn:H1;
    [discriminate Hrun|].
  destruct (dump_returns_on_day _ _ _ _ _ _ _ _ _ H1 Hc0 Hday)
    as (rsu & Hsu & Hs1 & Hp1 & Hv1 & Ht1 & Hi1 & Hn1 & Hk1).
  unfold txn_of, stmt_of in Hsu, Ht1, Hi1.
  simpl in Hsu, Hs1, Hp1, Hv1, Ht1, Hi1, Hn1, Hk1.
  rewrite Hnone in Hsu, Ht1, Hi1, Hn1. simpl in Hsu, Ht1.
  assert (Hc1 : forall j, (clock_reads w1 <= j)%nat ->
                          same_date (clock E j) (clock E (clock_reads w))).
  { intros j Hj. apply Hclock. lia. }
  destruct (dump_projects E day w1) as [w2 [e2|[]]] eqn:H2;
    [discriminate Hrun|].
  destruct (dump_returns_on_day _ _ _ _ _ _ _ _ _ H2 Hc1 Hday)
    as (rsp & Hsp & Hs2 & Hp2 & Hv2 & Ht2 & Hi2 & Hn2 & Hk2).
  unfold txn_of, stmt_of in Hsp, Ht2, Hi2. rewrite Ht1 in Hsp, Ht2, Hi2, Hn2.
  rewrite Hi1 in Hsp, Hi2. simpl in Hsp, Ht2.
  assert (Hc2 : forall j, (clock_reads w2 <= j)%nat ->
                          same_date (clock E j) (clock E (clock_reads w))).
  { intros j Hj. apply Hclock. lia. }
  destruct (dump_returns_on_day _ _ _ _ _ _ _ _ _ Hrun Hc2 Hday)
    as (rsa & Hsa & Hs3 & Hp3 & Hv3 & Ht3 & Hi3 & Hn3 & Hk3).
  unfold txn_of, stmt_of in Hsa. rewrite Ht2 in Hsa, Hn3.
  rewrite Hi2 in Hsa. simpl in Hsa.
  exists rsu, rsp, rsa.
  split; [exact Hsu|]. split; [exact Hsp|]. split; [exact Hsa|].
  split; [|split; [|split; [|split]]].
  - unfold store_of. now rewrite Hs3, Hs2, Hs1.
  - unfold loads_of. rewrite Hp3, Hp2, Hp1, <- !app_assoc. reflexivity.
  - now rewrite Hv3, Hv2, Hv1.
  - now rewrite Hn3, Hn2, Hn1.
  - lia.
Qed.

Lemma main_on_day E w :
  snd (main E w) = inr tt ->
  (forall j, (clock_reads w <= j)%nat ->
             same_date (clock E j) (clock E (clock_reads w))) ->
  exists day rsu rsp rsa,
    minus_one_day (clock E (clock_reads w)) = Some day /\
    source E (next_txn w) 0 users_query None = Some rsu /\
    source E (next_txn w) 1 projects_query None = Some rsp /\
    source E (next_txn w) 2 activities_query (Some [date_of day]) = Some rsa /\
    s3 (fst (main E w)) = store_of E day rsu rsp rsa (s3 w) /\
    visible (fst (main E w)) = visible w ++ loads_of E day rsu rsp rsa /\
    pending (fst (main E w)) = [] /\
    next_txn (fst (main E w)) = S (next_txn w) /\
    (clock_reads w <= clock_reads (fst (main E w)))%nat.
Proof.
  intros Hret Hclock.
  destruct (main_cases E w)
    as [(_ & Hm) | [(_ & _ & Hm) | (_ & _ & wb & r0 & Hrun & Hm)]];
    rewrite Hm in Hret |- *; try discriminate Hret.
  destruct r0 as [e|[]]; [discriminate Hret|]. cbn [fst].
  destruct (minus_one_day (clock E (clock_reads w))) as [day|] eqn:Hday.
  2:{ rewrite run_dumps_run in Hrun. simpl clock_reads in Hrun.
      rewrite Hday in Hrun. discriminate Hrun. }
  destruct (run_dumps_on_day E (connected w) wb day eq_refl Hrun Hday Hclock)
    as (rsu & rsp & rsa & Hsu & Hsp & Hsa & Hs3 & Hp & Hv & Hn & Hk).
  exists day, rsu, rsp, rsa.
  split; [reflexivity|]. split; [exact Hsu|]. split; [exact Hsp|].
  split; [exact Hsa|]. split; [exact Hs3|].
  split; [simpl; rewrite Hv, Hp; reflexivity|].
  split; [reflexivity|]. split; [exact Hn | exact Hk].
Qed.

(** End to end.  A run that returns, with its clock reads on one
    calendar day: the three queries were answered in the one transaction
    of the run; the store holds, at the three locations of the day before,
    the blobs of the three results, one line for every row stamped with
    that day, and is otherwise as before; and the warehouse shows, after
    what it showed, the loads of exactly these three blobs. *)
Theorem run_on_one_day (E : external) (w : world) :
  snd (main E w) = inr tt ->
  (forall j, (clock_reads w <= j)%nat ->
             same_date (clock E j) (clock E (clock_reads w))) ->
  exists day rsu rsp rsa,
    minus_one_day (clock E (clock_reads w)) = Some day /\
    source E (next_txn w) 0 users_query None = Some rsu /\
    source E (next_txn w) 1 projects_query None = Some rsp /\
    source E (next_txn w) 2 activities_query (Some [date_of day]) = Some rsa /\
    s3 (fst (main E w)) = store_of E day rsu rsp rsa (s3 w) /\
    visible (fst (main E w)) = visible w ++ loads_of E day rsu rsp rsa /\
    pending (fst (main E w)) = [].
Proof.
  intros Hret Hclock.
  destruct (main_on_day E w Hret Hclock)
    as (day & rsu & rsp & rsa & Hday & Hsu & Hsp & Hsa & Hs3 & Hv & Hp & _).
  exists day, rsu, rsp, rsa. auto 10.
Qed.

Lemma run_on_one_day_witness :
  visible (fst (main steady empty_world)) =
  loads_of steady (DateTime 2023 3 5 10 0 0 0) two_rows two_rows two_rows.
Proof.
  destruct (run_on_one_day steady empty_world)
    as (day & rsu & rsp & rsa & Hday & Hsu & Hsp & Hsa & _ & Hv & _).
  - vm_compute. reflexivity.
  - intros j _. unfold same_date. simpl. auto.
  - vm_compute in Hday. injection Hday as <-.
    injection Hsu as <-. injection Hsp as <-. injection Hsa as <-.
    exact Hv.
Defined.

Lemma store_of_twice E day rsu rsp rsa o :
  store_of E day rsu rsp rsa (store_of E day rsu rsp rsa o) =
  store_of E day rsu rsp rsa o.
Proof.
  apply map_eq. intros u. unfold store_of.
  destruct (decide (u = s3_uri (DW_BUCKET E) (activities_path day))) as [->|Ha].
  { now rewrite !lookup_insert_eq. }
  rewrite (lookup_insert_ne _ (s3_uri (DW_BUCKET E) (activities_path day)))
    by congruence.
  destruct (decide (u = s3_uri (DW_BUCKET E) (projects_path day))) as [->|Hp].
  { now rewrite !lookup_insert_eq, lookup_insert_ne, lookup_insert_eq. }
  rewrite (lookup_insert_ne _ (s3_uri (DW_BUCKET E) (projects_path day)))
    by congruence.
  destruct (decide (u = s3_uri (DW_BUCKET E) (users_path day))) as [->|Hu].
  { rewrite lookup_insert_eq.
    now rewrite lookup_insert_ne, lookup_insert_ne, lookup_insert_eq. }
  now repeat (rewrite lookup_insert_ne by congruence).
Qed.

(** Running the script a second time on the same day over unchanged
    source data is not a no-op for the warehouse: the second run writes
    the same three blobs over the first ones, so that the store is left
    as the first run left it, but it has the warehouse load each of them
    once more, and the three loads are then visible twice. *)
Theorem second_run_loads_again (E : external) (w : world) :
  snd (main E w) = inr tt ->
  snd (main E (fst (main E w))) = inr tt ->
  (forall j, (clock_reads w <= j)%nat ->
             same_date (clock E j) (clock E (clock_reads w))) ->
  (forall i q p,
     source E (S (next_txn w)) i q p = source E (next_txn w) i q p) ->
  s3 (fst (main E (fst (main E w)))) = s3 (fst (main E w)) /\
  exists loads,
    length loads = 3%nat /\
    visible (fst (main E w)) = visible w ++ loads /\
    visible (fst (main E (fst (main E w)))) = visible w ++ loads ++ loads.
Proof.
  intros Hret1 Hret2 Hclock Hsame.
  destruct (main_on_day E w Hret1 Hclock)
    as (day & rsu & rsp & rsa & Hday & Hsu & Hsp & Hsa & Hs3 & Hv & _ & Hn & Hk).
  assert (Hclock2 : forall j, (clock_reads (fst (main E w)) <= j)%nat ->
            same_date (clock E j) (clock E (clock_reads (fst (main E w))))).
  { intros j Hj. apply (same_date_trans_r _ _ (clock E (clock_reads w)));
      apply Hclock; lia. }
  destruct (main_on_day E _ Hret2 Hclock2)
    as (day2 & rsu2 & rsp2 & rsa2 & Hday2 & Hsu2 & Hsp2 & Hsa2 & Hs32 & Hv2 & _).
  assert (Hdd : same_date day2 day).
  { refine (minus_one_day_same_date _ _ _ _ _ Hday2 Hday).
    apply Hclock. exact Hk. }
  rewrite Hn, Hsame in Hsu2, Hsp2, Hsa2.
  rewrite (date_of_same_date _ _ Hdd) in Hsa2.
  assert (rsu2 = rsu) as -> by congruence.
  assert (rsp2 = rsp) as -> by congruence.
  assert (rsa2 = rsa) as -> by congruence.
  assert (Hstore : forall o, store_of E day2 rsu rsp rsa o =
                             store_of E day rsu rsp rsa o).
  { intros o. unfold store_of, users_path, projects_path, activities_path.
    now rewrite (date_params_same_date _ _ Hdd),
                !(blob_of_same_date E _ _ _ Hdd). }
  assert (Hloads : loads_of E day2 rsu rsp rsa = loads_of E day rsu rsp rsa).
  { unfold loads_of, users_path, projects_path, activities_path.
    now rewrite (date_params_same_date _ _ Hdd),
                !(blob_of_same_date E _ _ _ Hdd). }
  split.
  - rewrite Hs32, Hstore, Hs3. apply store_of_twice.
  - exists (loads_of E day rsu rsp rsa).
    split; [reflexivity|]. split; [exact Hv|].
    rewrite Hv2, Hloads, Hv, <- app_assoc. reflexivity.
Qed.

Lemma second_run_loads_again_witness :
  s3 (fst (main steady (fst (main steady empty_world)))) =
  s3 (fst (main steady empty_world)).
Proof.
  refine (proj1 (second_run_loads_again steady empty_world _ _ _ _)).
  - vm_compute. reflexivity.
  - vm_compute. reflexivity.
  - intros j _. unfold same_date. simpl. auto.
  - reflexivity.
Defined.

(** ** The store is not rolled back *)

Lemma store_follows_nil o : store_follows o o [].
Proof.
  split; [|split]; [intros u Hu; now apply elem_of_nil in Hu | reflexivity | auto].
Qed.

Lemma store_follows_app o o1 o2 evs1 evs2 :
  store_follows o o1 evs1 -> store_follows o1 o2 evs2 ->
  store_follows o o2 (evs1 ++ evs2).
Proof.
  intros (Hin1 & Hout1 & Hmono1) (Hin2 & Hout2 & Hmono2).
  split; [|split].
  - intros u Hu. rewrite uploads_app in Hu.
    apply elem_of_app in Hu as [Hu|Hu]; [apply Hmono2, Hin1, Hu | apply Hin2, Hu].
  - intros u Hu. rewrite uploads_app in Hu.
    apply not_elem_of_app in Hu as [Hu1 Hu2].
    now rewrite Hout2, Hout1.
  - intros u Hu. apply Hmono2, Hmono1, Hu.
Qed.

Lemma dump_store_follows E to_file copy_to query params w w' r :
  dump E to_file copy_to query params w = (w', r) ->
  exists evs, trace w' = trace w ++ evs /\ store_follows (s3 w) (s3 w') evs.
Proof.
  intros Hrun.
  apply dump_inv in Hrun as (k & c & evs & st & descr & -> & _ & Hrows & _).
  eexists. split; [reflexivity|].
  destruct (dump_events_view E to_file copy_to query params w evs st
              _ _ _ _ _ Hrows) as (_ & Hu & _).
  unfold store_follows. rewrite Hu. simpl. destruct (uploaded st).
  - split; [|split].
    + intros u Hin. apply elem_of_cons in Hin as [-> | Hin];
        [|now apply elem_of_nil in Hin].
      rewrite lookup_insert_eq. eauto.
    + intros u Hout. apply not_elem_of_cons in Hout as [Hne _].
      now rewrite lookup_insert_ne.
    + intros u Hsome.
      destruct (decide (u = s3_uri (DW_BUCKET E) to_file)) as [->|Hne].
      * rewrite lookup_insert_eq. eauto.
      * now rewrite lookup_insert_ne.
  - apply store_follows_nil.
Qed.

Lemma run_dumps_store_follows E w wb r :
  run_dumps E w = (wb, r) ->
  exists evs, trace wb = trace w ++ evs /\ store_follows (s3 w) (s3 wb) evs.
Proof.
  rewrite run_dumps_run.
  destruct (minus_one_day (clock E (clock_reads w))) as [day|].
  2:{ intros [= <- <-]. exists []. split; [simpl; now rewrite app_nil_r|].
      apply store_follows_nil. }
  destruct (dump_users E day (tick w)) as [w1 r1] eqn:H1.
  apply dump_store_follows in H1 as (evs1 & Ht1 & Hf1).
  simpl in Ht1, Hf1.
  destruct r1 as [e1|[]].
  { intros [= <- <-]. now exists evs1. }
  destruct (dump_projects E day w1) as [w2 r2] eqn:H2.
  apply dump_store_follows in H2 as (evs2 & Ht2 & Hf2).
  destruct r2 as [e2|[]].
  { intros [= <- <-]. exists (evs1 ++ evs2).
    split; [now rewrite Ht2, Ht1, app_assoc|].
    exact (store_follows_app _ _ _ _ _ Hf1 Hf2). }
  intros H3. apply dump_store_follows in H3 as (evs3 & Ht3 & Hf3).
  exists (evs1 ++ evs2 ++ evs3). split.
  - now rewrite Ht3, Ht2, Ht1, !app_assoc.
  - exact (store_follows_app _ _ _ _ _ Hf1
             (store_follows_app _ _ _ _ _ Hf2 Hf3)).
Qed.

(** The store is outside every transaction.  Whatever way a run ends,
    every location it uploaded to holds an object at the end, also when
    a later step raised and nothing was committed to the warehouse; the
    run changes the store at the uploaded locations only, and removes no
    object. *)
Theorem uploads_outlive_the_run (E : external) (w : world) :
  let w' := fst (main E w) in
  exists evs,
    trace w' = trace w ++ evs /\
    (forall u, u ∈ uploads evs -> is_Some (s3 w' !! u)) /\
    (forall u, u ∉ uploads evs -> s3 w' !! u = s3 w !! u) /\
    (forall u, is_Some (s3 w !! u) -> is_Some (s3 w' !! u)).
Proof.
  destruct (main_cases E w)
    as [(_ & ->) | [(_ & _ & ->) | (_ & _ & wb & r0 & Hrun & ->)]];
    cbn [fst].
  - exists []. split; [now rewrite app_nil_r | apply store_follows_nil].
  - exists []. split; [simpl; now rewrite app_nil_r | apply store_follows_nil].
  - apply run_dumps_store_follows in Hrun as (evs & Ht & Hf).
    simpl in Ht, Hf.
    destruct r0 as [e|u]; cbn [fst].
    + exists (evs ++ [EReplicaRollback]). split.
      { simpl. now rewrite Ht, app_assoc. }
      apply (store_follows_app _ _ _ _ _ Hf). apply store_follows_nil.
    + exists (evs ++ [EReplicaCommit; ERedshiftCommit; ELog "Done"] ++
              notice E). split.
      { simpl. now rewrite Ht, app_assoc. }
      apply (store_follows_app _ _ _ _ _ Hf).
      unfold notice. destruct (datadog_ok E); apply store_follows_nil.
Qed.

(** ** The day before *)

(** [today - timedelta(days=1)], the date that stamps the records and
    names the partition, is the calendar day just before the day of the
    clock read, at the same time of day: it is a date of the calendar,
    it comes before the day of the clock read, and no date of the
    calendar lies between the two.  The subtraction overflows on
    0001-01-01 only. *)
Theorem day_before_is_the_previous_date (t : datetime) :
  datetime_ok t = true ->
  match minus_one_day t with
  | Some y =>
      datetime_ok y = true /\ same_time y t /\ date_before y t /\
      (forall x, datetime_ok x = true ->
                 ~ (date_before y x /\ date_before x t))
  | None => dt_year t = 1 /\ dt_month t = 1 /\ dt_day t = 1
  end.
Proof.
  intros Hok.
  destruct (minus_one_day t) as [y|] eqn:Hy.
  - split; [exact (minus_one_day_ok _ _ Hok Hy)|].
    apply datetime_ok_bounds in Hok as (Hyr & Hmo & Hda).
    pose proof (days_in_month_bounds (dt_year t) (dt_month t - 1)) as Hprev.
    unfold minus_one_day in Hy.
    destruct (1 <? dt_day t) eqn:Hd;
      [|destruct (1 <? dt_month t) eqn:Hm;
        [|destruct (1 <? dt_year t) eqn:Hyy; [|discriminate Hy]]];
      injection Hy as <-;
      (split; [repeat split|]);
      unfold date_before; simpl;
      (split; [lia|]);
      intros x Hx [Hlo Hhi];
      apply datetime_ok_bounds in Hx as (Hxy & Hxm & Hxd);
      pose proof (days_in_month_bounds (dt_year x) (dt_month x)).
    + lia.
    + assert (Hsy : dt_year x = dt_year t) by lia.
      assert (Hsm : dt_month x = dt_month t - 1) by lia.
      rewrite Hsy, Hsm in Hxd. lia.
    + lia.
  - apply datetime_ok_bounds in Hok as (Hyr & Hmo & Hda).
    unfold minus_one_day in Hy.
    destruct (1 <? dt_day t) eqn:Hd; [discriminate Hy|].
    destruct (1 <? dt_month t) eqn:Hm; [discriminate Hy|].
    destruct (1 <? dt_year t) eqn:Hyy; [discriminate Hy|]. lia.
Qed.

Lemma day_before_is_the_previous_date_witness :
  date_before (DateTime 2024 2 29 8 0 0 0) (DateTime 2024 3 1 8 0 0 0).
Proof.
  exact (proj1 (proj2 (proj2
    (day_before_is_the_previous_date (DateTime 2024 3 1 8 0 0 0) eq_refl)))).
Defined.

(** ** All or nothing in the warehouse *)

Lemma run_dumps_loads E w wb r :
  run_dumps E w = (wb, r) ->
  visible wb = visible w /\
  (r = inr tt ->
   exists l1 l2 l3,
     pending wb = pending w ++ [l1; l2; l3] /\
     map ld_table [l1; l2; l3] = ["users"; "projects"; "activities"]).
Proof.
  rewrite run_dumps_run.
  destruct (minus_one_day (clock E (clock_reads w))) as [day|].
  2:{ intros [= <- <-]. split; [reflexivity | discriminate]. }
  destruct (dump_users E day (tick w)) as [w1 r1] eqn:H1.
  destruct (dump_store _ _ _ _ _ _ _ _ H1) as (_ & Hv1 & Hb1).
  simpl in Hv1, Hb1.
  destruct r1 as [e1|[]].
  { intros [= <- <-]. split; [exact Hv1 | discriminate]. }
  destruct (Hb1 eq_refl) as (b1 & _ & Hp1).
  destruct (dump_projects E day w1) as [w2 r2] eqn:H2.
  destruct (dump_store _ _ _ _ _ _ _ _ H2) as (_ & Hv2 & Hb2).
  destruct r2 as [e2|[]].
  { intros [= <- <-]. split; [now rewrite Hv2 | discriminate]. }
  destruct (Hb2 eq_refl) as (b2 & _ & Hp2).
  intros H3.
  destruct (dump_store _ _ _ _ _ _ _ _ H3) as (_ & Hv3 & Hb3).
  split; [now rewrite Hv3, Hv2|].
  intros Hr. destruct (Hb3 Hr) as (b3 & _ & Hp3).
  eexists _, _, _. split.
  - rewrite Hp3, Hp2, Hp1, <- !app_assoc. reflexivity.
  - reflexivity.
Qed.

(** The warehouse gets the three tables or nothing.  Either the one
    commit is sent and the loads of users, projects and activities, in
    this order, are added to what the warehouse showed; or no commit is
    sent, the warehouse shows exactly what it showed before the run, and
    [main] raises.  A run that returns has committed; a run that raises
    has committed nothing, unless it raises after the commit, when the
    event cannot be created. *)
Theorem warehouse_all_or_nothing (E : external) (w : world) :
  let w' := fst (main E w) in
  let r := snd (main E w) in
  exists evs,
    trace w' = trace w ++ evs /\
    ((redshift_commits evs = [tt] /\
      (r = inr tt \/ datadog_ok E = false) /\
      exists loads,
        visible w' = visible w ++ loads /\
        map ld_table loads = ["users"; "projects"; "activities"]) \/
     (redshift_commits evs = [] /\ r <> inr tt /\ visible w' = visible w)).
Proof.
  destruct (main_cases E w)
    as [(_ & ->) | [(_ & _ & ->) | (_ & _ & wb & r0 & Hrun & ->)]];
    cbn [fst snd].
  - exists []. split; [now rewrite app_nil_r|]. right.
    split; [reflexivity|]. split; [discriminate | reflexivity].
  - exists []. split; [simpl; now rewrite app_nil_r|]. right.
    split; [reflexivity|]. split; [discriminate | reflexivity].
  - destruct (run_dumps_loads _ _ _ _ Hrun) as (Hv & Hp).
    apply run_dumps_inside in Hrun as (evs & Ht & Hin).
    destruct (inside_dump_views evs Hin) as (_ & Hc & _).
    simpl in Hv, Hp, Ht.
    destruct r0 as [e|[]]; cbn [fst snd].
    + exists (evs ++ [EReplicaRollback]). split.
      { simpl. now rewrite Ht, app_assoc. }
      right. unfold redshift_commits in *. rewrite omap_app, Hc.
      split; [reflexivity|]. split; [discriminate | exact Hv].
    + exists (evs ++ [EReplicaCommit; ERedshiftCommit; ELog "Done"] ++ notice E).
      split.
      { simpl. rewrite Ht, <- app_assoc. reflexivity. }
      left. split; [|split].
      * unfold redshift_commits, notice in *. rewrite omap_app, Hc.
        now destruct (datadog_ok E).
      * unfold notified. destruct (datadog_ok E); [now left | now right].
      * destruct (Hp eq_refl) as (l1 & l2 & l3 & Hpend & Htab).
        exists [l1; l2; l3]. split; [|exact Htab].
        simpl. now rewrite Hv, Hpend.
Qed.

(** The case that sets the commit apart from the return of [main]: the
    event cannot be created, [main] raises, and the three loads are
    committed. *)
Example unnotified_run_commits :
  snd (main unnotified empty_world) = inl NotificationError /\
  map ld_table (visible (fst (main unnotified empty_world))) =
    ["users"; "projects"; "activities"] /\
  redshift_commits (trace (fst (main unnotified empty_world))) = [tt] /\
  notifications (trace (fst (main unnotified empty_world))) = [].
Proof. vm_compute. repeat split. Qed.
